(** * Link layer of Lab3: frame codec and stop-and-wait ARQ

    A shallow embedding of [src/linklayer_mod.c] (constants from the
    header [linklayer.h]).  C [int]s are [Z]; a [byte_t] is a [Z] in
    [0, 256) and every store into a [byte_t] array goes through
    [to_byte]; the C remainder [%] is [Z.rem]; arrays are lists of
    bytes read with [rd] and written with [wr].  The module-level
    statics of the C file are the fields of [LLState]; the physical
    layer and the clock are a [World] that every stateful function
    threads.  [printf] calls have no effect on any value and are left
    out. *)

From Stdlib Require Import ZArith List Bool Lia.
Import ListNotations.
Open Scope Z_scope.

(** ** Constants of linklayer.h *)

Definition MAX_BLK : Z := 200.
Definition OPT_BLK : Z := 70.
Definition MOD_SEQNUM : Z := 16.
Definition STARTBYTE : Z := 212.
Definition ENDBYTE : Z := 204.
Definition FRSPOS : Z := 1.
Definition SEQNUMPOS : Z := 2.
Definition HEADERSIZE : Z := 3.
Definition TRAILERSIZE : Z := 2.
Definition FRAMEGOOD : Z := 1.
Definition FRAMEBAD : Z := 0.
Definition POSACK : Z := 1.
Definition NEGACK : Z := 26.
Definition ACK_SIZE : Z := 5.
Definition MAX_TRIES : Z := 5.
Definition SUCCESS : Z := 0.
Definition BADUSE : Z := -9.
Definition FAILURE : Z := -12.
Definition GIVEUP : Z := -15.
Definition SIMPLE : Z := 1.
Definition FULL : Z := 2.
Definition MODULO : Z := 251.

(** ** Bytes and arrays *)

(** The values a [byte_t] can hold. *)
Definition is_byte (b : Z) : Prop := 0 <= b < 256.

(** Conversion of an [int] to [byte_t] (unsigned char): reduction
    modulo 256. *)
Definition to_byte (x : Z) : Z := x mod 256.

(** [a[i]].  An index outside the list reads as 0; the C program has no
    defined value there, and every theorem below reads inside the
    received bytes. *)
Definition rd (a : list Z) (i : Z) : Z :=
  if i <? 0 then 0 else nth (Z.to_nat i) a 0.

(** List update at a position given as [nat]. *)
Fixpoint wr_nat (a : list Z) (i : nat) (v : Z) : list Z :=
  match a, i with
  | [], _ => []
  | _ :: t, O => v :: t
  | h :: t, S j => h :: wr_nat t j v
  end.

(** [a[i] = v] for an index inside the array.  A store outside the
    list is dropped here, where the C store writes past the array and
    the program has no defined behaviour: the definitions describe the
    program only while every store is inside.  Theorems about stores
    carry the hypotheses that keep them inside: a bound on the caller's
    array, [frame_end_fits], [call_in_bounds]. *)
Definition wr (a : list Z) (i : Z) (v : Z) : list Z :=
  if i <? 0 then a else wr_nat a (Z.to_nat i) v.

(** Inverting bit [k] of a byte, as a channel error does. *)
Definition flip_bit (b : Z) (k : Z) : Z := Z.lxor b (Z.shiftl 1 k).

(** ** Frame codec *)

(** [next]: advance a sequence number, wrapping at [MOD_SEQNUM]. *)
Definition next (seq : Z) : Z := Z.rem (seq + 1) MOD_SEQNUM.

(** The data-copy loop of [buildDataFrame]: each data byte is stored
    after the bytes written so far and added to the checksum. *)
Fixpoint build_loop (dataTx : list Z) (frameTx : list Z) (checkSum : Z)
  : list Z * Z :=
  match dataTx with
  | [] => (frameTx, checkSum)
  | d :: rest => build_loop rest (frameTx ++ [d]) (checkSum + d)
  end.

(** [buildDataFrame]: the bytes written to [frameTx] and the returned
    frame size.  [nData] is the length of [dataTx]. *)
Definition buildDataFrame (dataTx : list Z) (seq : Z) : list Z * Z :=
  let nData := Z.of_nat (length dataTx) in
  let frameSize := HEADERSIZE + TRAILERSIZE + nData in
  let frameTx := [STARTBYTE; to_byte frameSize; to_byte seq] in
  let checkSum := 0 + seq + frameSize in
  let '(frameTx, checkSum) := build_loop dataTx frameTx checkSum in
  let checkSum := Z.rem checkSum MODULO in
  let frameTx := frameTx ++ [to_byte checkSum] in
  let frameTx := frameTx ++ [ENDBYTE] in
  (frameTx, HEADERSIZE + nData + TRAILERSIZE).

(** The summing loop of [checkFrame]: [n] iterations from index [i]. *)
Fixpoint check_loop (frameRx : list Z) (n : nat) (i : Z) (checkSum_Lcl : Z)
  : Z :=
  match n with
  | O => checkSum_Lcl
  | S n' =>
      check_loop frameRx n' (i + 1)
        (checkSum_Lcl + rd frameRx ((HEADERSIZE - 2) + i))
  end.

(** [checkFrame]: checksum first, then start marker, then end marker. *)
Definition checkFrame (frameRx : list Z) (sizeFrame : Z) : Z :=
  let checkSum_Rx := rd frameRx (sizeFrame - 2) in
  let checkSum_Lcl := check_loop frameRx (Z.to_nat (sizeFrame - 3)) 0 0 in
  let checkSum_Lcl := Z.rem checkSum_Lcl MODULO in
  if negb (checkSum_Lcl =? checkSum_Rx) then FRAMEBAD
  else if negb (rd frameRx 0 =? STARTBYTE) then FRAMEBAD
  else if negb (rd frameRx (sizeFrame - 1) =? ENDBYTE) then FRAMEBAD
  else FRAMEGOOD.

(** The copy loop of [processFrame]. *)
Fixpoint process_loop (frameRx : list Z) (n : nat) (i : Z) (dataRx : list Z)
  : list Z :=
  match n with
  | O => dataRx
  | S n' =>
      process_loop frameRx n' (i + 1) (wr dataRx i (rd frameRx (HEADERSIZE + i)))
  end.

(** [processFrame]: returns the number of data bytes, the caller's array
    after the copy, and the sequence number stored through [seqNum]. *)
Definition processFrame (frameRx : list Z) (sizeFrame : Z)
    (dataRx : list Z) (maxData : Z) : Z * list Z * Z :=
  let seqNum := rd frameRx SEQNUMPOS in
  let nRXdata := sizeFrame - HEADERSIZE - TRAILERSIZE in
  let nRXdata := if nRXdata >? maxData then maxData else nRXdata in
  (nRXdata, process_loop frameRx (Z.to_nat nRXdata) 0 dataRx, seqNum).

(** ** Connection state: the statics of linklayer_mod.c *)

Record LLState : Type := mkLLState {
  connected : bool;
  seqNumTx : Z;
  lastSeqRx : Z;
  framesSent : Z;
  acksSent : Z;
  naksSent : Z;
  acksRx : Z;
  naksRx : Z;
  badFrames : Z;
  goodFrames : Z;
  timeouts : Z
}.

Definition set_connected (v : bool) (s : LLState) : LLState :=
  mkLLState v (seqNumTx s) (lastSeqRx s) (framesSent s) (acksSent s)
    (naksSent s) (acksRx s) (naksRx s) (badFrames s) (goodFrames s) (timeouts s).
Definition set_seqNumTx (v : Z) (s : LLState) : LLState :=
  mkLLState (connected s) v (lastSeqRx s) (framesSent s) (acksSent s)
    (naksSent s) (acksRx s) (naksRx s) (badFrames s) (goodFrames s) (timeouts s).
Definition set_lastSeqRx (v : Z) (s : LLState) : LLState :=
  mkLLState (connected s) (seqNumTx s) v (framesSent s) (acksSent s)
    (naksSent s) (acksRx s) (naksRx s) (badFrames s) (goodFrames s) (timeouts s).
Definition inc_framesSent (s : LLState) : LLState :=
  mkLLState (connected s) (seqNumTx s) (lastSeqRx s) (framesSent s + 1)
    (acksSent s) (naksSent s) (acksRx s) (naksRx s) (badFrames s)
    (goodFrames s) (timeouts s).
Definition inc_acksSent (s : LLState) : LLState :=
  mkLLState (connected s) (seqNumTx s) (lastSeqRx s) (framesSent s)
    (acksSent s + 1) (naksSent s) (acksRx s) (naksRx s) (badFrames s)
    (goodFrames s) (timeouts s).
Definition inc_naksSent (s : LLState) : LLState :=
  mkLLState (connected s) (seqNumTx s) (lastSeqRx s) (framesSent s)
    (acksSent s) (naksSent s + 1) (acksRx s) (naksRx s) (badFrames s)
    (goodFrames s) (timeouts s).
Definition inc_acksRx (s : LLState) : LLState :=
  mkLLState (connected s) (seqNumTx s) (lastSeqRx s) (framesSent s)
    (acksSent s) (naksSent s) (acksRx s + 1) (naksRx s) (badFrames s)
    (goodFrames s) (timeouts s).
Definition inc_naksRx (s : LLState) : LLState :=
  mkLLState (connected s) (seqNumTx s) (lastSeqRx s) (framesSent s)
    (acksSent s) (naksSent s) (acksRx s) (naksRx s + 1) (badFrames s)
    (goodFrames s) (timeouts s).
Definition inc_badFrames (s : LLState) : LLState :=
  mkLLState (connected s) (seqNumTx s) (lastSeqRx s) (framesSent s)
    (acksSent s) (naksSent s) (acksRx s) (naksRx s) (badFrames s + 1)
    (goodFrames s) (timeouts s).
Definition inc_goodFrames (s : LLState) : LLState :=
  mkLLState (connected s) (seqNumTx s) (lastSeqRx s) (framesSent s)
    (acksSent s) (naksSent s) (acksRx s) (naksRx s) (badFrames s)
    (goodFrames s + 1) (timeouts s).
Definition inc_timeouts (s : LLState) : LLState :=
  mkLLState (connected s) (seqNumTx s) (lastSeqRx s) (framesSent s)
    (acksSent s) (naksSent s) (acksRx s) (naksRx s) (badFrames s)
    (goodFrames s) (timeouts s + 1).

(** ** The world outside the link layer *)

(** What one call of [getFrame] ends with.  Its two loops poll
    [PHY_get] one byte at a time against [clock()]; here the call is
    represented by how it ends: a problem code from [PHY_get], the
    time limit, or [nRx] bytes left in the frame array. *)
Inductive GetFrameEnd : Type :=
| GF_problem (code : positive)
| GF_timeup
| GF_bytes (bs : list Z).

(** The serial line as the link layer sees it: what the [k]-th call of
    [PHY_send] returns for the bytes it is given, how the [k]-th call of
    [getFrame] ends, what [PHY_open] returns, and the record of all
    byte blocks handed to [PHY_send] so far (oldest first). *)
Record World : Type := mkWorld {
  phy_open_ret : Z;
  phy_send_ret : nat -> list Z -> Z;
  frame_end : nat -> GetFrameEnd;
  getFrame_calls : nat;
  phy_out : list (list Z)
}.

(** [PHY_send(dataTx, nBytesToSend)]. *)
Definition PHY_send (dataTx : list Z) (nBytesToSend : Z) (w : World)
  : Z * World :=
  let bytes := firstn (Z.to_nat nBytesToSend) dataTx in
  (phy_send_ret w (length (phy_out w)) bytes,
   mkWorld (phy_open_ret w) (phy_send_ret w) (frame_end w)
     (getFrame_calls w) (phy_out w ++ [bytes])).

(** [getFrame(frameRx, maxSize, timeLimit)]: the return value and the
    frame array.  A frame that fills the array is reported as 0.  The
    C function compares the number of bytes with [maxSize] only after
    it has stored them, so for a frame of more than [maxSize] bytes it
    has by then written past an array of [maxSize] cells; this
    definition describes the call for frames that fit the array
    ([frame_end_fits]), and [Serial.getFrame] follows the stores byte
    by byte. *)
Definition getFrame (maxSize : Z) (w : World) : Z * list Z * World :=
  let w' := mkWorld (phy_open_ret w) (phy_send_ret w) (frame_end w)
              (S (getFrame_calls w)) (phy_out w) in
  match frame_end w (getFrame_calls w) with
  | GF_problem code => (Z.neg code, [], w')
  | GF_timeup => (0, [], w')
  | GF_bytes bs =>
      let nRx := Z.of_nat (length bs) in
      if nRx >=? maxSize then (0, bs, w') else (nRx, bs, w')
  end.

(** ** Acknowledgements *)

(** The five bytes [sendAck] puts in [ackFrame]. *)
Definition ackFrame (seq : Z) : list Z :=
  let sizeAck := 5 in
  let checkSum := 0 + seq + sizeAck in
  let checkSum := Z.rem checkSum MODULO in
  [STARTBYTE; to_byte sizeAck; to_byte seq; to_byte checkSum; ENDBYTE].

(** [sendAck(type, seq, debug)]. *)
Definition sendAck (type seq : Z) (st : LLState) (w : World)
  : Z * LLState * World :=
  let sizeAck := 5 in
  let '(retVal, w) := PHY_send (ackFrame seq) sizeAck w in
  if negb (retVal =? sizeAck) then (FAILURE, st, w)
  else
    let st := if type =? POSACK then inc_acksSent st
              else if type =? NEGACK then inc_naksSent st
              else st in
    (SUCCESS, st, w).

(** ** Connecting *)

(** [LL_connect]. *)
Definition LL_connect (st : LLState) (w : World) : Z * LLState * World :=
  let retCode := phy_open_ret w in
  if retCode =? SUCCESS then
    (SUCCESS, mkLLState true 0 (-1) 0 0 0 0 0 0 0 0, w)
  else (- retCode, set_connected false st, w).

(** ** Sender *)

(** One pass through the body of the do-while loop of [LL_send]: either
    the function returns from inside the loop, or the pass reaches the
    loop test with these values of the variables. *)
Inductive SendPass : Type :=
| SendReturn (ret : Z) (st : LLState) (w : World)
| SendTest (success : bool) (attempts : Z) (st : LLState) (w : World).

Definition send_body (frameTx : list Z) (sizeTXframe debug : Z)
    (success : bool) (attempts : Z) (st : LLState) (w : World) : SendPass :=
  let '(retVal, w) := PHY_send frameTx sizeTXframe w in
  if negb (retVal =? sizeTXframe) then SendReturn FAILURE st w
  else
    let st := inc_framesSent st in
    let attempts := attempts + 1 in
    if debug =? SIMPLE then SendTest true attempts st w
    else
      let '(sizeAck, frameAck, w) := getFrame (2 * ACK_SIZE) w in
      if sizeAck <? 0 then SendReturn FAILURE st w
      else if sizeAck =? 0 then SendTest success attempts (inc_timeouts st) w
      else if checkFrame frameAck sizeAck =? FRAMEGOOD then
        let st := inc_goodFrames st in
        let seqAck := rd frameAck SEQNUMPOS in
        if seqAck =? seqNumTx st then SendTest true attempts (inc_acksRx st) w
        else SendTest success attempts (inc_naksRx st) w
      else SendTest success attempts (inc_badFrames st) w.

(** The code after the loop of [LL_send]. *)
Definition send_end (success : bool) (st : LLState) (w : World)
  : Z * LLState * World :=
  if success then (SUCCESS, set_seqNumTx (next (seqNumTx st)) st, w)
  else (GIVEUP, st, w).

(** The do-while loop of [LL_send].  [fuel] bounds the number of
    passes; [send_loop_total] shows that [MAX_TRIES] passes are always
    enough, so [None] is never the result of [LL_send]. *)
Fixpoint send_loop (fuel : nat) (frameTx : list Z) (sizeTXframe debug : Z)
    (success : bool) (attempts : Z) (st : LLState) (w : World)
  : option (Z * LLState * World) :=
  match fuel with
  | O => None
  | S fuel' =>
      match send_body frameTx sizeTXframe debug success attempts st w with
      | SendReturn ret st w => Some (ret, st, w)
      | SendTest success attempts st w =>
          if negb success && (attempts <? MAX_TRIES)
          then send_loop fuel' frameTx sizeTXframe debug success attempts st w
          else Some (send_end success st w)
      end
  end.

(** [LL_send(dataTx, nTXdata, debug)], with [nTXdata] the length of
    [dataTx]. *)
Definition LL_send (dataTx : list Z) (debug : Z) (st : LLState) (w : World)
  : option (Z * LLState * World) :=
  let nTXdata := Z.of_nat (length dataTx) in
  if negb (connected st) then Some (BADUSE, st, w)
  else if nTXdata >? MAX_BLK then Some (BADUSE, st, w)
  else
    let '(frameTx, sizeTXframe) := buildDataFrame dataTx (seqNumTx st) in
    send_loop (Z.to_nat MAX_TRIES) frameTx sizeTXframe debug false 0 st w.

(** ** Receiver *)

(** The loop [for (i=0; i<10; i++) dataRx[i] = 35]. *)
Fixpoint fill_loop (n : nat) (i : Z) (dataRx : list Z) : list Z :=
  match n with
  | O => dataRx
  | S n' => fill_loop n' (i + 1) (wr dataRx i 35)
  end.

(** One pass through the body of the do-while loop of [LL_receive]. *)
Inductive RecvPass : Type :=
| RecvReturn (ret : Z) (dataRx : list Z) (st : LLState) (w : World)
| RecvTest (success : bool) (attempts nRXdata : Z) (dataRx : list Z)
    (st : LLState) (w : World).

Definition recv_body (maxData debug expected : Z) (success : bool)
    (attempts nRXdata : Z) (dataRx : list Z) (st : LLState) (w : World)
  : RecvPass :=
  let '(sizeRXframe, frameRx, w) := getFrame (3 * MAX_BLK) w in
  if sizeRXframe <? 0 then RecvReturn FAILURE dataRx st w
  else
    let attempts := attempts + 1 in
    if sizeRXframe =? 0 then
      RecvTest success attempts nRXdata dataRx (inc_timeouts st) w
    else if checkFrame frameRx sizeRXframe =? FRAMEBAD then
      let st := inc_badFrames st in
      if debug =? SIMPLE then
        RecvTest true attempts 10 (fill_loop 10 0 dataRx) st w
      else RecvTest success attempts nRXdata dataRx st w
    else
      let st := inc_goodFrames st in
      let '(nRXdata, dataRx, seqNumRx) :=
        processFrame frameRx sizeRXframe dataRx maxData in
      if debug =? SIMPLE then RecvTest true attempts nRXdata dataRx st w
      else if seqNumRx =? expected then
        let st := set_lastSeqRx seqNumRx st in
        let '(_, st, w) := sendAck POSACK seqNumRx st w in
        RecvTest true attempts nRXdata dataRx st w
      else if seqNumRx =? lastSeqRx st then
        let st := set_lastSeqRx seqNumRx st in
        let '(_, st, w) := sendAck POSACK seqNumRx st w in
        RecvTest true attempts nRXdata dataRx st w
      else
        let '(_, st, w) := sendAck POSACK (lastSeqRx st) st w in
        RecvTest false attempts nRXdata dataRx st w.

(** The code after the loop of [LL_receive]. *)
Definition recv_end (success : bool) (nRXdata : Z) (dataRx : list Z)
    (st : LLState) (w : World) : Z * list Z * LLState * World :=
  if success then (nRXdata, dataRx, st, w) else (GIVEUP, dataRx, st, w).

(** The do-while loop of [LL_receive], bounded like [send_loop]. *)
Fixpoint recv_loop (fuel : nat) (maxData debug expected : Z) (success : bool)
    (attempts nRXdata : Z) (dataRx : list Z) (st : LLState) (w : World)
  : option (Z * list Z * LLState * World) :=
  match fuel with
  | O => None
  | S fuel' =>
      match recv_body maxData debug expected success attempts nRXdata
              dataRx st w with
      | RecvReturn ret dataRx st w => Some (ret, dataRx, st, w)
      | RecvTest success attempts nRXdata dataRx st w =>
          if negb success && (attempts <? MAX_TRIES)
          then recv_loop fuel' maxData debug expected success attempts
                 nRXdata dataRx st w
          else Some (recv_end success nRXdata dataRx st w)
      end
  end.

(** [LL_receive(dataRx, maxData, debug)]: the return value and the
    caller's array [dataRx] afterwards. *)
Definition LL_receive (dataRx : list Z) (maxData debug : Z)
    (st : LLState) (w : World) : option (Z * list Z * LLState * World) :=
  let expected := next (lastSeqRx st) in
  if negb (connected st) then Some (BADUSE, dataRx, st, w)
  else recv_loop (Z.to_nat MAX_TRIES) maxData debug expected false 0 0
         dataRx st w.

(** * Definitions used in the statements *)

(** ** A connection's sequence of calls *)

(** The calls an application makes on an open connection. *)
Inductive Call : Type :=
| CallSend (dataTx : list Z) (debug : Z)
| CallReceive (dataRx : list Z) (maxData debug : Z).

(** One call: its return value and the state and world it leaves. *)
Definition run_call (c : Call) (st : LLState) (w : World)
  : option (Z * LLState * World) :=
  match c with
  | CallSend dataTx debug => LL_send dataTx debug st w
  | CallReceive dataRx maxData debug =>
      match LL_receive dataRx maxData debug st w with
      | Some (ret, _, st, w) => Some (ret, st, w)
      | None => None
      end
  end.

(** Calls made one after the other; the return values are collected in
    order. *)
Fixpoint run_calls (cs : list Call) (st : LLState) (w : World)
  : option (list Z * LLState * World) :=
  match cs with
  | [] => Some ([], st, w)
  | c :: cs' =>
      match run_call c st w with
      | None => None
      | Some (ret, st, w) =>
          match run_calls cs' st w with
          | None => None
          | Some (rets, st, w) => Some (ret :: rets, st, w)
          end
      end
  end.


(** ** Sums and single-bit errors *)

(** Sum of the bytes of a list. *)
Definition zsum (l : list Z) : Z := fold_right Z.add 0 l.

(** A byte with one bit inverted is a byte again and differs from the
    original by a power of two below 251, checked for each of the 256
    values and 8 bit positions. *)
Definition flip_ok (x k : Z) : bool :=
  (0 <=? flip_bit x k) && (flip_bit x k <? 256)
  && negb ((flip_bit x k - x) mod MODULO =? 0).

(** The table of all 256 bytes and 8 bit positions. *)
Definition flip_table_ok : bool :=
  forallb (fun x => forallb (fun k => flip_ok (Z.of_nat x) (Z.of_nat k))
                      (seq 0 8))
    (seq 0 256).

(** ** What a pass of a loop leaves alone *)

(** A pass of the sender's loop that reaches the loop test has counted
    one more attempt and has left the sequence numbers, the connection
    flag and the NAK-sent counter alone; a pass that returns, returns
    [FAILURE]. *)
Definition send_keeps (st st1 : LLState) : Prop :=
  connected st1 = connected st /\ seqNumTx st1 = seqNumTx st
  /\ lastSeqRx st1 = lastSeqRx st /\ naksSent st1 = naksSent st
  /\ acksSent st1 = acksSent st.

(** The receiver's pass: it can send, count and move [lastSeqRx], but it
    leaves the transmit sequence number, the connection flag and the
    NAK-sent counter alone. *)
Definition recv_keeps (st st1 : LLState) : Prop :=
  connected st1 = connected st /\ seqNumTx st1 = seqNumTx st
  /\ naksSent st1 = naksSent st.


(** ** States and lines after some passes *)

(** The counters after [k] passes that each sent the frame and timed
    out. *)
Definition after_timeouts (k : Z) (st : LLState) : LLState :=
  mkLLState (connected st) (seqNumTx st) (lastSeqRx st) (framesSent st + k)
    (acksSent st) (naksSent st) (acksRx st) (naksRx st) (badFrames st)
    (goodFrames st) (timeouts st + k).

(** The line after [k] passes of the sender's loop in normal mode: [k]
    more copies of the frame handed to [PHY_send], [k] more waits. *)
Definition after_passes (k : nat) (bytes : list Z) (w : World) : World :=
  mkWorld (phy_open_ret w) (phy_send_ret w) (frame_end w)
    (k + getFrame_calls w) (phy_out w ++ repeat bytes k).

(** The line after one call of [getFrame]. *)
Definition after_wait (w : World) : World :=
  mkWorld (phy_open_ret w) (phy_send_ret w) (frame_end w)
    (S (getFrame_calls w)) (phy_out w).

(** ** Example states and lines *)

(** The statics as the C file initialises them, before any connection. *)
Definition unconnected_state : LLState :=
  mkLLState false 0 0 0 0 0 0 0 0 0 0.

(** The state [LL_connect] leaves on success. *)
Definition fresh_state : LLState :=
  mkLLState true 0 (-1) 0 0 0 0 0 0 0 0.

(** A receiver that has accepted block 0. *)
Definition state_after_block0 : LLState :=
  mkLLState true 0 0 0 1 0 0 0 0 1 0.

(** A line that accepts every byte it is given. *)
Definition line_accepts (k : nat) (bytes : list Z) : Z :=
  Z.of_nat (length bytes).

(** A peer that never sends anything. *)
Definition silent_world : World :=
  mkWorld 0 line_accepts (fun _ => GF_timeup) 0 [].

(** A peer that acknowledges every block: the [k]-th wait finds the
    acknowledgement of sequence number [k mod MOD_SEQNUM]. *)
Definition acking_world : World :=
  mkWorld 0 line_accepts
    (fun k => GF_bytes (ackFrame (Z.of_nat k mod MOD_SEQNUM))) 0 [].

(** A peer that keeps sending a well-formed frame numbered 5. *)
Definition stray_world : World :=
  mkWorld 0 line_accepts
    (fun _ => GF_bytes (fst (buildDataFrame [9; 9] 5))) 0 [].

(** A peer whose frames arrive damaged: the checksum byte is wrong. *)
Definition garbled_world : World :=
  mkWorld 0 line_accepts (fun _ => GF_bytes [212; 5; 0; 6; 204]) 0 [].

(** A peer that sends block 0 carrying the bytes 1, 2, 3 and, its
    acknowledgement lost, sends the same frame again. *)
Definition retransmitting_world : World :=
  mkWorld 0 line_accepts
    (fun _ => GF_bytes (fst (buildDataFrame [1; 2; 3] 0))) 0 [].


(** * The rest of the link layer and the serial port under it *)

(** ** Disconnecting and the advertised block size *)

(** [PHY_close] of [src/linux/physical.c]: closes the port and returns 0
    always. *)
Definition PHY_close : Z := 0.

(** [LL_discon].  The elapsed time it prints is left out with the
    printing. *)
Definition LL_discon (st : LLState) (w : World) : Z * LLState * World :=
  let retCode := PHY_close in
  let st := set_connected false st in
  if retCode =? SUCCESS then (SUCCESS, st, w) else (- retCode, st, w).

(** [LL_getOptBlockSize]. *)
Definition LL_getOptBlockSize (debug : Z) : Z := OPT_BLK.

(** ** The serial port: [PHY_get] and the byte-level [getFrame] *)

Module Serial.

(** What the link layer's receive path sees of the operating system:
    what the [k]-th [read] on the port delivers ([None] when it returns
    -1; never more bytes than asked for), the [k]-th value of [rand]
    and the [k]-th value of [clock], with the number of calls made so
    far.  [simulate_errors] is the test [rxProbErr != 0.0] and
    [threshold] the value [1 + (int)(8.0 * RAND_MAX * rxProbErr)], both
    fixed by [PHY_open]. *)
Record Port : Type := mkPort {
  simulate_errors : bool;
  threshold : Z;
  read_ret : nat -> option (list Z);
  rand_ret : nat -> N;
  clock_ret : nat -> Z;
  read_calls : nat;
  rand_calls : nat;
  clock_calls : nat
}.

(** [read(serial_port, dataRx, nBytesToGet)]. *)
Definition sys_read (nBytesToGet : Z) (p : Port) : option (list Z) * Port :=
  let p' := mkPort (simulate_errors p) (threshold p) (read_ret p) (rand_ret p)
              (clock_ret p) (S (read_calls p)) (rand_calls p) (clock_calls p) in
  match read_ret p (read_calls p) with
  | None => (None, p')
  | Some bytes => (Some (firstn (Z.to_nat nBytesToGet) bytes), p')
  end.

(** [rand()]. *)
Definition rand (p : Port) : Z * Port :=
  (Z.of_N (rand_ret p (rand_calls p)),
   mkPort (simulate_errors p) (threshold p) (read_ret p) (rand_ret p)
     (clock_ret p) (read_calls p) (S (rand_calls p)) (clock_calls p)).

(** [clock()]. *)
Definition clock (p : Port) : Z * Port :=
  (clock_ret p (clock_calls p),
   mkPort (simulate_errors p) (threshold p) (read_ret p) (rand_ret p)
     (clock_ret p) (read_calls p) (rand_calls p) (S (clock_calls p))).

(** The error-simulation loop of [PHY_get] over the bytes just read. *)
Fixpoint error_loop (dataRx : list Z) (p : Port) : list Z * Port :=
  match dataRx with
  | [] => ([], p)
  | b :: rest =>
      let '(r, p) := rand p in
      if r <? threshold p then
        let '(r', p) := rand p in
        let flip := Z.rem r' 8 in
        let pattern := to_byte (Z.shiftl 1 flip) in
        let '(rest', p) := error_loop rest p in
        (to_byte (Z.lxor b pattern) :: rest', p)
      else
        let '(rest', p) := error_loop rest p in
        (b :: rest', p)
  end.

(** [PHY_get(dataRx, nBytesToGet)]: the return value and the bytes left
    at the start of [dataRx]. *)
Definition PHY_get (nBytesToGet : Z) (p : Port) : Z * list Z * Port :=
  let '(got, p) := sys_read nBytesToGet p in
  match got with
  | None => (-4, [], p)
  | Some dataRx =>
      let nBytesGot := Z.of_nat (length dataRx) in
      if simulate_errors p then
        let '(dataRx, p) := error_loop dataRx p in (nBytesGot, dataRx, p)
      else (nBytesGot, dataRx, p)
  end.

(** [timeSet(limit)], with [ticks] for [(long)(limit * CLOCKS_PER_SEC)]. *)
Definition timeSet (ticks : Z) (p : Port) : Z * Port :=
  let '(now, p) := clock p in (now + ticks, p).

(** [timeUp(timeLimit)]. *)
Definition timeUp (timeLimit : Z) (p : Port) : bool * Port :=
  let '(now, p) := clock p in
  (if now <? timeLimit then false else true, p).

(** The bytes a [PHY_get] call left at [frameRx + pos]. *)
Fixpoint store_at (frameRx : list Z) (pos : Z) (bytes : list Z) : list Z :=
  match bytes with
  | [] => frameRx
  | b :: rest => store_at (wr frameRx pos b) (pos + 1) rest
  end.

(** How a loop of [getFrame] ends: the function returns from inside it,
    or the loop is left with these values. *)
Inductive LoopEnd : Type :=
| LoopReturn (ret : Z) (frameRx : list Z) (p : Port)
| LoopLeft (nRx : Z) (frameRx : list Z) (p : Port).

(** The do-while loop of [getFrame] that seeks the start marker.  It
    ends when the clock says so; [fuel] bounds the passes looked at. *)
Fixpoint seek_start (fuel : nat) (frameRx : list Z) (nRx timerRx : Z)
    (p : Port) : option LoopEnd :=
  match fuel with
  | O => None
  | S fuel' =>
      let '(retVal, bytes, p) := PHY_get 1 p in
      if retVal <? 0 then Some (LoopReturn retVal frameRx p)
      else
        let frameRx := store_at frameRx 0 bytes in
        let nRx := nRx + retVal in
        if (retVal <? 1) || negb (rd frameRx 0 =? STARTBYTE) then
          let '(up, p) := timeUp timerRx p in
          if negb up then seek_start fuel' frameRx nRx timerRx p
          else Some (LoopLeft nRx frameRx p)
        else Some (LoopLeft nRx frameRx p)
  end.

(** The for loop of [getFrame]: [n] more calls of [PHY_get], each
    storing what it got at [frameRx + nRx]. *)
Fixpoint rest_loop (n : nat) (frameRx : list Z) (nRx : Z) (p : Port)
  : LoopEnd :=
  match n with
  | O => LoopLeft nRx frameRx p
  | S n' =>
      let '(retVal, bytes, p) := PHY_get 1 p in
      if retVal <? 0 then LoopReturn retVal frameRx p
      else rest_loop n' (store_at frameRx nRx bytes) (nRx + retVal) p
  end.

(** [getFrame(frameRx, maxSize, timeLimit)] byte by byte: the return
    value and the frame array. *)
Definition getFrame (fuel : nat) (frameRx : list Z) (maxSize ticks : Z)
    (p : Port) : option (Z * list Z * Port) :=
  let '(timerRx, p) := timeSet ticks p in
  match seek_start fuel frameRx 0 timerRx p with
  | None => None
  | Some (LoopReturn ret frameRx p) => Some (ret, frameRx, p)
  | Some (LoopLeft nRx frameRx p) =>
      let '(up, p) := timeUp timerRx p in
      if up then Some (0, frameRx, p)
      else
        let '(retVal, bytes, p) := PHY_get 1 p in
        if retVal <? 0 then Some (retVal, frameRx, p)
        else
          let frameRx := store_at frameRx 1 bytes in
          let nRx := nRx + retVal in
          let frameSize := rd frameRx FRSPOS in
          let nRx := 2 in
          match rest_loop (Z.to_nat (frameSize - 2)) frameRx nRx p with
          | LoopReturn ret frameRx p => Some (ret, frameRx, p)
          | LoopLeft nRx frameRx p =>
              let '(up, p) := timeUp timerRx p in
              if up then Some (0, frameRx, p)
              else if nRx >=? maxSize then Some (0, frameRx, p)
              else Some (nRx, frameRx, p)
          end
  end.

End Serial.

(** * Further definitions used in the statements *)



(** How the counters of [st'] relate to those of [st] after passes of
    the sender's loop: every good frame was counted as an ACK or as a
    NAK, no counter went down, and every timeout, bad frame and good
    frame followed a frame sent. *)
Definition send_tally (st st' : LLState) : Prop :=
  goodFrames st' - goodFrames st
  = (acksRx st' - acksRx st) + (naksRx st' - naksRx st)
  /\ 0 <= acksRx st' - acksRx st
  /\ 0 <= naksRx st' - naksRx st
  /\ 0 <= badFrames st' - badFrames st
  /\ 0 <= timeouts st' - timeouts st
  /\ (timeouts st' - timeouts st) + (badFrames st' - badFrames st)
     + (goodFrames st' - goodFrames st)
     <= framesSent st' - framesSent st.

(** A sender's line on which the acknowledgement of block 0 arrives. *)
Definition ack0_world : World :=
  mkWorld 0 line_accepts (fun _ => GF_bytes (ackFrame 0)) 0 [].

(** A wait that gives the receiver nothing to accept: the time limit
    was reached, or (normal mode) a frame arrived that fails
    [checkFrame]. *)
Definition nothing_usable (debug : Z) (e : GetFrameEnd) : Prop :=
  e = GF_timeup
  \/ (debug <> SIMPLE
      /\ exists f, e = GF_bytes f
                   /\ 0 < Z.of_nat (length f) < 3 * MAX_BLK
                   /\ checkFrame f (Z.of_nat (length f)) = FRAMEBAD).

(** The counters after [t] timeouts and [b] bad frames at the receiver. *)
Definition after_useless (t b : Z) (st : LLState) : LLState :=
  mkLLState (connected st) (seqNumTx st) (lastSeqRx st) (framesSent st)
    (acksSent st) (naksSent st) (acksRx st) (naksRx st) (badFrames st + b)
    (goodFrames st) (timeouts st + t).

(** The line after [k] waits and no transmission. *)
Definition after_waits (k : nat) (w : World) : World :=
  mkWorld (phy_open_ret w) (phy_send_ret w) (frame_end w)
    (k + getFrame_calls w) (phy_out w).

(** A line on which the second wait fails after a first that timed out. *)
Definition failing_rx_world : World :=
  mkWorld 0 line_accepts
    (fun j => match j with O => GF_timeup | _ => GF_problem 4 end) 0 [].

(** A receiver that has accepted blocks 0 to 3. *)
Definition state_after_block3 : LLState :=
  mkLLState true 0 3 0 4 0 0 0 0 4 0.

(** A peer from which the four bytes 212, 4, 4, 204 arrive. *)
Definition four_byte_world : World :=
  mkWorld 0 line_accepts (fun _ => GF_bytes [212; 4; 4; 204]) 0 [].

(** No counter of [st1] is below its value in [st]. *)
Definition counters_grow (st st1 : LLState) : Prop :=
  framesSent st <= framesSent st1 /\ acksSent st <= acksSent st1
  /\ naksSent st <= naksSent st1 /\ acksRx st <= acksRx st1
  /\ naksRx st <= naksRx st1 /\ badFrames st <= badFrames st1
  /\ goodFrames st <= goodFrames st1 /\ timeouts st <= timeouts st1.

(** What one pass of the receiver's loop, entered without success, can
    do: one wait; at most one transmission; [lastSeqRx] kept, or moved
    to the expected number with success set; the caller's array kept in
    size, and in normal mode untouched from [maxData] on; counters only
    upwards. *)
Definition recv_pass_ok (maxData debug expected : Z) (dataRx : list Z)
    (st : LLState) (w : World) (success1 : bool) (dataRx1 : list Z)
    (st1 : LLState) (w1 : World) : Prop :=
  getFrame_calls w1 = S (getFrame_calls w)
  /\ (length (phy_out w) <= length (phy_out w1) <= S (length (phy_out w)))%nat
  /\ (lastSeqRx st1 = lastSeqRx st
      \/ (success1 = true /\ lastSeqRx st1 = expected))
  /\ length dataRx1 = length dataRx
  /\ (debug <> SIMPLE ->
      skipn (Z.to_nat maxData) dataRx1 = skipn (Z.to_nat maxData) dataRx)
  /\ counters_grow st st1.

(** The state of a connection in use: connected, both sequence numbers
    in range, no counter negative. *)
Definition state_in_use (st : LLState) : Prop :=
  connected st = true
  /\ 0 <= seqNumTx st < MOD_SEQNUM
  /\ -1 <= lastSeqRx st < MOD_SEQNUM
  /\ counters_grow fresh_state st.

(** A line whose port cannot be opened: [PHY_open] returns 3. *)
Definition no_port_world : World :=
  mkWorld 3 line_accepts (fun _ => GF_timeup) 0 [].

(** Two bytes that are equal or differ in exactly one bit. *)
Definition at_most_one_bit (b d : Z) : Prop :=
  d = b \/ exists k, 0 <= k < 8 /\ d = flip_bit b k.

(** Two port records that differ only in the numbers of calls made. *)
Definition same_line (p p' : Serial.Port) : Prop :=
  Serial.simulate_errors p' = Serial.simulate_errors p
  /\ Serial.threshold p' = Serial.threshold p
  /\ Serial.read_ret p' = Serial.read_ret p
  /\ Serial.rand_ret p' = Serial.rand_ret p
  /\ Serial.clock_ret p' = Serial.clock_ret p.

(** The port after one more [read]. *)
Definition after_read (p : Serial.Port) : Serial.Port :=
  Serial.mkPort (Serial.simulate_errors p) (Serial.threshold p)
    (Serial.read_ret p) (Serial.rand_ret p) (Serial.clock_ret p)
    (S (Serial.read_calls p)) (Serial.rand_calls p) (Serial.clock_calls p).

(** The port after one more [clock]. *)
Definition after_clock (p : Serial.Port) : Serial.Port :=
  Serial.mkPort (Serial.simulate_errors p) (Serial.threshold p)
    (Serial.read_ret p) (Serial.rand_ret p) (Serial.clock_ret p)
    (Serial.read_calls p) (Serial.rand_calls p) (S (Serial.clock_calls p)).

(** A port that reads the start marker and inverts bits at random. *)
Definition noisy_port : Serial.Port :=
  Serial.mkPort true 100 (fun _ => Some [212; 8; 0])
    (fun k => N.of_nat (3 * k)) (fun k => Z.of_nat k) 0 0 0.

(** A port on which nothing arrives, with a clock that advances by one
    tick per call. *)
Definition silent_port : Serial.Port :=
  Serial.mkPort false 0 (fun _ => Some []) (fun _ => 0%N)
    (fun k => Z.of_nat k) 0 0 0.

(** A port that delivers the bytes of [bytes] one per [read] (and zeros
    after them), without errors, on a clock that stands still. *)
Definition wire_port (bytes : list Z) : Serial.Port :=
  Serial.mkPort false 0 (fun k => Some [nth k bytes 0]) (fun _ => 0%N)
    (fun _ => 0) 0 0 0.

(** The port after [r] more calls of [read] and [c] more of [clock]. *)
Definition after_polls (r c : nat) (p : Serial.Port) : Serial.Port :=
  Serial.mkPort (Serial.simulate_errors p) (Serial.threshold p)
    (Serial.read_ret p) (Serial.rand_ret p) (Serial.clock_ret p)
    (r + Serial.read_calls p) (Serial.rand_calls p)
    (c + Serial.clock_calls p).

(** A port that delivers one stray byte and then the frame of the block
    1, 2, 3 with sequence number 0. *)
Definition block_port : Serial.Port :=
  wire_port ([7] ++ fst (buildDataFrame [1; 2; 3] 0)).

(** ** Keeping inside the arrays *)

(** What a wait may leave in an array of [size] cells.  The C
    [getFrame] stores the bytes of a frame as they arrive and compares
    their number with [maxSize] only afterwards, and it returns counts
    of 2 and more only; so a frame of more than [size] bytes has been
    stored past the end of the array, whatever is returned.  The
    definitions above say nothing about such a wait. *)
Definition frame_end_fits (size : Z) (e : GetFrameEnd) : Prop :=
  match e with
  | GF_bytes bs => 2 <= Z.of_nat (length bs) <= size
  | _ => True
  end.

(** The next [MAX_TRIES] waits on [w], all that one call can make, each
    leave a frame that fits an array of [size] cells. *)
Definition waits_fit (size : Z) (w : World) : Prop :=
  forall j : nat,
    Z.of_nat j < MAX_TRIES ->
    frame_end_fits size (frame_end w (j + getFrame_calls w)).

(** A call that stays inside its arrays: the responses to [LL_send] fit
    [frameAck] ([2 * ACK_SIZE] bytes), the frames for [LL_receive] fit
    [frameRx] ([3 * MAX_BLK] bytes), and the caller's array has the
    [maxData] cells [processFrame] may fill and, in simple mode, the
    ten cells filled with dummy bytes after a bad frame. *)
Definition call_in_bounds (c : Call) (w : World) : Prop :=
  match c with
  | CallSend dataTx debug => waits_fit (2 * ACK_SIZE) w
  | CallReceive dataRx maxData debug =>
      waits_fit (3 * MAX_BLK) w
      /\ (Z.to_nat maxData <= length dataRx)%nat
      /\ (debug = SIMPLE -> (10 <= length dataRx)%nat)
  end.

(** A sequence of calls each of which stays inside its arrays, on the
    state and line the calls before it have left. *)
Fixpoint run_in_bounds (cs : list Call) (st : LLState) (w : World) : Prop :=
  match cs with
  | [] => True
  | c :: cs' =>
      call_in_bounds c w
      /\ match run_call c st w with
         | Some (_, st', w') => run_in_bounds cs' st' w'
         | None => True
         end
  end.

(** The largest value of an [int]. *)
Definition INT_MAX : Z := 2147483647.

(** Every counter of [st1] is at least its value in [st] and at most
    [n] more. *)
Definition counters_within (n : Z) (st st1 : LLState) : Prop :=
  framesSent st <= framesSent st1 <= framesSent st + n
  /\ acksSent st <= acksSent st1 <= acksSent st + n
  /\ naksSent st <= naksSent st1 <= naksSent st + n
  /\ acksRx st <= acksRx st1 <= acksRx st + n
  /\ naksRx st <= naksRx st1 <= naksRx st + n
  /\ badFrames st <= badFrames st1 <= badFrames st + n
  /\ goodFrames st <= goodFrames st1 <= goodFrames st + n
  /\ timeouts st <= timeouts st1 <= timeouts st + n.

(** Every counter of [st] lies between [lo] and [hi]. *)
Definition counters_between (lo hi : Z) (st : LLState) : Prop :=
  lo <= framesSent st <= hi /\ lo <= acksSent st <= hi
  /\ lo <= naksSent st <= hi /\ lo <= acksRx st <= hi
  /\ lo <= naksRx st <= hi /\ lo <= badFrames st <= hi
  /\ lo <= goodFrames st <= hi /\ lo <= timeouts st <= hi.

(** * Properties of the frame codec *)

Lemma zsum_bytes_nonneg (l : list Z) : Forall is_byte l -> 0 <= zsum l.
Proof.
  induction 1 as [|x l Hx _ IH]; simpl; [lia|].
  unfold is_byte in Hx. lia.
Qed.

Lemma to_byte_id (x : Z) : is_byte x -> to_byte x = x.
Proof. unfold is_byte, to_byte. intros H. apply Z.mod_small. exact H. Qed.

Lemma rem_MODULO_range (x : Z) : 0 <= x -> 0 <= Z.rem x MODULO < 251.
Proof.
  intros H. rewrite Z.rem_mod_nonneg by (unfold MODULO; lia).
  apply Z.mod_pos_bound. unfold MODULO. lia.
Qed.

Lemma build_loop_eq (dataTx frameTx : list Z) (checkSum : Z) :
  build_loop dataTx frameTx checkSum
  = (frameTx ++ dataTx, checkSum + zsum dataTx).
Proof.
  revert frameTx checkSum.
  induction dataTx as [|d rest IH]; intros frameTx checkSum; simpl.
  - rewrite app_nil_r. f_equal. lia.
  - rewrite IH. rewrite <- app_assoc. simpl. f_equal. lia.
Qed.

(** The frame [buildDataFrame] writes, in closed form. *)
Lemma buildDataFrame_eq (dataTx : list Z) (seq : Z) :
  let n := Z.of_nat (length dataTx) in
  buildDataFrame dataTx seq
  = (STARTBYTE
       :: (to_byte (5 + n) :: to_byte seq :: dataTx)
       ++ [to_byte (Z.rem (seq + (5 + n) + zsum dataTx) MODULO); ENDBYTE],
     5 + n).
Proof.
  intros n. unfold buildDataFrame. rewrite build_loop_eq. fold n.
  replace (HEADERSIZE + TRAILERSIZE + n) with (5 + n)
    by (unfold HEADERSIZE, TRAILERSIZE; lia).
  replace (HEADERSIZE + n + TRAILERSIZE) with (5 + n)
    by (unfold HEADERSIZE, TRAILERSIZE; lia).
  rewrite Z.add_0_l. rewrite <- !app_assoc. reflexivity.
Qed.

Lemma buildDataFrame_size (dataTx : list Z) (seq : Z) :
  snd (buildDataFrame dataTx seq)
  = Z.of_nat (length (fst (buildDataFrame dataTx seq))).
Proof.
  rewrite buildDataFrame_eq. cbn [fst snd length].
  rewrite length_app. cbn [length]. lia.
Qed.

Lemma skipn_nth_cons (l : list Z) (i : nat) :
  (i < length l)%nat -> skipn i l = nth i l 0 :: skipn (S i) l.
Proof.
  revert i. induction l as [|x l IH]; intros i Hi; simpl in Hi; [lia|].
  destruct i as [|i]; [reflexivity|].
  change (skipn (S i) (x :: l)) with (skipn i l).
  change (nth (S i) (x :: l) 0) with (nth i l 0).
  change (skipn (S (S i)) (x :: l)) with (skipn (S i) l).
  apply IH. lia.
Qed.

Lemma rd_nat (a : list Z) (i : nat) : rd a (Z.of_nat i) = nth i a 0.
Proof.
  unfold rd. destruct (Z.ltb_spec (Z.of_nat i) 0) as [H|H]; [lia|].
  rewrite Nat2Z.id. reflexivity.
Qed.

(** The summing loop adds up the [n] bytes that follow index [i]. *)
Lemma check_loop_sum (frameRx : list Z) (n i : nat) (acc : Z) :
  check_loop frameRx n (Z.of_nat i) acc
  = acc + zsum (firstn n (skipn (S i) frameRx)).
Proof.
  revert i acc. induction n as [|n IH]; intros i acc; cbn [check_loop].
  - simpl. lia.
  - replace (Z.of_nat i + 1) with (Z.of_nat (S i)) by lia.
    rewrite IH.
    replace (HEADERSIZE - 2 + Z.of_nat i) with (Z.of_nat (S i))
      by (unfold HEADERSIZE; lia).
    rewrite rd_nat.
    destruct (Nat.lt_ge_cases (S i) (length frameRx)) as [Hlt|Hge].
    + rewrite (skipn_nth_cons frameRx (S i) Hlt).
      cbn [firstn zsum fold_right]. fold (zsum (firstn n (skipn (S (S i)) frameRx))).
      lia.
    + rewrite (nth_overflow frameRx 0 Hge).
      rewrite (skipn_all2 frameRx) by lia.
      rewrite (skipn_all2 frameRx) by lia.
      rewrite !firstn_nil. simpl. lia.
Qed.

(** What [checkFrame] computes on a sequence of at least three bytes:
    first byte [a], last two bytes [c] and [e], [body] in between. *)
Lemma checkFrame_shape (a c e : Z) (body : list Z) :
  checkFrame (a :: body ++ [c; e]) (Z.of_nat (length body) + 3)
  = if negb (Z.rem (zsum body) MODULO =? c) then FRAMEBAD
    else if negb (a =? STARTBYTE) then FRAMEBAD
    else if negb (e =? ENDBYTE) then FRAMEBAD
    else FRAMEGOOD.
Proof.
  unfold checkFrame.
  replace (Z.to_nat (Z.of_nat (length body) + 3 - 3)) with (length body) by lia.
  rewrite (check_loop_sum _ _ 0%nat).
  change (skipn 1 (a :: body ++ [c; e])) with (body ++ [c; e]).
  rewrite firstn_app, firstn_all, Nat.sub_diag. simpl firstn.
  rewrite app_nil_r. rewrite Z.add_0_l.
  replace (Z.of_nat (length body) + 3 - 2) with (Z.of_nat (S (length body))) by lia.
  replace (Z.of_nat (length body) + 3 - 1) with (Z.of_nat (S (S (length body)))) by lia.
  change (rd (a :: body ++ [c; e]) 0) with a.
  rewrite !rd_nat. cbn [nth].
  rewrite !app_nth2 by lia. rewrite Nat.sub_diag.
  replace (S (length body) - length body)%nat with 1%nat by lia.
  reflexivity.
Qed.

Lemma wr_nat_length (a : list Z) (i : nat) (v : Z) :
  length (wr_nat a i v) = length a.
Proof.
  revert i. induction a as [|x a IH]; intros [|i]; simpl; auto.
Qed.

Lemma wr_nat_split (a : list Z) (i : nat) (v : Z) :
  (i < length a)%nat -> wr_nat a i v = firstn i a ++ v :: skipn (S i) a.
Proof.
  revert i. induction a as [|x a IH]; intros i Hi; simpl in Hi; [lia|].
  destruct i as [|i]; [reflexivity|].
  cbn [wr_nat firstn app]. change (skipn (S (S i)) (x :: a)) with (skipn (S i) a).
  rewrite IH by lia. reflexivity.
Qed.

Lemma wr_nat_app_l (a t : list Z) (i : nat) (v : Z) :
  (i < length a)%nat -> wr_nat (a ++ t) i v = wr_nat a i v ++ t.
Proof.
  revert i. induction a as [|x a IH]; intros i Hi; simpl in Hi; [lia|].
  destruct i as [|i]; [reflexivity|].
  cbn [wr_nat app]. rewrite IH by lia. reflexivity.
Qed.

Lemma wr_nat_zsum (a : list Z) (i : nat) (v : Z) :
  (i < length a)%nat -> zsum (wr_nat a i v) = zsum a - nth i a 0 + v.
Proof.
  revert i. induction a as [|x a IH]; intros i Hi; simpl in Hi; [lia|].
  destruct i as [|i]; cbn [wr_nat zsum fold_right nth].
  - lia.
  - fold (zsum (wr_nat a i v)). fold (zsum a). rewrite IH by lia. lia.
Qed.

Lemma wr_nat_bytes (a : list Z) (i : nat) (v : Z) :
  Forall is_byte a -> is_byte v -> Forall is_byte (wr_nat a i v).
Proof.
  intros Ha Hv. revert i.
  induction Ha as [|x a Hx Ha IH]; intros i; [destruct i; constructor|].
  destruct i as [|i]; cbn [wr_nat]; constructor; auto.
Qed.

Lemma nth_is_byte (a : list Z) (i : nat) :
  Forall is_byte a -> is_byte (nth i a 0).
Proof.
  intros Ha. revert i.
  induction Ha as [|x a Hx Ha IH]; intros i.
  - destruct i; unfold is_byte; simpl; lia.
  - destruct i as [|i]; simpl; auto.
Qed.

Lemma wr_nat_to_Z (a : list Z) (i : nat) (v : Z) :
  wr a (Z.of_nat i) v = wr_nat a i v.
Proof.
  unfold wr. destruct (Z.ltb_spec (Z.of_nat i) 0) as [H|H]; [lia|].
  rewrite Nat2Z.id. reflexivity.
Qed.

(** The copy loop overwrites [n] cells of [dataRx] from index [i] with
    the frame bytes that follow the header. *)
Lemma process_loop_copy (frameRx : list Z) (n i : nat) (dataRx : list Z) :
  (i + n <= length dataRx)%nat ->
  (3 + i + n <= length frameRx)%nat ->
  process_loop frameRx n (Z.of_nat i) dataRx
  = firstn i dataRx ++ firstn n (skipn (3 + i) frameRx)
      ++ skipn (i + n) dataRx.
Proof.
  revert i dataRx. induction n as [|n IH]; intros i dataRx Hd Hf.
  - cbn [process_loop firstn app]. rewrite Nat.add_0_r.
    symmetry. apply firstn_skipn.
  - cbn [process_loop].
    replace (Z.of_nat i + 1) with (Z.of_nat (S i)) by lia.
    replace (HEADERSIZE + Z.of_nat i) with (Z.of_nat (3 + i))
      by (unfold HEADERSIZE; lia).
    rewrite rd_nat, wr_nat_to_Z.
    rewrite IH by (rewrite ?wr_nat_length; lia).
    rewrite wr_nat_split by lia.
    set (v := nth (3 + i) frameRx 0).
    assert (Hlen : length (firstn i dataRx) = i) by (apply firstn_length_le; lia).
    replace (firstn i dataRx ++ v :: skipn (S i) dataRx)
      with ((firstn i dataRx ++ [v]) ++ skipn (S i) dataRx)
      by (rewrite <- app_assoc; reflexivity).
    assert (Hlen' : length (firstn i dataRx ++ [v]) = S i)
      by (rewrite length_app, Hlen; simpl; lia).
    rewrite firstn_app, Hlen', Nat.sub_diag, firstn_O, app_nil_r.
    rewrite <- Hlen' at 1. rewrite firstn_all.
    rewrite skipn_app, Hlen'.
    rewrite (skipn_all2 (firstn i dataRx ++ [v])) by lia.
    replace (S i + n - S i)%nat with n by lia.
    rewrite skipn_skipn. cbn [app].
    replace (n + S i)%nat with (i + S n)%nat by lia.
    rewrite (skipn_nth_cons frameRx (3 + i)) by lia.
    fold v. cbn [firstn].
    rewrite <- app_assoc. reflexivity.
Qed.

(** ** C2: build / check / process round trip *)

(** C2.  For a block [b] of at most [MAX_BLK] bytes and a sequence number
    [s] in [0, MOD_SEQNUM), the frame written by [buildDataFrame b s]
    is classified [FRAMEGOOD] by [checkFrame], and [processFrame] with
    [maxData >= len b] (and a caller's array of at least [len b] cells)
    returns [len b], leaves [b] in the first [len b] cells of the
    caller's array and reports sequence number [s]. *)
Theorem build_check_process_roundtrip
    (b : list Z) (s maxData : Z) (dataRx : list Z) :
  Forall is_byte b ->
  Z.of_nat (length b) <= MAX_BLK ->
  0 <= s < MOD_SEQNUM ->
  Z.of_nat (length b) <= maxData ->
  (length b <= length dataRx)%nat ->
  checkFrame (fst (buildDataFrame b s)) (snd (buildDataFrame b s)) = FRAMEGOOD
  /\ processFrame (fst (buildDataFrame b s)) (snd (buildDataFrame b s))
       dataRx maxData
     = (Z.of_nat (length b), b ++ skipn (length b) dataRx, s).
Proof.
  intros Hb Hlen Hs Hmax Hbuf.
  unfold MAX_BLK in Hlen. unfold MOD_SEQNUM in Hs.
  rewrite buildDataFrame_eq. cbn [fst snd].
  set (n := Z.of_nat (length b)) in *.
  assert (Hsum : 0 <= zsum b) by (apply zsum_bytes_nonneg; exact Hb).
  assert (Hsz : to_byte (5 + n) = 5 + n)
    by (apply to_byte_id; unfold is_byte; lia).
  assert (Hsq : to_byte s = s) by (apply to_byte_id; unfold is_byte; lia).
  assert (Hcs : 0 <= Z.rem (s + (5 + n) + zsum b) MODULO < 251)
    by (apply rem_MODULO_range; lia).
  rewrite Hsz, Hsq.
  rewrite (to_byte_id (Z.rem _ _)) by (unfold is_byte; lia).
  split.
  - replace (5 + n) with (Z.of_nat (length (5 + n :: s :: b)) + 3) at 3
      by (cbn [length]; lia).
    rewrite checkFrame_shape.
    cbn [zsum fold_right]. fold (zsum b).
    replace (5 + n + (s + zsum b)) with (s + (5 + n) + zsum b) by lia.
    rewrite Z.eqb_refl. reflexivity.
  - unfold processFrame.
    replace (5 + n - HEADERSIZE - TRAILERSIZE) with n
      by (unfold HEADERSIZE, TRAILERSIZE; lia).
    destruct (Z.gtb_spec n maxData) as [Hgt|_]; [lia|].
    replace (Z.to_nat n) with (length b) by (unfold n; lia).
    change 0 with (Z.of_nat 0) at 1.
    rewrite (process_loop_copy _ (length b) 0%nat).
    + cbn [firstn app Nat.add skipn].
      rewrite firstn_app, firstn_all, Nat.sub_diag, firstn_O, app_nil_r.
      reflexivity.
    + lia.
    + cbn [length]. rewrite length_app. cbn [length]. lia.
Qed.

Lemma build_check_process_roundtrip_witness :
  (Forall is_byte [1; 2; 3]
   /\ Z.of_nat (length [1; 2; 3]) <= MAX_BLK
   /\ 0 <= 7 < MOD_SEQNUM
   /\ Z.of_nat (length [1; 2; 3]) <= 16
   /\ (length [1; 2; 3] <= length (repeat 0 16))%nat)
  /\ checkFrame (fst (buildDataFrame [1; 2; 3] 7))
       (snd (buildDataFrame [1; 2; 3] 7)) = FRAMEGOOD
  /\ processFrame (fst (buildDataFrame [1; 2; 3] 7))
       (snd (buildDataFrame [1; 2; 3] 7)) (repeat 0 16) 16
     = (Z.of_nat (length [1; 2; 3]),
        [1; 2; 3] ++ skipn (length [1; 2; 3]) (repeat 0 16), 7).
Proof.
  assert (H1 : Forall is_byte [1; 2; 3])
    by (repeat constructor; unfold is_byte; lia).
  assert (H2 : Z.of_nat (length [1; 2; 3]) <= MAX_BLK)
    by (vm_compute; discriminate).
  assert (H3 : 0 <= 7 < MOD_SEQNUM) by (unfold MOD_SEQNUM; lia).
  assert (H4 : Z.of_nat (length [1; 2; 3]) <= 16)
    by (vm_compute; discriminate).
  assert (H5 : (length [1; 2; 3] <= length (repeat 0 16))%nat)
    by (simpl; lia).
  split; [repeat split; assumption || apply H3|].
  exact (build_check_process_roundtrip [1; 2; 3] 7 16 (repeat 0 16)
           H1 H2 H3 H4 H5).
Defined.

(** ** C3: sensitivity of the checksum to a one-bit error *)

Lemma flip_bit_delta (x k : Z) :
  is_byte x -> 0 <= k < 8 ->
  is_byte (flip_bit x k) /\ (flip_bit x k - x) mod MODULO <> 0.
Proof.
  intros Hx Hk. unfold is_byte in Hx.
  assert (Htab : flip_table_ok = true) by (vm_compute; reflexivity).
  unfold flip_table_ok in Htab. rewrite forallb_forall in Htab.
  specialize (Htab (Z.to_nat x)).
  rewrite in_seq in Htab.
  assert (Hrow := Htab ltac:(lia)). clear Htab.
  rewrite forallb_forall in Hrow.
  specialize (Hrow (Z.to_nat k)). rewrite in_seq in Hrow.
  assert (Hcell := Hrow ltac:(lia)). clear Hrow.
  rewrite !Z2Nat.id in Hcell by lia.
  unfold flip_ok in Hcell.
  apply andb_prop in Hcell. destruct Hcell as [Hrange Hne].
  apply andb_prop in Hrange. destruct Hrange as [Hlo Hhi].
  apply Z.leb_le in Hlo. apply Z.ltb_lt in Hhi.
  apply negb_true_iff in Hne. apply Z.eqb_neq in Hne.
  split; [unfold is_byte; lia | exact Hne].
Qed.

(** Two sums of bytes that differ by a non-multiple of [MODULO] have
    different checksums. *)
Lemma checksum_differs (t d : Z) :
  0 <= t -> 0 <= t + d -> d mod MODULO <> 0 ->
  Z.rem (t + d) MODULO <> Z.rem t MODULO.
Proof.
  intros Ht Htd Hd.
  rewrite !Z.rem_mod_nonneg by (unfold MODULO; lia).
  intros Heq. apply Hd.
  replace d with ((t + d) - t) by lia.
  rewrite Zminus_mod, Heq, Z.sub_diag. reflexivity.
Qed.

(** C3.  In the frame written by [buildDataFrame b s] for a block of at
    most [MAX_BLK] bytes and a valid sequence number, inverting any one
    bit [k] of the byte at any index [i] from the frame-size byte up to
    the last payload byte (the markers and the checksum byte excluded)
    gives bytes that [checkFrame] classifies [FRAMEBAD]. *)
Theorem single_bit_error_detected (b : list Z) (s i k : Z) :
  Forall is_byte b ->
  Z.of_nat (length b) <= MAX_BLK ->
  0 <= s < MOD_SEQNUM ->
  FRSPOS <= i < HEADERSIZE + Z.of_nat (length b) ->
  0 <= k < 8 ->
  let frameTx := fst (buildDataFrame b s) in
  let sizeTXframe := snd (buildDataFrame b s) in
  checkFrame (wr frameTx i (flip_bit (rd frameTx i) k)) sizeTXframe = FRAMEBAD.
Proof.
  intros Hb Hlen Hs Hi Hk frameTx sizeTXframe. subst frameTx sizeTXframe.
  unfold MAX_BLK in Hlen. unfold MOD_SEQNUM in Hs.
  unfold FRSPOS, HEADERSIZE in Hi.
  rewrite buildDataFrame_eq. cbn [fst snd].
  set (n := Z.of_nat (length b)) in *.
  assert (Hsum : 0 <= zsum b) by (apply zsum_bytes_nonneg; exact Hb).
  assert (Hsz : to_byte (5 + n) = 5 + n)
    by (apply to_byte_id; unfold is_byte; lia).
  assert (Hsq : to_byte s = s) by (apply to_byte_id; unfold is_byte; lia).
  assert (Hcs : 0 <= Z.rem (s + (5 + n) + zsum b) MODULO < 251)
    by (apply rem_MODULO_range; lia).
  rewrite Hsz, Hsq.
  rewrite (to_byte_id (Z.rem _ _)) by (unfold is_byte; lia).
  set (body := 5 + n :: s :: b).
  set (c := Z.rem (s + (5 + n) + zsum b) MODULO).
  assert (Hbody : Forall is_byte body)
    by (unfold body; repeat constructor; unfold is_byte; try lia; exact Hb).
  assert (Hblen : Z.of_nat (length body) = n + 2)
    by (unfold body; cbn [length]; lia).
  assert (Hbsum : zsum body = s + (5 + n) + zsum b)
    by (unfold body; cbn [zsum fold_right]; fold (zsum b); lia).
  (* the flipped byte lies in [body], at index [j = i - 1] *)
  set (j := Z.to_nat (i - 1)).
  assert (Hj : (j < length body)%nat) by lia.
  replace i with (Z.of_nat (S j)) by lia.
  rewrite rd_nat, wr_nat_to_Z.
  cbn [nth wr_nat].
  rewrite app_nth1 by exact Hj.
  rewrite wr_nat_app_l by exact Hj.
  set (old := nth j body 0).
  assert (Hold : is_byte old) by (apply nth_is_byte; exact Hbody).
  destruct (flip_bit_delta old k Hold Hk) as [Hnew Hdelta].
  set (new := flip_bit old k) in *.
  replace (5 + n) with (Z.of_nat (length (wr_nat body j new)) + 3) at 1
    by (rewrite wr_nat_length; lia).
  rewrite checkFrame_shape.
  rewrite wr_nat_zsum by exact Hj. fold old.
  assert (Hne : Z.rem (zsum body - old + new) MODULO <> c).
  { unfold c. rewrite <- Hbsum.
    replace (zsum body - old + new) with (zsum body + (new - old)) by lia.
    apply checksum_differs.
    - rewrite Hbsum. lia.
    - pose proof (zsum_bytes_nonneg _ (wr_nat_bytes body j new Hbody Hnew)) as H.
      rewrite wr_nat_zsum in H by exact Hj. fold old in H. lia.
    - exact Hdelta. }
  apply Z.eqb_neq in Hne. rewrite Hne. reflexivity.
Qed.

Lemma single_bit_error_detected_witness :
  (Forall is_byte [1; 2; 3]
   /\ Z.of_nat (length [1; 2; 3]) <= MAX_BLK
   /\ 0 <= 7 < MOD_SEQNUM
   /\ FRSPOS <= 4 < HEADERSIZE + Z.of_nat (length [1; 2; 3])
   /\ 0 <= 6 < 8)
  /\ checkFrame
       (wr (fst (buildDataFrame [1; 2; 3] 7)) 4
          (flip_bit (rd (fst (buildDataFrame [1; 2; 3] 7)) 4) 6))
       (snd (buildDataFrame [1; 2; 3] 7)) = FRAMEBAD.
Proof.
  assert (H1 : Forall is_byte [1; 2; 3])
    by (repeat constructor; unfold is_byte; lia).
  assert (H2 : Z.of_nat (length [1; 2; 3]) <= MAX_BLK)
    by (vm_compute; discriminate).
  assert (H3 : 0 <= 7 < MOD_SEQNUM) by (unfold MOD_SEQNUM; lia).
  assert (H4 : FRSPOS <= 4 < HEADERSIZE + Z.of_nat (length [1; 2; 3]))
    by (unfold FRSPOS, HEADERSIZE; simpl; lia).
  assert (H5 : 0 <= 6 < 8) by lia.
  split; [repeat split; assumption || apply H3 || apply H4 || apply H5|].
  exact (single_bit_error_detected [1; 2; 3] 7 4 6 H1 H2 H3 H4 H5).
Defined.

(** ** C8: what [checkFrame] accepts *)

Lemma three_bytes_shape (f : list Z) :
  (3 <= length f)%nat -> exists a body c e, f = a :: body ++ [c; e].
Proof.
  intros Hlen. destruct f as [|a t]; [simpl in Hlen; lia|].
  simpl in Hlen.
  destruct (exists_last (l := t)) as [t1 [e Ht]];
    [intros ->; simpl in Hlen; lia|].
  subst t. rewrite length_app in Hlen. simpl in Hlen.
  destruct (exists_last (l := t1)) as [body [c Ht1]];
    [intros ->; simpl in Hlen; lia|].
  subst t1. exists a, body, c, e.
  rewrite <- app_assoc. reflexivity.
Qed.

Lemma frame_shape_inj (a c e a' c' e' : Z) (body body' : list Z) :
  a :: body ++ [c; e] = a' :: body' ++ [c'; e'] ->
  a = a' /\ body = body' /\ c = c' /\ e = e'.
Proof.
  intros H. injection H as Ha Ht.
  change (body ++ [c; e]) with (body ++ [c] ++ [e]) in Ht.
  change (body' ++ [c'; e']) with (body' ++ [c'] ++ [e']) in Ht.
  rewrite !app_assoc in Ht.
  apply app_inj_tail in Ht. destruct Ht as [Ht He].
  apply app_inj_tail in Ht. destruct Ht as [Hb Hc].
  auto.
Qed.

(** The three tests of [checkFrame] on at least three bytes. *)
Lemma checkFrame_shape_good (a c e : Z) (body : list Z) :
  (checkFrame (a :: body ++ [c; e]) (Z.of_nat (length body) + 3) = FRAMEGOOD
   <-> Z.rem (zsum body) MODULO = c /\ a = STARTBYTE /\ e = ENDBYTE)
  /\ (checkFrame (a :: body ++ [c; e]) (Z.of_nat (length body) + 3)
      <> FRAMEGOOD
      -> checkFrame (a :: body ++ [c; e]) (Z.of_nat (length body) + 3)
         = FRAMEBAD).
Proof.
  rewrite checkFrame_shape.
  destruct (Z.eqb_spec (Z.rem (zsum body) MODULO) c) as [Hc|Hc];
    destruct (Z.eqb_spec a STARTBYTE) as [Ha|Ha];
    destruct (Z.eqb_spec e ENDBYTE) as [He|He]; cbn [negb];
    (split; [split|]);
    solve [ auto | discriminate | tauto | intros H; exfalso; apply H; reflexivity ].
Qed.

(** C8, counterexample: five received bytes whose frame-size byte says 7
    are accepted, because the frame-size byte is only summed into the
    checksum and never compared with the number of bytes received. *)
Lemma checkFrame_size_byte_unchecked :
  checkFrame [212; 7; 0; 7; 204] 5 = FRAMEGOOD
  /\ rd [212; 7; 0; 7; 204] FRSPOS <> 5.
Proof. split; [vm_compute; reflexivity | vm_compute; discriminate]. Qed.

(** C8, amended.  On [sizeFrame >= 2] received bytes, [checkFrame]
    returns [FRAMEGOOD] exactly when the first byte is [STARTBYTE], the
    last byte is [ENDBYTE] and the sum of the bytes between the start
    marker and the last two bytes (frame size, sequence number, data),
    reduced by [MODULO], equals the byte before the end marker; in every
    other case it returns [FRAMEBAD]. *)
Theorem checkFrame_accepts_iff (frameRx : list Z) :
  (2 <= length frameRx)%nat ->
  (checkFrame frameRx (Z.of_nat (length frameRx)) = FRAMEGOOD
   <-> exists body c,
         frameRx = STARTBYTE :: body ++ [c; ENDBYTE]
         /\ Z.rem (zsum body) MODULO = c)
  /\ (checkFrame frameRx (Z.of_nat (length frameRx)) <> FRAMEGOOD
      -> checkFrame frameRx (Z.of_nat (length frameRx)) = FRAMEBAD).
Proof.
  intros Hlen.
  destruct (Nat.eq_dec (length frameRx) 2) as [H2|H2].
  - (* two bytes: the checksum cell is the start-marker cell *)
    destruct frameRx as [|x [|y [|z t]]]; try discriminate H2.
    assert (Hbad : checkFrame [x; y] (Z.of_nat (length [x; y])) = FRAMEBAD).
    { unfold checkFrame.
      change (Z.of_nat (length [x; y])) with 2.
      change (2 - 2) with 0. change (2 - 1) with 1.
      change (Z.to_nat (2 - 3)) with 0%nat.
      cbn [check_loop].
      change (rd [x; y] 0) with x. change (rd [x; y] 1) with y.
      change (Z.rem 0 MODULO) with 0.
      destruct (Z.eqb_spec 0 x) as [<-|Hx]; reflexivity. }
    split.
    + split.
      * rewrite Hbad. discriminate.
      * intros [body [c [Heq _]]].
        apply (f_equal (@length Z)) in Heq. cbn [length] in Heq.
        rewrite length_app in Heq. cbn [length] in Heq. lia.
    + intros _. exact Hbad.
  - destruct (three_bytes_shape frameRx) as [a [body [c [e Hf]]]]; [lia|].
    subst frameRx.
    replace (Z.of_nat (length (a :: body ++ [c; e])))
      with (Z.of_nat (length body) + 3)
      by (cbn [length]; rewrite length_app; cbn [length]; lia).
    pose proof (checkFrame_shape_good a c e body) as [Hgood Hbad].
    split; [|exact Hbad].
    rewrite Hgood. split.
    + intros (Hc & -> & ->). exists body, c. split; [reflexivity | exact Hc].
    + intros [body' [c' [Heq Hsum]]].
      apply frame_shape_inj in Heq. destruct Heq as (-> & -> & -> & ->).
      auto.
Qed.

Lemma checkFrame_accepts_iff_witness :
  (2 <= length [212; 5; 3; 8; 204])%nat
  /\ (checkFrame [212; 5; 3; 8; 204] (Z.of_nat (length [212; 5; 3; 8; 204]))
      = FRAMEGOOD
      <-> exists body c,
            [212; 5; 3; 8; 204] = STARTBYTE :: body ++ [c; ENDBYTE]
            /\ Z.rem (zsum body) MODULO = c)
  /\ (checkFrame [212; 5; 3; 8; 204] (Z.of_nat (length [212; 5; 3; 8; 204]))
      <> FRAMEGOOD
      -> checkFrame [212; 5; 3; 8; 204] (Z.of_nat (length [212; 5; 3; 8; 204]))
         = FRAMEBAD).
Proof.
  assert (H : (2 <= length [212; 5; 3; 8; 204])%nat) by (simpl; lia).
  split; [exact H|].
  exact (checkFrame_accepts_iff [212; 5; 3; 8; 204] H).
Defined.

(** * Properties of the sender and the receiver *)

(** Settles the tests [size < 0] and [size == 0] that follow a call of
    [getFrame] once the size is known to be positive. *)
Ltac positive_size f :=
  destruct (Z.ltb_spec (Z.of_nat (length f)) 0) as [?Hneg|_]; [lia|];
  destruct (Z.eqb_spec (Z.of_nat (length f)) 0) as [?Hz|_]; [lia|].

(** ** The loops always finish within [MAX_TRIES] passes *)

Lemma send_body_cases (frameTx : list Z) (sizeTXframe debug : Z)
    (success : bool) (attempts : Z) (st : LLState) (w : World) :
  match send_body frameTx sizeTXframe debug success attempts st w with
  | SendReturn ret st1 _ => ret = FAILURE /\ send_keeps st st1
  | SendTest _ attempts1 st1 _ => attempts1 = attempts + 1 /\ send_keeps st st1
  end.
Proof.
  unfold send_body, PHY_send, getFrame, send_keeps.
  destruct (negb _); [repeat split|].
  destruct (debug =? SIMPLE); [repeat split|].
  destruct (frame_end _ _) as [code| |bs]; cbn -[checkFrame];
    try (repeat split; fail).
  destruct (_ >=? _); cbn -[checkFrame]; [repeat split|].
  destruct (_ <? 0); [repeat split|].
  destruct (_ =? 0); [repeat split|].
  destruct (checkFrame _ _ =? FRAMEGOOD); [|repeat split].
  destruct (_ =? _); repeat split.
Qed.

Lemma send_loop_total (fuel : nat) (frameTx : list Z) (sizeTXframe debug : Z)
    (success : bool) (attempts : Z) (st : LLState) (w : World) :
  (1 <= fuel)%nat -> MAX_TRIES - attempts <= Z.of_nat fuel ->
  exists r, send_loop fuel frameTx sizeTXframe debug success attempts st w
            = Some r.
Proof.
  revert success attempts st w.
  induction fuel as [|fuel IH]; intros success attempts st w H1 Hfuel; [lia|].
  cbn [send_loop].
  pose proof (send_body_cases frameTx sizeTXframe debug success attempts st w)
    as Hbody.
  destruct (send_body _ _ _ _ _ _ _) as [ret st1 w1|success1 attempts1 st1 w1].
  - eexists. reflexivity.
  - destruct Hbody as [-> _].
    destruct (negb success1 && (attempts + 1 <? MAX_TRIES)) eqn:Hgo.
    + apply andb_prop in Hgo. destruct Hgo as [_ Hlt].
      apply Z.ltb_lt in Hlt. apply IH; lia.
    + eexists. reflexivity.
Qed.

(** [LL_send] always returns. *)
Lemma LL_send_returns (dataTx : list Z) (debug : Z) (st : LLState) (w : World) :
  exists r, LL_send dataTx debug st w = Some r.
Proof.
  unfold LL_send.
  destruct (negb (connected st)); [eexists; reflexivity|].
  destruct (_ >? _); [eexists; reflexivity|].
  destruct (buildDataFrame _ _) as [frameTx sizeTXframe].
  apply send_loop_total; vm_compute; [lia | discriminate].
Qed.

Lemma sendAck_POSACK_keeps (seq : Z) (st : LLState) (w : World) :
  recv_keeps st (snd (fst (sendAck POSACK seq st w))).
Proof.
  unfold sendAck, PHY_send, recv_keeps.
  destruct (negb _); cbn; repeat split.
Qed.

Lemma recv_body_cases (maxData debug expected : Z) (success : bool)
    (attempts nRXdata : Z) (dataRx : list Z) (st : LLState) (w : World) :
  match recv_body maxData debug expected success attempts nRXdata dataRx st w
  with
  | RecvReturn ret _ st1 _ => ret = FAILURE /\ recv_keeps st st1
  | RecvTest _ attempts1 _ _ st1 _ =>
      attempts1 = attempts + 1 /\ recv_keeps st st1
  end.
Proof.
  unfold recv_body.
  destruct (getFrame _ _) as [[sizeRXframe frameRx] w1].
  destruct (_ <? 0); [repeat split|].
  destruct (_ =? 0); [repeat split|].
  destruct (checkFrame _ _ =? FRAMEBAD).
  - destruct (debug =? SIMPLE); repeat split.
  - destruct (processFrame _ _ _ _) as [[n d] seqNumRx].
    destruct (debug =? SIMPLE); [repeat split|].
    destruct (seqNumRx =? expected);
      [|destruct (seqNumRx =? lastSeqRx (inc_goodFrames st))];
      match goal with
      | |- context [sendAck POSACK ?q ?s ?x] =>
          pose proof (sendAck_POSACK_keeps q s x) as Hk;
          destruct (sendAck POSACK q s x) as [[r st2] w2]
      end;
      cbn in Hk; unfold recv_keeps in *; cbn in Hk; split; auto.
Qed.

Lemma recv_loop_total (fuel : nat) (maxData debug expected : Z)
    (success : bool) (attempts nRXdata : Z) (dataRx : list Z)
    (st : LLState) (w : World) :
  (1 <= fuel)%nat -> MAX_TRIES - attempts <= Z.of_nat fuel ->
  exists r, recv_loop fuel maxData debug expected success attempts nRXdata
              dataRx st w = Some r.
Proof.
  revert success attempts nRXdata dataRx st w.
  induction fuel as [|fuel IH];
    intros success attempts nRXdata dataRx st w H1 Hfuel; [lia|].
  cbn [recv_loop].
  pose proof (recv_body_cases maxData debug expected success attempts nRXdata
                dataRx st w) as Hbody.
  destruct (recv_body _ _ _ _ _ _ _ _ _)
    as [ret d1 st1 w1|success1 attempts1 n1 d1 st1 w1].
  - eexists. reflexivity.
  - destruct Hbody as [-> _].
    destruct (negb success1 && (attempts + 1 <? MAX_TRIES)) eqn:Hgo.
    + apply andb_prop in Hgo. destruct Hgo as [_ Hlt].
      apply Z.ltb_lt in Hlt. apply IH; lia.
    + eexists. reflexivity.
Qed.

(** [LL_receive] always returns. *)
Lemma LL_receive_returns (dataRx : list Z) (maxData debug : Z)
    (st : LLState) (w : World) :
  exists r, LL_receive dataRx maxData debug st w = Some r.
Proof.
  unfold LL_receive.
  destruct (negb (connected st)); [eexists; reflexivity|].
  apply recv_loop_total; vm_compute; [lia | discriminate].
Qed.

(** ** C6: misuse is refused before the line is touched *)

(** C6.  [LL_send] called while not connected, or with a block of more
    than [MAX_BLK] bytes, returns [BADUSE] and leaves the state, the
    counters and the line (no [PHY_send], no [getFrame]) as they were;
    [LL_receive] called while not connected does the same. *)
Theorem baduse_leaves_everything
    (dataTx dataRx : list Z) (maxData debug : Z) (st : LLState) (w : World) :
  (connected st = false \/ Z.of_nat (length dataTx) > MAX_BLK ->
   LL_send dataTx debug st w = Some (BADUSE, st, w))
  /\ (connected st = false ->
      LL_receive dataRx maxData debug st w = Some (BADUSE, dataRx, st, w)).
Proof.
  split.
  - intros [Hc|Hlen]; unfold LL_send.
    + rewrite Hc. reflexivity.
    + destruct (negb (connected st)); [reflexivity|].
      destruct (Z.gtb_spec (Z.of_nat (length dataTx)) MAX_BLK) as [_|Hle];
        [reflexivity | lia].
  - intros Hc. unfold LL_receive. rewrite Hc. reflexivity.
Qed.

Lemma baduse_leaves_everything_witness :
  ((connected fresh_state = false
    \/ Z.of_nat (length (repeat 0 201)) > MAX_BLK)
   /\ connected unconnected_state = false)
  /\ LL_send (repeat 0 201) FULL fresh_state silent_world
     = Some (BADUSE, fresh_state, silent_world)
  /\ LL_receive [0; 0] 2 FULL unconnected_state silent_world
     = Some (BADUSE, [0; 0], unconnected_state, silent_world).
Proof.
  assert (H1 : connected fresh_state = false
               \/ Z.of_nat (length (repeat 0 201)) > MAX_BLK)
    by (right; vm_compute; reflexivity).
  assert (H2 : connected unconnected_state = false) by reflexivity.
  split; [split; assumption|].
  split.
  - exact (proj1 (baduse_leaves_everything (repeat 0 201) [] 0 FULL
                    fresh_state silent_world) H1).
  - exact (proj2 (baduse_leaves_everything [] [0; 0] 2 FULL
                    unconnected_state silent_world) H2).
Defined.

(** ** C5: the transmit sequence number *)


(** The loop of [LL_send] ends in one of three ways. *)
Lemma send_loop_outcome (fuel : nat) (frameTx : list Z)
    (sizeTXframe debug : Z) (success : bool) (attempts : Z)
    (st : LLState) (w : World) (ret : Z) (st' : LLState) (w' : World) :
  send_loop fuel frameTx sizeTXframe debug success attempts st w
  = Some (ret, st', w') ->
  (ret = SUCCESS /\ seqNumTx st' = next (seqNumTx st)
   \/ (ret = FAILURE \/ ret = GIVEUP) /\ seqNumTx st' = seqNumTx st)
  /\ naksSent st' = naksSent st /\ connected st' = connected st
  /\ acksSent st' = acksSent st.
Proof.
  revert success attempts st w.
  induction fuel as [|fuel IH]; intros success attempts st w Hrun;
    [discriminate|].
  cbn [send_loop] in Hrun.
  pose proof (send_body_cases frameTx sizeTXframe debug success attempts st w)
    as Hbody.
  destruct (send_body _ _ _ _ _ _ _) as [r st1 w1|success1 attempts1 st1 w1].
  - destruct Hbody as [-> (Hc & Hs & _ & Hn & Ha)].
    injection Hrun as <- <- <-. auto 10.
  - destruct Hbody as [_ (Hc & Hs & _ & Hn & Ha)].
    destruct (negb success1 && (attempts1 <? MAX_TRIES)).
    + apply IH in Hrun. rewrite Hs, Hn, Hc, Ha in Hrun. exact Hrun.
    + unfold send_end in Hrun. destruct success1;
        injection Hrun as <- <- <-; cbn; rewrite ?Hs; auto 10.
Qed.

Lemma LL_send_outcome (dataTx : list Z) (debug : Z) (st : LLState) (w : World)
    (ret : Z) (st' : LLState) (w' : World) :
  LL_send dataTx debug st w = Some (ret, st', w') ->
  (ret = SUCCESS /\ seqNumTx st' = next (seqNumTx st)
   \/ (ret = BADUSE \/ ret = FAILURE \/ ret = GIVEUP)
      /\ seqNumTx st' = seqNumTx st)
  /\ naksSent st' = naksSent st /\ connected st' = connected st
  /\ acksSent st' = acksSent st.
Proof.
  unfold LL_send.
  destruct (negb (connected st));
    [intros H; injection H as <- <- <-; auto 10|].
  destruct (_ >? _); [intros H; injection H as <- <- <-; auto 10|].
  destruct (buildDataFrame _ _) as [frameTx sizeTXframe].
  intros H. apply send_loop_outcome in H.
  destruct H as [[H|[[H|H] Hs]] Hrest]; auto 10.
Qed.

(** What [LL_receive] leaves alone. *)
Lemma recv_loop_keeps (fuel : nat) (maxData debug expected : Z)
    (success : bool) (attempts nRXdata : Z) (dataRx : list Z)
    (st : LLState) (w : World) r :
  recv_loop fuel maxData debug expected success attempts nRXdata dataRx st w
  = Some r ->
  recv_keeps st (snd (fst r)).
Proof.
  revert success attempts nRXdata dataRx st w.
  induction fuel as [|fuel IH];
    intros success attempts nRXdata dataRx st w Hrun; [discriminate|].
  cbn [recv_loop] in Hrun.
  pose proof (recv_body_cases maxData debug expected success attempts nRXdata
                dataRx st w) as Hbody.
  destruct (recv_body _ _ _ _ _ _ _ _ _)
    as [ret d1 st1 w1|success1 attempts1 n1 d1 st1 w1].
  - destruct Hbody as [_ Hk]. injection Hrun as <-. exact Hk.
  - destruct Hbody as [_ (Hc & Hs & Hn)].
    destruct (negb success1 && (attempts1 <? MAX_TRIES)).
    + apply IH in Hrun. unfold recv_keeps in *.
      rewrite Hc, Hs, Hn in Hrun. exact Hrun.
    + unfold recv_end in Hrun.
      destruct success1; injection Hrun as <-; cbn; unfold recv_keeps; auto.
Qed.

Lemma LL_receive_keeps (dataRx : list Z) (maxData debug : Z)
    (st : LLState) (w : World) r :
  LL_receive dataRx maxData debug st w = Some r ->
  recv_keeps st (snd (fst r)).
Proof.
  unfold LL_receive.
  destruct (negb (connected st)).
  - intros H. injection H as <-. cbn. unfold recv_keeps. auto.
  - apply recv_loop_keeps.
Qed.




(** ** C4: giving up on a silent peer *)

(** One unfolding of the loop. *)
Lemma send_loop_step (fuel : nat) (frameTx : list Z) (sizeTXframe debug : Z)
    (success : bool) (attempts : Z) (st : LLState) (w : World) :
  send_loop (S fuel) frameTx sizeTXframe debug success attempts st w
  = match send_body frameTx sizeTXframe debug success attempts st w with
    | SendReturn ret st w => Some (ret, st, w)
    | SendTest success attempts st w =>
        if negb success && (attempts <? MAX_TRIES)
        then send_loop fuel frameTx sizeTXframe debug success attempts st w
        else Some (send_end success st w)
    end.
Proof. reflexivity. Qed.

(** A pass in normal mode in which the line takes the frame and the wait
    times out. *)
Lemma send_body_timeout (frameTx : list Z) (debug : Z) (success : bool)
    (attempts : Z) (st : LLState) (w : World) :
  debug <> SIMPLE ->
  phy_send_ret w (length (phy_out w)) frameTx = Z.of_nat (length frameTx) ->
  frame_end w (getFrame_calls w) = GF_timeup ->
  send_body frameTx (Z.of_nat (length frameTx)) debug success attempts st w
  = SendTest success (attempts + 1) (inc_timeouts (inc_framesSent st))
      (after_passes 1 frameTx w).
Proof.
  intros Hdebug Hline Hpeer. apply Z.eqb_neq in Hdebug.
  unfold send_body, PHY_send, getFrame.
  cbn [frame_end getFrame_calls phy_send_ret phy_out phy_open_ret].
  rewrite Nat2Z.id, firstn_all, Hline, Z.eqb_refl, Hdebug, Hpeer.
  reflexivity.
Qed.

Lemma send_loop_silent (frameTx : list Z) (debug : Z) (k : nat) :
  debug <> SIMPLE ->
  forall (attempts : Z) (st : LLState) (w : World),
    (forall j bs, phy_send_ret w j bs = Z.of_nat (length bs)) ->
    (forall j, frame_end w j = GF_timeup) ->
    attempts + Z.of_nat (S k) = MAX_TRIES ->
    send_loop (S k) frameTx (Z.of_nat (length frameTx)) debug false attempts
      st w
    = Some (GIVEUP, after_timeouts (Z.of_nat (S k)) st,
            after_passes (S k) frameTx w).
Proof.
  intros Hdebug.
  induction k as [|k IH]; intros attempts st w Hline Hpeer Hatt;
    rewrite send_loop_step, send_body_timeout by auto; cbn [negb andb].
  - replace (attempts + 1 <? MAX_TRIES) with false
      by (symmetry; apply Z.ltb_ge; lia).
    reflexivity.
  - replace (attempts + 1 <? MAX_TRIES) with true
      by (symmetry; apply Z.ltb_lt; lia).
    rewrite IH; [|exact Hline | exact Hpeer | lia].
    unfold after_timeouts, after_passes, inc_timeouts, inc_framesSent.
    cbn [connected seqNumTx lastSeqRx framesSent acksSent naksSent acksRx
         naksRx badFrames goodFrames timeouts
         frame_end getFrame_calls phy_send_ret phy_out phy_open_ret].
    f_equal. f_equal; [f_equal|].
    + f_equal; lia.
    + f_equal; [lia|].
      rewrite <- app_assoc. reflexivity.
Qed.

(** C4, counterexample: in simple mode a connected sender whose peer
    never answers does not give up; it returns [SUCCESS] after a single
    transmission, without waiting at all. *)
Lemma simple_mode_send_to_silent_peer :
  connected fresh_state = true
  /\ Z.of_nat (length [1; 2; 3]) <= MAX_BLK
  /\ (forall k, frame_end silent_world k = GF_timeup)
  /\ match LL_send [1; 2; 3] SIMPLE fresh_state silent_world with
     | Some (ret, _, w') =>
         ret = SUCCESS /\ ret <> GIVEUP
         /\ Z.of_nat (length (phy_out w')) <> MAX_TRIES
     | None => False
     end.
Proof.
  split; [reflexivity|].
  split; [vm_compute; discriminate|].
  split; [intros k; reflexivity|].
  vm_compute. repeat split; discriminate.
Qed.

(** C4, amended.  In normal mode ([debug] other than [SIMPLE]), for a
    connected state and a block of at most [MAX_BLK] bytes, when the
    line accepts every transmission and every wait for a response times
    out, [LL_send] returns [GIVEUP] after exactly [MAX_TRIES]
    transmissions of the frame: the frame-sent and timeout counters have
    grown by [MAX_TRIES], nothing else in the state has changed, and the
    line has been handed [MAX_TRIES] copies of the frame. *)
Theorem giveup_after_MAX_TRIES
    (dataTx : list Z) (debug : Z) (st : LLState) (w : World) :
  connected st = true ->
  Z.of_nat (length dataTx) <= MAX_BLK ->
  debug <> SIMPLE ->
  (forall j bs, phy_send_ret w j bs = Z.of_nat (length bs)) ->
  (forall j, frame_end w j = GF_timeup) ->
  LL_send dataTx debug st w
  = Some (GIVEUP, after_timeouts MAX_TRIES st,
          after_passes (Z.to_nat MAX_TRIES)
            (fst (buildDataFrame dataTx (seqNumTx st))) w).
Proof.
  intros Hconn Hlen Hdebug Hline Hpeer.
  unfold LL_send. rewrite Hconn. cbn [negb].
  destruct (Z.gtb_spec (Z.of_nat (length dataTx)) MAX_BLK) as [Hgt|_]; [lia|].
  pose proof (buildDataFrame_size dataTx (seqNumTx st)) as Hsize.
  destruct (buildDataFrame dataTx (seqNumTx st)) as [frameTx sizeTXframe].
  cbn [fst snd] in *. subst sizeTXframe.
  change (Z.to_nat MAX_TRIES) with 5%nat.
  apply (send_loop_silent frameTx debug 4 Hdebug 0 st w Hline Hpeer).
  reflexivity.
Qed.

Lemma giveup_after_MAX_TRIES_witness :
  (connected fresh_state = true
   /\ Z.of_nat (length [1; 2; 3]) <= MAX_BLK
   /\ FULL <> SIMPLE
   /\ (forall j bs, phy_send_ret silent_world j bs = Z.of_nat (length bs))
   /\ (forall j, frame_end silent_world j = GF_timeup))
  /\ LL_send [1; 2; 3] FULL fresh_state silent_world
     = Some (GIVEUP, after_timeouts MAX_TRIES fresh_state,
             after_passes (Z.to_nat MAX_TRIES)
               (fst (buildDataFrame [1; 2; 3] (seqNumTx fresh_state)))
               silent_world).
Proof.
  assert (H1 : connected fresh_state = true) by reflexivity.
  assert (H2 : Z.of_nat (length [1; 2; 3]) <= MAX_BLK)
    by (vm_compute; discriminate).
  assert (H3 : FULL <> SIMPLE) by discriminate.
  assert (H4 : forall j bs,
             phy_send_ret silent_world j bs = Z.of_nat (length bs))
    by (intros j bs; reflexivity).
  assert (H5 : forall j, frame_end silent_world j = GF_timeup)
    by (intros j; reflexivity).
  split; [repeat split; assumption|].
  exact (giveup_after_MAX_TRIES [1; 2; 3] FULL fresh_state silent_world
           H1 H2 H3 H4 H5).
Defined.

(** ** C7: how the sender classifies a response *)

(** A pass in normal mode in which the line takes the frame and a
    response [r] arrives within the time limit. *)
Lemma send_body_response (frameTx r : list Z) (debug : Z) (success : bool)
    (attempts : Z) (st : LLState) (w : World) :
  debug <> SIMPLE ->
  phy_send_ret w (length (phy_out w)) frameTx = Z.of_nat (length frameTx) ->
  frame_end w (getFrame_calls w) = GF_bytes r ->
  0 < Z.of_nat (length r) < 2 * ACK_SIZE ->
  send_body frameTx (Z.of_nat (length frameTx)) debug success attempts st w
  = if checkFrame r (Z.of_nat (length r)) =? FRAMEGOOD then
      if rd r SEQNUMPOS =? seqNumTx st then
        SendTest true (attempts + 1)
          (inc_acksRx (inc_goodFrames (inc_framesSent st)))
          (after_passes 1 frameTx w)
      else
        SendTest success (attempts + 1)
          (inc_naksRx (inc_goodFrames (inc_framesSent st)))
          (after_passes 1 frameTx w)
    else
      SendTest success (attempts + 1) (inc_badFrames (inc_framesSent st))
        (after_passes 1 frameTx w).
Proof.
  intros Hdebug Hline Hpeer Hlen. apply Z.eqb_neq in Hdebug.
  unfold send_body, PHY_send, getFrame.
  cbn [frame_end getFrame_calls phy_send_ret phy_out phy_open_ret].
  rewrite Nat2Z.id, firstn_all, Hline, Z.eqb_refl, Hdebug, Hpeer.
  cbn [negb].
  destruct (Z.geb_spec (Z.of_nat (length r)) (2 * ACK_SIZE)) as [Hge|_];
    [lia|].
  positive_size r.
  reflexivity.
Qed.

(** Every pass of the sender's loop hands the frame to [PHY_send] once. *)
Lemma send_body_transmits (frameTx : list Z) (sizeTXframe debug : Z)
    (success : bool) (attempts : Z) (st : LLState) (w : World) :
  let bytes := firstn (Z.to_nat sizeTXframe) frameTx in
  match send_body frameTx sizeTXframe debug success attempts st w with
  | SendReturn _ _ w1 => phy_out w1 = phy_out w ++ [bytes]
  | SendTest _ _ _ w1 => phy_out w1 = phy_out w ++ [bytes]
  end.
Proof.
  unfold send_body, PHY_send, getFrame.
  destruct (negb _); [reflexivity|].
  destruct (debug =? SIMPLE); [reflexivity|].
  destruct (frame_end _ _) as [code| |bs]; cbn -[checkFrame];
    try reflexivity.
  destruct (_ >=? _); cbn -[checkFrame]; [reflexivity|].
  destruct (_ <? 0); [reflexivity|].
  destruct (_ =? 0); [reflexivity|].
  destruct (checkFrame _ _ =? FRAMEGOOD); [|reflexivity].
  destruct (_ =? _); reflexivity.
Qed.

(** Whatever the loop returns, its first act was to transmit the frame. *)
Lemma send_loop_transmits (fuel : nat) (frameTx : list Z)
    (sizeTXframe debug : Z) (success : bool) (attempts : Z)
    (st : LLState) (w : World) (ret : Z) (st' : LLState) (w' : World) :
  send_loop fuel frameTx sizeTXframe debug success attempts st w
  = Some (ret, st', w') ->
  exists rest,
    phy_out w' = phy_out w ++ firstn (Z.to_nat sizeTXframe) frameTx :: rest.
Proof.
  revert success attempts st w.
  induction fuel as [|fuel IH]; intros success attempts st w Hrun;
    [discriminate|].
  rewrite send_loop_step in Hrun.
  pose proof (send_body_transmits frameTx sizeTXframe debug success attempts
                st w) as Hout.
  cbv zeta in Hout.
  destruct (send_body _ _ _ _ _ _ _) as [r st1 w1|success1 attempts1 st1 w1].
  - injection Hrun as <- <- <-. exists []. exact Hout.
  - destruct (negb success1 && (attempts1 <? MAX_TRIES)).
    + apply IH in Hrun. destruct Hrun as [rest Hrest].
      rewrite Hrest, Hout, <- app_assoc. cbn [app]. eexists. reflexivity.
    + unfold send_end in Hrun.
      destruct success1; injection Hrun as <- <- <-; exists []; exact Hout.
Qed.

(** C7.  In the retry loop of [LL_send] in normal mode, after a pass in
    which the line took the frame and a response [r] arrived:
    - if [r] passes [checkFrame] and carries the sequence number just
      sent, the loop ends and [LL_send] returns [SUCCESS]; [goodFrames]
      and [acksRx] are each one higher, [seqNumTx] has advanced;
    - if [r] fails [checkFrame], [badFrames] is one higher;
    - if [r] passes [checkFrame] but carries another sequence number,
      [goodFrames] and [naksRx] are each one higher;
    in every case [framesSent] is one higher and no other counter has
    moved; and in the last two cases, while fewer than [MAX_TRIES]
    attempts have been made, the loop goes round again with the same
    frame and an unchanged [seqNumTx], so the same bytes are handed to
    [PHY_send] a second time (after [MAX_TRIES] attempts it returns
    [GIVEUP]). *)
Theorem send_loop_classifies_response
    (fuel : nat) (frameTx r : list Z) (debug attempts : Z)
    (st : LLState) (w : World) :
  debug <> SIMPLE ->
  phy_send_ret w (length (phy_out w)) frameTx = Z.of_nat (length frameTx) ->
  frame_end w (getFrame_calls w) = GF_bytes r ->
  0 < Z.of_nat (length r) < 2 * ACK_SIZE ->
  MAX_TRIES - attempts <= Z.of_nat (S fuel) ->
  let w1 := mkWorld (phy_open_ret w) (phy_send_ret w) (frame_end w)
              (S (getFrame_calls w)) (phy_out w ++ [frameTx]) in
  (checkFrame r (Z.of_nat (length r)) = FRAMEGOOD ->
   rd r SEQNUMPOS = seqNumTx st ->
   send_loop (S fuel) frameTx (Z.of_nat (length frameTx)) debug false
     attempts st w
   = Some (SUCCESS,
           mkLLState (connected st) (next (seqNumTx st)) (lastSeqRx st)
             (framesSent st + 1) (acksSent st) (naksSent st)
             (acksRx st + 1) (naksRx st) (badFrames st)
             (goodFrames st + 1) (timeouts st),
           w1))
  /\ (forall st1,
        (checkFrame r (Z.of_nat (length r)) <> FRAMEGOOD
         /\ st1 = mkLLState (connected st) (seqNumTx st) (lastSeqRx st)
                    (framesSent st + 1) (acksSent st) (naksSent st)
                    (acksRx st) (naksRx st) (badFrames st + 1)
                    (goodFrames st) (timeouts st))
        \/ (checkFrame r (Z.of_nat (length r)) = FRAMEGOOD
            /\ rd r SEQNUMPOS <> seqNumTx st
            /\ st1 = mkLLState (connected st) (seqNumTx st) (lastSeqRx st)
                       (framesSent st + 1) (acksSent st) (naksSent st)
                       (acksRx st) (naksRx st + 1) (badFrames st)
                       (goodFrames st + 1) (timeouts st)) ->
        (MAX_TRIES <= attempts + 1 ->
         send_loop (S fuel) frameTx (Z.of_nat (length frameTx)) debug false
           attempts st w
         = Some (GIVEUP, st1, w1))
        /\ (attempts + 1 < MAX_TRIES ->
            send_loop (S fuel) frameTx (Z.of_nat (length frameTx)) debug
              false attempts st w
            = send_loop fuel frameTx (Z.of_nat (length frameTx)) debug false
                (attempts + 1) st1 w1
            /\ seqNumTx st1 = seqNumTx st
            /\ exists ret st' w' rest,
                 send_loop (S fuel) frameTx (Z.of_nat (length frameTx)) debug
                   false attempts st w
                 = Some (ret, st', w')
                 /\ phy_out w' = phy_out w ++ frameTx :: frameTx :: rest)).
Proof.
  intros Hdebug Hline Hpeer Hlen Hfuel w1.
  assert (Hw1 : w1 = after_passes 1 frameTx w) by reflexivity.
  rewrite Hw1. clear w1 Hw1.
  pose proof (send_body_response frameTx r debug false attempts st w
                Hdebug Hline Hpeer Hlen) as Hbody.
  split.
  - intros Hgood Hseq. rewrite send_loop_step, Hbody, Hgood.
    apply Z.eqb_eq in Hseq. change (FRAMEGOOD =? FRAMEGOOD) with true.
    cbv iota. rewrite Hseq. reflexivity.
  - intros st1 Hcase.
    assert (Hpass :
              send_body frameTx (Z.of_nat (length frameTx)) debug false
                attempts st w
              = SendTest false (attempts + 1) st1 (after_passes 1 frameTx w)
              /\ seqNumTx st1 = seqNumTx st).
    { rewrite Hbody.
      destruct Hcase as [[Hbad ->]|(Hgood & Hseq & ->)].
      - apply Z.eqb_neq in Hbad. rewrite Hbad. split; reflexivity.
      - apply Z.eqb_neq in Hseq. rewrite Hgood.
        change (FRAMEGOOD =? FRAMEGOOD) with true. cbv iota.
        rewrite Hseq. split; reflexivity. }
    destruct Hpass as [Hpass Hsame].
    split.
    + intros Hlast. rewrite send_loop_step, Hpass. cbn [negb andb].
      replace (attempts + 1 <? MAX_TRIES) with false
        by (symmetry; apply Z.ltb_ge; lia).
      reflexivity.
    + intros Hmore.
      assert (Hstep :
                send_loop (S fuel) frameTx (Z.of_nat (length frameTx)) debug
                  false attempts st w
                = send_loop fuel frameTx (Z.of_nat (length frameTx)) debug
                    false (attempts + 1) st1 (after_passes 1 frameTx w)).
      { rewrite send_loop_step, Hpass. cbn [negb andb].
        replace (attempts + 1 <? MAX_TRIES) with true
          by (symmetry; apply Z.ltb_lt; lia).
        reflexivity. }
      split; [exact Hstep|]. split; [exact Hsame|].
      destruct (send_loop_total fuel frameTx (Z.of_nat (length frameTx)) debug
                  false (attempts + 1) st1 (after_passes 1 frameTx w))
        as [[[ret st'] w'] Hrun]; [lia | lia |].
      exists ret, st', w'.
      destruct (send_loop_transmits _ _ _ _ _ _ _ _ _ _ _ Hrun)
        as [rest Hrest].
      exists rest. split; [rewrite Hstep; exact Hrun|].
      rewrite Hrest, Nat2Z.id, firstn_all.
      cbn [after_passes phy_out repeat]. rewrite <- app_assoc. reflexivity.
Qed.

Lemma send_loop_classifies_response_witness :
  ((FULL <> SIMPLE
    /\ phy_send_ret acking_world (length (phy_out acking_world))
         (fst (buildDataFrame [1; 2; 3] 0))
       = Z.of_nat (length (fst (buildDataFrame [1; 2; 3] 0)))
    /\ frame_end acking_world (getFrame_calls acking_world)
       = GF_bytes [212; 5; 0; 5; 204]
    /\ 0 < Z.of_nat (length [212; 5; 0; 5; 204]) < 2 * ACK_SIZE
    /\ MAX_TRIES - 0 <= Z.of_nat 5
    /\ checkFrame [212; 5; 0; 5; 204] (Z.of_nat (length [212; 5; 0; 5; 204]))
       = FRAMEGOOD
    /\ rd [212; 5; 0; 5; 204] SEQNUMPOS = seqNumTx fresh_state)
   /\ send_loop 5 (fst (buildDataFrame [1; 2; 3] 0))
        (Z.of_nat (length (fst (buildDataFrame [1; 2; 3] 0)))) FULL false 0
        fresh_state acking_world
      = Some (SUCCESS, mkLLState true 1 (-1) 1 0 0 1 0 0 1 0,
              mkWorld 0 line_accepts (frame_end acking_world) 1
                [[212; 8; 0; 1; 2; 3; 14; 204]]))
  /\ ((phy_send_ret garbled_world (length (phy_out garbled_world))
         (fst (buildDataFrame [1; 2; 3] 0))
       = Z.of_nat (length (fst (buildDataFrame [1; 2; 3] 0)))
       /\ frame_end garbled_world (getFrame_calls garbled_world)
          = GF_bytes [212; 5; 0; 6; 204]
       /\ checkFrame [212; 5; 0; 6; 204]
            (Z.of_nat (length [212; 5; 0; 6; 204])) <> FRAMEGOOD
       /\ 0 + 1 < MAX_TRIES)
      /\ send_loop 5 (fst (buildDataFrame [1; 2; 3] 0))
           (Z.of_nat (length (fst (buildDataFrame [1; 2; 3] 0)))) FULL false 0
           fresh_state garbled_world
         = send_loop 4 (fst (buildDataFrame [1; 2; 3] 0))
             (Z.of_nat (length (fst (buildDataFrame [1; 2; 3] 0)))) FULL false
             (0 + 1) (mkLLState true 0 (-1) 1 0 0 0 0 1 0 0)
             (mkWorld 0 line_accepts (frame_end garbled_world) 1
                [[212; 8; 0; 1; 2; 3; 14; 204]]))
  /\ ((phy_send_ret stray_world (length (phy_out stray_world))
         (fst (buildDataFrame [1; 2; 3] 0))
       = Z.of_nat (length (fst (buildDataFrame [1; 2; 3] 0)))
       /\ frame_end stray_world (getFrame_calls stray_world)
          = GF_bytes [212; 7; 5; 9; 9; 30; 204]
       /\ checkFrame [212; 7; 5; 9; 9; 30; 204]
            (Z.of_nat (length [212; 7; 5; 9; 9; 30; 204])) = FRAMEGOOD
       /\ rd [212; 7; 5; 9; 9; 30; 204] SEQNUMPOS <> seqNumTx fresh_state
       /\ 0 + 1 < MAX_TRIES)
      /\ send_loop 5 (fst (buildDataFrame [1; 2; 3] 0))
           (Z.of_nat (length (fst (buildDataFrame [1; 2; 3] 0)))) FULL false 0
           fresh_state stray_world
         = send_loop 4 (fst (buildDataFrame [1; 2; 3] 0))
             (Z.of_nat (length (fst (buildDataFrame [1; 2; 3] 0)))) FULL false
             (0 + 1) (mkLLState true 0 (-1) 1 0 0 0 1 0 1 0)
             (mkWorld 0 line_accepts (frame_end stray_world) 1
                [[212; 8; 0; 1; 2; 3; 14; 204]])).
Proof.
  set (frameTx := fst (buildDataFrame [1; 2; 3] 0)).
  assert (H1 : FULL <> SIMPLE) by discriminate.
  assert (H5 : MAX_TRIES - 0 <= Z.of_nat 5) by (vm_compute; discriminate).
  assert (Hmore : 0 + 1 < MAX_TRIES) by (vm_compute; reflexivity).
  split; [|split].
  - assert (H2 : phy_send_ret acking_world (length (phy_out acking_world))
                   frameTx = Z.of_nat (length frameTx)) by reflexivity.
    assert (H3 : frame_end acking_world (getFrame_calls acking_world)
                 = GF_bytes [212; 5; 0; 5; 204]) by reflexivity.
    assert (H4 : 0 < Z.of_nat (length [212; 5; 0; 5; 204]) < 2 * ACK_SIZE)
      by (vm_compute; split; reflexivity).
    assert (H6 : checkFrame [212; 5; 0; 5; 204]
                   (Z.of_nat (length [212; 5; 0; 5; 204])) = FRAMEGOOD)
      by (vm_compute; reflexivity).
    assert (H7 : rd [212; 5; 0; 5; 204] SEQNUMPOS = seqNumTx fresh_state)
      by (vm_compute; reflexivity).
    split; [repeat split; assumption || apply H4|].
    exact (proj1 (send_loop_classifies_response 4 frameTx
                    [212; 5; 0; 5; 204] FULL 0 fresh_state acking_world
                    H1 H2 H3 H4 H5) H6 H7).
  - assert (H2 : phy_send_ret garbled_world (length (phy_out garbled_world))
                   frameTx = Z.of_nat (length frameTx)) by reflexivity.
    assert (H3 : frame_end garbled_world (getFrame_calls garbled_world)
                 = GF_bytes [212; 5; 0; 6; 204]) by reflexivity.
    assert (H4 : 0 < Z.of_nat (length [212; 5; 0; 6; 204]) < 2 * ACK_SIZE)
      by (vm_compute; split; reflexivity).
    assert (H6 : checkFrame [212; 5; 0; 6; 204]
                   (Z.of_nat (length [212; 5; 0; 6; 204])) <> FRAMEGOOD)
      by (vm_compute; discriminate).
    split; [repeat split; assumption|].
    exact (proj1 (proj2 (proj2 (send_loop_classifies_response 4 frameTx
                                  [212; 5; 0; 6; 204] FULL 0 fresh_state
                                  garbled_world H1 H2 H3 H4 H5)
                           (mkLLState true 0 (-1) 1 0 0 0 0 1 0 0)
                           (or_introl (conj H6 eq_refl)))
                   Hmore)).
  - assert (H2 : phy_send_ret stray_world (length (phy_out stray_world))
                   frameTx = Z.of_nat (length frameTx)) by reflexivity.
    assert (H3 : frame_end stray_world (getFrame_calls stray_world)
                 = GF_bytes [212; 7; 5; 9; 9; 30; 204]) by reflexivity.
    assert (H4 : 0 < Z.of_nat (length [212; 7; 5; 9; 9; 30; 204])
                 < 2 * ACK_SIZE)
      by (vm_compute; split; reflexivity).
    assert (H6 : checkFrame [212; 7; 5; 9; 9; 30; 204]
                   (Z.of_nat (length [212; 7; 5; 9; 9; 30; 204])) = FRAMEGOOD)
      by (vm_compute; reflexivity).
    assert (H7 : rd [212; 7; 5; 9; 9; 30; 204] SEQNUMPOS
                 <> seqNumTx fresh_state)
      by (vm_compute; discriminate).
    split; [repeat split; assumption|].
    exact (proj1 (proj2 (proj2 (send_loop_classifies_response 4 frameTx
                                  [212; 7; 5; 9; 9; 30; 204] FULL 0
                                  fresh_state stray_world H1 H2 H3 H4 H5)
                           (mkLLState true 0 (-1) 1 0 0 0 1 0 1 0)
                           (or_intror (conj H6 (conj H7 eq_refl))))
                   Hmore)).
Defined.

(** ** C9 and C10: what the receiver answers *)

Lemma recv_loop_step (fuel : nat) (maxData debug expected : Z)
    (success : bool) (attempts nRXdata : Z) (dataRx : list Z)
    (st : LLState) (w : World) :
  recv_loop (S fuel) maxData debug expected success attempts nRXdata dataRx
    st w
  = match recv_body maxData debug expected success attempts nRXdata
            dataRx st w with
    | RecvReturn ret dataRx st w => Some (ret, dataRx, st, w)
    | RecvTest success attempts nRXdata dataRx st w =>
        if negb success && (attempts <? MAX_TRIES)
        then recv_loop fuel maxData debug expected success attempts
               nRXdata dataRx st w
        else Some (recv_end success nRXdata dataRx st w)
    end.
Proof. reflexivity. Qed.

(** [getFrame] when a frame of a size the array can hold has arrived. *)
Lemma getFrame_bytes (maxSize : Z) (w : World) (f : list Z) :
  frame_end w (getFrame_calls w) = GF_bytes f ->
  Z.of_nat (length f) < maxSize ->
  getFrame maxSize w = (Z.of_nat (length f), f, after_wait w).
Proof.
  intros Hpeer Hlen. unfold getFrame. rewrite Hpeer.
  destruct (Z.geb_spec (Z.of_nat (length f)) maxSize) as [Hge|_]; [lia|].
  reflexivity.
Qed.

(** What [sendAck] does to the state and the line. *)
Lemma sendAck_POSACK_effect (seq : Z) (st : LLState) (w : World) :
  let st1 := snd (fst (sendAck POSACK seq st w)) in
  let w1 := snd (sendAck POSACK seq st w) in
  phy_out w1 = phy_out w ++ [ackFrame seq]
  /\ getFrame_calls w1 = getFrame_calls w
  /\ phy_send_ret w1 = phy_send_ret w
  /\ frame_end w1 = frame_end w
  /\ lastSeqRx st1 = lastSeqRx st
  /\ goodFrames st1 = goodFrames st
  /\ badFrames st1 = badFrames st
  /\ naksSent st1 = naksSent st
  /\ acksSent st1
     = acksSent st
       + (if phy_send_ret w (length (phy_out w)) (ackFrame seq) =? 5
          then 1 else 0).
Proof.
  unfold sendAck, PHY_send.
  change (firstn (Z.to_nat 5) (ackFrame seq)) with (ackFrame seq).
  destruct (phy_send_ret w (length (phy_out w)) (ackFrame seq) =? 5);
    cbn; repeat split; lia.
Qed.

(** The byte count of an earlier frame is never what the loop returns
    once it goes on without success: the value of [nRXdata] at the start
    of a pass has no influence on the result. *)
Lemma recv_loop_forgets_nRXdata (fuel : nat) (maxData debug expected : Z)
    (attempts n1 n2 : Z) (dataRx : list Z) (st : LLState) (w : World) :
  recv_loop fuel maxData debug expected false attempts n1 dataRx st w
  = recv_loop fuel maxData debug expected false attempts n2 dataRx st w.
Proof.
  revert attempts n1 n2 dataRx st w.
  induction fuel as [|fuel IH]; intros attempts n1 n2 dataRx st w;
    [reflexivity|].
  rewrite !recv_loop_step. unfold recv_body.
  destruct (getFrame _ _) as [[sizeRXframe frameRx] w1].
  destruct (_ <? 0); [reflexivity|].
  destruct (_ =? 0).
  { cbn [negb andb]. destruct (_ <? MAX_TRIES); [apply IH | reflexivity]. }
  destruct (checkFrame _ _ =? FRAMEBAD).
  { destruct (debug =? SIMPLE); [reflexivity|].
    cbn [negb andb]. destruct (_ <? MAX_TRIES); [apply IH | reflexivity]. }
  reflexivity.
Qed.

(** A pass of the receiver's loop in normal mode on a frame that passes
    [checkFrame] but carries neither the expected nor the last accepted
    sequence number. *)
Lemma recv_body_unexpected (maxData debug expected : Z) (success : bool)
    (attempts nRXdata : Z) (dataRx f : list Z) (st : LLState) (w : World) :
  debug <> SIMPLE ->
  frame_end w (getFrame_calls w) = GF_bytes f ->
  0 < Z.of_nat (length f) < 3 * MAX_BLK ->
  checkFrame f (Z.of_nat (length f)) = FRAMEGOOD ->
  rd f SEQNUMPOS <> expected ->
  rd f SEQNUMPOS <> lastSeqRx st ->
  recv_body maxData debug expected success attempts nRXdata dataRx st w
  = RecvTest false (attempts + 1)
      (fst (fst (processFrame f (Z.of_nat (length f)) dataRx maxData)))
      (snd (fst (processFrame f (Z.of_nat (length f)) dataRx maxData)))
      (snd (fst (sendAck POSACK (lastSeqRx st) (inc_goodFrames st)
                   (after_wait w))))
      (snd (sendAck POSACK (lastSeqRx st) (inc_goodFrames st) (after_wait w))).
Proof.
  intros Hdebug Hpeer Hlen Hgood Hexp Hdup.
  apply Z.eqb_neq in Hdebug, Hexp, Hdup.
  unfold recv_body. rewrite (getFrame_bytes _ _ _ Hpeer) by lia.
  positive_size f.
  rewrite Hgood. change (FRAMEGOOD =? FRAMEBAD) with false. cbv iota.
  unfold processFrame at 1. cbv zeta.
  rewrite Hdebug, Hexp.
  change (lastSeqRx (inc_goodFrames st)) with (lastSeqRx st).
  rewrite Hdup.
  destruct (sendAck POSACK (lastSeqRx st) (inc_goodFrames st) (after_wait w))
    as [[r st1] w1].
  reflexivity.
Qed.

(** The acknowledgement frame for a sequence number in
    [0, MOD_SEQNUM), byte by byte. *)
Lemma ackFrame_in_range (seq : Z) :
  0 <= seq < MOD_SEQNUM ->
  ackFrame seq = [STARTBYTE; 5; seq; seq + 5; ENDBYTE].
Proof.
  intros Hseq. unfold MOD_SEQNUM in Hseq. unfold ackFrame. cbv zeta.
  rewrite Z.rem_small by (unfold MODULO; lia).
  rewrite !to_byte_id by (unfold is_byte; lia).
  rewrite Z.add_0_l. reflexivity.
Qed.

Lemma ack_bytes_good (seq : Z) :
  0 <= seq < MOD_SEQNUM ->
  checkFrame [STARTBYTE; 5; seq; seq + 5; ENDBYTE] 5 = FRAMEGOOD
  /\ rd [STARTBYTE; 5; seq; seq + 5; ENDBYTE] SEQNUMPOS = seq.
Proof.
  intros Hseq. unfold MOD_SEQNUM in Hseq. split; [|reflexivity].
  change (checkFrame [STARTBYTE; 5; seq; seq + 5; ENDBYTE] 5)
    with (checkFrame (STARTBYTE :: [5; seq] ++ [seq + 5; ENDBYTE])
            (Z.of_nat (length [5; seq]) + 3)).
  rewrite checkFrame_shape. cbn [zsum fold_right].
  rewrite Z.rem_small by (unfold MODULO; lia).
  replace (5 + (seq + 0)) with (seq + 5) by lia.
  rewrite !Z.eqb_refl. reflexivity.
Qed.

(** C9, counterexample: a receiver that has accepted no block yet
    ([lastSeqRx] is -1, as [LL_connect] leaves it) and gets well-formed
    frames numbered 5.  On each of its [MAX_TRIES] attempts it sends the
    five bytes 212, 5, 255, 4, 204: their sequence byte is not
    [lastSeqRx] and [checkFrame] classifies them [FRAMEBAD], so what is
    sent is not a positive acknowledgement carrying [lastSeqRx]. *)
Lemma fresh_receiver_sends_malformed_ack :
  connected fresh_state = true
  /\ lastSeqRx fresh_state = -1
  /\ frame_end stray_world 0%nat = GF_bytes [212; 7; 5; 9; 9; 30; 204]
  /\ checkFrame [212; 7; 5; 9; 9; 30; 204] 7 = FRAMEGOOD
  /\ rd [212; 7; 5; 9; 9; 30; 204] SEQNUMPOS <> next (lastSeqRx fresh_state)
  /\ rd [212; 7; 5; 9; 9; 30; 204] SEQNUMPOS <> lastSeqRx fresh_state
  /\ (exists dataRx' st' w',
        LL_receive (repeat 0 16) 16 FULL fresh_state stray_world
        = Some (GIVEUP, dataRx', st', w')
        /\ phy_out w' = repeat [212; 5; 255; 4; 204] 5)
  /\ rd [212; 5; 255; 4; 204] SEQNUMPOS <> lastSeqRx fresh_state
  /\ checkFrame [212; 5; 255; 4; 204] 5 = FRAMEBAD.
Proof.
  split; [reflexivity|]. split; [reflexivity|]. split; [reflexivity|].
  split; [vm_compute; reflexivity|].
  split; [vm_compute; discriminate|]. split; [vm_compute; discriminate|].
  split.
  - do 3 eexists. split; [vm_compute; reflexivity | reflexivity].
  - split; [vm_compute; discriminate | vm_compute; reflexivity].
Qed.

(** C9, as amended.  In normal mode, for a receiver that has accepted a
    block ([lastSeqRx] in [0, MOD_SEQNUM)), when the receiver's loop
    gets a frame that passes [checkFrame] and whose sequence number is
    neither the expected [next lastSeqRx] nor [lastSeqRx]:
    - it hands [PHY_send] the five bytes [STARTBYTE], 5, [lastSeqRx],
      [lastSeqRx + 5], [ENDBYTE], which pass [checkFrame] and carry
      [lastSeqRx] in the sequence byte;
    - [acksSent] is one higher when the line takes the five bytes,
      [goodFrames] is one higher, and [lastSeqRx], [naksSent] and every
      other counter are as before;
    - the loop does not end with the frame's data: while fewer than
      [MAX_TRIES] attempts have been made it goes round again, as if
      the byte count of this frame had never been computed, and
      otherwise [LL_receive] returns [GIVEUP].
    For the first frame of a call of [LL_receive] on a connected state
    this says that the call continues with its second attempt. *)
Theorem unexpected_block_reacknowledged
    (fuel : nat) (maxData debug attempts nRXdata : Z) (dataRx f : list Z)
    (st : LLState) (w : World) :
  debug <> SIMPLE ->
  0 <= lastSeqRx st < MOD_SEQNUM ->
  frame_end w (getFrame_calls w) = GF_bytes f ->
  0 < Z.of_nat (length f) < 3 * MAX_BLK ->
  checkFrame f (Z.of_nat (length f)) = FRAMEGOOD ->
  rd f SEQNUMPOS <> next (lastSeqRx st) ->
  rd f SEQNUMPOS <> lastSeqRx st ->
  let ack := [STARTBYTE; 5; lastSeqRx st; lastSeqRx st + 5; ENDBYTE] in
  let counted :=
    if phy_send_ret w (length (phy_out w)) ack =? 5 then 1 else 0 in
  let st1 :=
    mkLLState (connected st) (seqNumTx st) (lastSeqRx st) (framesSent st)
      (acksSent st + counted) (naksSent st) (acksRx st) (naksRx st)
      (badFrames st) (goodFrames st + 1) (timeouts st) in
  let w1 :=
    mkWorld (phy_open_ret w) (phy_send_ret w) (frame_end w)
      (S (getFrame_calls w)) (phy_out w ++ [ack]) in
  let dataRx1 :=
    snd (fst (processFrame f (Z.of_nat (length f)) dataRx maxData)) in
  checkFrame ack 5 = FRAMEGOOD
  /\ rd ack SEQNUMPOS = lastSeqRx st
  /\ recv_loop (S fuel) maxData debug (next (lastSeqRx st)) false attempts
       nRXdata dataRx st w
     = (if attempts + 1 <? MAX_TRIES
        then recv_loop fuel maxData debug (next (lastSeqRx st)) false
               (attempts + 1) nRXdata dataRx1 st1 w1
        else Some (GIVEUP, dataRx1, st1, w1))
  /\ (connected st = true ->
      LL_receive dataRx maxData debug st w
      = recv_loop 4 maxData debug (next (lastSeqRx st)) false 1 0
          dataRx1 st1 w1).
Proof.
  intros Hdebug Hlast Hpeer Hlen Hgood Hexp Hdup ack counted st1 w1 dataRx1.
  assert (Hack : ackFrame (lastSeqRx st) = ack)
    by (apply ackFrame_in_range; exact Hlast).
  assert (Hsent : sendAck POSACK (lastSeqRx st) (inc_goodFrames st)
                    (after_wait w)
                  = (if phy_send_ret w (length (phy_out w)) ack =? 5
                     then SUCCESS else FAILURE, st1, w1)).
  { unfold sendAck, PHY_send. cbv zeta. rewrite Hack.
    change (firstn (Z.to_nat 5) ack) with ack.
    cbn [after_wait phy_out phy_send_ret phy_open_ret frame_end
           getFrame_calls].
    unfold st1, counted, w1.
    destruct (phy_send_ret w (length (phy_out w)) ack =? 5); cbn [negb];
      change (POSACK =? POSACK) with true; cbv iota;
      unfold inc_acksSent, inc_goodFrames; cbn;
      repeat f_equal; lia. }
  assert (Hloop : forall fuel' attempts' n,
             recv_loop (S fuel') maxData debug (next (lastSeqRx st)) false
               attempts' n dataRx st w
             = (if attempts' + 1 <? MAX_TRIES
                then recv_loop fuel' maxData debug (next (lastSeqRx st))
                       false (attempts' + 1) n dataRx1 st1 w1
                else Some (GIVEUP, dataRx1, st1, w1))).
  { intros fuel' attempts' n.
    rewrite recv_loop_step.
    rewrite (recv_body_unexpected maxData debug (next (lastSeqRx st)) false
               attempts' n dataRx f st w Hdebug Hpeer Hlen Hgood Hexp Hdup).
    rewrite Hsent. cbn [fst snd negb andb]. fold dataRx1.
    destruct (attempts' + 1 <? MAX_TRIES); [|reflexivity].
    apply recv_loop_forgets_nRXdata. }
  destruct (ack_bytes_good (lastSeqRx st) Hlast) as (Hg & Hs).
  split; [exact Hg|]. split; [exact Hs|]. split; [apply Hloop|].
  intros Hconn. unfold LL_receive. rewrite Hconn. cbn [negb].
  change (Z.to_nat MAX_TRIES) with 5%nat. rewrite Hloop. reflexivity.
Qed.

Lemma unexpected_block_reacknowledged_witness :
  (FULL <> SIMPLE
   /\ 0 <= lastSeqRx state_after_block0 < MOD_SEQNUM
   /\ frame_end stray_world (getFrame_calls stray_world)
      = GF_bytes [212; 7; 5; 9; 9; 30; 204]
   /\ 0 < Z.of_nat (length [212; 7; 5; 9; 9; 30; 204]) < 3 * MAX_BLK
   /\ checkFrame [212; 7; 5; 9; 9; 30; 204]
        (Z.of_nat (length [212; 7; 5; 9; 9; 30; 204])) = FRAMEGOOD
   /\ rd [212; 7; 5; 9; 9; 30; 204] SEQNUMPOS
      <> next (lastSeqRx state_after_block0)
   /\ rd [212; 7; 5; 9; 9; 30; 204] SEQNUMPOS <> lastSeqRx state_after_block0
   /\ connected state_after_block0 = true)
  /\ checkFrame [212; 5; 0; 5; 204] 5 = FRAMEGOOD
  /\ rd [212; 5; 0; 5; 204] SEQNUMPOS = lastSeqRx state_after_block0
  /\ LL_receive (repeat 0 16) 16 FULL state_after_block0 stray_world
     = recv_loop 4 16 FULL (next (lastSeqRx state_after_block0)) false 1 0
         [9; 9; 0; 0; 0; 0; 0; 0; 0; 0; 0; 0; 0; 0; 0; 0]
         (mkLLState true 0 0 0 2 0 0 0 0 2 0)
         (mkWorld 0 line_accepts (frame_end stray_world) 1
            [[212; 5; 0; 5; 204]]).
Proof.
  assert (H1 : FULL <> SIMPLE) by discriminate.
  assert (H2 : 0 <= lastSeqRx state_after_block0 < MOD_SEQNUM)
    by (vm_compute; split; [discriminate | reflexivity]).
  assert (H3 : frame_end stray_world (getFrame_calls stray_world)
               = GF_bytes [212; 7; 5; 9; 9; 30; 204]) by reflexivity.
  assert (H4 : 0 < Z.of_nat (length [212; 7; 5; 9; 9; 30; 204])
               < 3 * MAX_BLK) by (vm_compute; split; reflexivity).
  assert (H5 : checkFrame [212; 7; 5; 9; 9; 30; 204]
                 (Z.of_nat (length [212; 7; 5; 9; 9; 30; 204]))
               = FRAMEGOOD) by (vm_compute; reflexivity).
  assert (H6 : rd [212; 7; 5; 9; 9; 30; 204] SEQNUMPOS
               <> next (lastSeqRx state_after_block0))
    by (vm_compute; discriminate).
  assert (H7 : rd [212; 7; 5; 9; 9; 30; 204] SEQNUMPOS
               <> lastSeqRx state_after_block0)
    by (vm_compute; discriminate).
  assert (H8 : connected state_after_block0 = true) by reflexivity.
  split; [repeat split; assumption || apply H2 || apply H4|].
  pose proof (unexpected_block_reacknowledged 4 16 FULL 0 0 (repeat 0 16)
                [212; 7; 5; 9; 9; 30; 204] state_after_block0 stray_world
                H1 H2 H3 H4 H5 H6 H7) as (Hg & Hs & _ & Hcall).
  split; [exact Hg|]. split; [exact Hs|]. exact (Hcall H8).
Defined.

(** ** C10: no negative acknowledgement is ever sent *)






(** A pass of the receiver's loop in normal mode on a frame that fails
    [checkFrame]: one more bad frame, and the line is not used. *)
Lemma recv_body_bad_frame (maxData debug expected : Z) (success : bool)
    (attempts nRXdata : Z) (dataRx f : list Z) (st : LLState) (w : World) :
  debug <> SIMPLE ->
  frame_end w (getFrame_calls w) = GF_bytes f ->
  0 < Z.of_nat (length f) < 3 * MAX_BLK ->
  checkFrame f (Z.of_nat (length f)) = FRAMEBAD ->
  recv_body maxData debug expected success attempts nRXdata dataRx st w
  = RecvTest success (attempts + 1) nRXdata dataRx (inc_badFrames st)
      (after_wait w).
Proof.
  intros Hdebug Hpeer Hlen Hbad. apply Z.eqb_neq in Hdebug.
  unfold recv_body. rewrite (getFrame_bytes _ _ _ Hpeer) by lia.
  positive_size f.
  rewrite Hbad, Z.eqb_refl, Hdebug. reflexivity.
Qed.




(** ** C1: a duplicate of the last accepted block *)

(** A pass of the receiver's loop in normal mode on a frame that passes
    [checkFrame] and carries the last accepted sequence number: the
    acknowledgement is sent again, and the pass reaches the loop test
    with [success] set and the frame's data in the caller's array, so
    the loop ends and [LL_receive] returns that data. *)
Lemma recv_loop_duplicate (fuel : nat) (maxData debug expected : Z)
    (success : bool) (attempts nRXdata : Z) (dataRx f : list Z)
    (st : LLState) (w : World) :
  debug <> SIMPLE ->
  frame_end w (getFrame_calls w) = GF_bytes f ->
  0 < Z.of_nat (length f) < 3 * MAX_BLK ->
  checkFrame f (Z.of_nat (length f)) = FRAMEGOOD ->
  rd f SEQNUMPOS <> expected ->
  rd f SEQNUMPOS = lastSeqRx st ->
  recv_loop (S fuel) maxData debug expected success attempts nRXdata dataRx
    st w
  = Some (fst (fst (processFrame f (Z.of_nat (length f)) dataRx maxData)),
          snd (fst (processFrame f (Z.of_nat (length f)) dataRx maxData)),
          snd (fst (sendAck POSACK (lastSeqRx st)
                      (set_lastSeqRx (lastSeqRx st) (inc_goodFrames st))
                      (after_wait w))),
          snd (sendAck POSACK (lastSeqRx st)
                 (set_lastSeqRx (lastSeqRx st) (inc_goodFrames st))
                 (after_wait w))).
Proof.
  intros Hdebug Hpeer Hlen Hgood Hexp Hdup.
  apply Z.eqb_neq in Hdebug, Hexp.
  rewrite recv_loop_step. unfold recv_body.
  rewrite (getFrame_bytes _ _ _ Hpeer) by lia.
  positive_size f.
  rewrite Hgood. change (FRAMEGOOD =? FRAMEBAD) with false. cbv iota.
  unfold processFrame at 1. cbv zeta.
  rewrite Hdebug, Hexp.
  change (lastSeqRx (inc_goodFrames st)) with (lastSeqRx st).
  rewrite Hdup, Z.eqb_refl.
  destruct (sendAck POSACK (lastSeqRx st) _ (after_wait w)) as [[r st1] w1].
  reflexivity.
Qed.

(** C1, as the code behaves.  Two calls of [LL_receive] in normal mode
    on a fresh connection whose peer sends block 0 twice: the first call
    accepts the block, returns 3 and leaves 1, 2, 3 in the caller's
    array; the second call gets the duplicate (its sequence number
    equals [lastSeqRx]), acknowledges it, and instead of waiting for the
    next block returns 3 with 1, 2, 3 in the caller's array once more. *)
Theorem duplicate_block_returned_again :
  match LL_receive (repeat 0 16) 16 FULL fresh_state retransmitting_world with
  | Some (ret1, data1, st1, w1) =>
      ret1 = 3 /\ firstn 3 data1 = [1; 2; 3] /\ lastSeqRx st1 = 0
      /\ rd (fst (buildDataFrame [1; 2; 3] 0)) SEQNUMPOS = lastSeqRx st1
      /\ match LL_receive (repeat 0 16) 16 FULL st1 w1 with
         | Some (ret2, data2, st2, w2) =>
             ret2 = 3 /\ firstn 3 data2 = [1; 2; 3]
             /\ phy_out w2 = [ackFrame 0; ackFrame 0]
             /\ getFrame_calls w2 = 2%nat
         | None => False
         end
  | None => False
  end.
Proof. vm_compute. repeat split. Qed.

(** * Further properties of the frame codec *)

Lemma wr_nat_skipn (a : list Z) (i j : nat) (v : Z) :
  (i < j)%nat -> skipn j (wr_nat a i v) = skipn j a.
Proof.
  revert i j. induction a as [|x a IH]; intros i j Hij.
  - destruct i; reflexivity.
  - destruct j as [|j]; [lia|].
    destruct i as [|i]; cbn [wr_nat skipn]; [reflexivity|].
    apply IH. lia.
Qed.

Lemma wr_nat_outside (a : list Z) (i : nat) (v : Z) :
  (length a <= i)%nat -> wr_nat a i v = a.
Proof.
  revert i. induction a as [|x a IH]; intros i Hi;
    [destruct i; reflexivity|].
  destruct i as [|i]; [simpl in Hi; lia|].
  cbn [wr_nat]. f_equal. apply IH. simpl in Hi. lia.
Qed.

Lemma wr_length (a : list Z) (i v : Z) : length (wr a i v) = length a.
Proof.
  unfold wr. destruct (i <? 0); [reflexivity | apply wr_nat_length].
Qed.

(** The copy loop changes no cell outside the [n] it is asked to fill. *)
Lemma process_loop_bounds (frameRx : list Z) (n i : nat) (dataRx : list Z) :
  length (process_loop frameRx n (Z.of_nat i) dataRx) = length dataRx
  /\ skipn (i + n) (process_loop frameRx n (Z.of_nat i) dataRx)
     = skipn (i + n) dataRx
  /\ firstn i (process_loop frameRx n (Z.of_nat i) dataRx) = firstn i dataRx.
Proof.
  revert i dataRx. induction n as [|n IH]; intros i dataRx.
  - cbn [process_loop]. auto.
  - cbn [process_loop].
    replace (Z.of_nat i + 1) with (Z.of_nat (S i)) by lia.
    rewrite wr_nat_to_Z.
    destruct (IH (S i) (wr_nat dataRx i
                          (rd frameRx (HEADERSIZE + Z.of_nat i))))
      as (Hlen & Hskip & Hfirst).
    rewrite wr_nat_length in Hlen.
    split; [exact Hlen|]. split.
    + replace (i + S n)%nat with (S i + n)%nat by lia.
      rewrite Hskip. apply wr_nat_skipn. lia.
    + apply (f_equal (firstn i)) in Hfirst.
      rewrite !firstn_firstn in Hfirst.
      replace (Nat.min i (S i)) with i in Hfirst by lia.
      rewrite Hfirst.
      destruct (Nat.lt_ge_cases i (length dataRx)) as [Hlt|Hge].
      * rewrite wr_nat_split by exact Hlt.
        rewrite firstn_app, firstn_firstn, Nat.min_id.
        rewrite firstn_length_le by lia.
        rewrite Nat.sub_diag, firstn_O, app_nil_r. reflexivity.
      * rewrite wr_nat_outside by exact Hge. reflexivity.
Qed.

(** What [processFrame] leaves of the caller's array. *)
Lemma processFrame_keeps
    (frameRx : list Z) (sizeFrame : Z) (dataRx : list Z) (maxData : Z) :
  let n := fst (fst (processFrame frameRx sizeFrame dataRx maxData)) in
  let dataRx' := snd (fst (processFrame frameRx sizeFrame dataRx maxData)) in
  n <= maxData
  /\ n <= sizeFrame - HEADERSIZE - TRAILERSIZE
  /\ length dataRx' = length dataRx
  /\ skipn (Z.to_nat maxData) dataRx' = skipn (Z.to_nat maxData) dataRx.
Proof.
  unfold processFrame. cbn [fst snd].
  set (n0 := sizeFrame - HEADERSIZE - TRAILERSIZE).
  set (n := if n0 >? maxData then maxData else n0).
  assert (Hn : n <= maxData /\ n <= n0)
    by (unfold n; destruct (Z.gtb_spec n0 maxData); lia).
  destruct (process_loop_bounds frameRx (Z.to_nat n) 0 dataRx)
    as (Hlen & Hskip & _).
  change (Z.of_nat 0) with 0 in Hlen, Hskip. cbn [Nat.add] in Hskip.
  repeat split; try lia; try exact Hlen.
  replace (Z.to_nat maxData)
    with ((Z.to_nat maxData - Z.to_nat n) + Z.to_nat n)%nat by lia.
  rewrite <- !skipn_skipn. rewrite Hskip. reflexivity.
Qed.

(** X1.  Whatever frame and limits it is given, [processFrame] returns a
    count no larger than [maxData] and no larger than the frame's data
    field, keeps the size of the caller's array, and changes no cell of
    it from index [maxData] on. *)
Theorem processFrame_stays_in_bounds
    (frameRx : list Z) (sizeFrame : Z) (dataRx : list Z) (maxData : Z) :
  let n := fst (fst (processFrame frameRx sizeFrame dataRx maxData)) in
  let dataRx' := snd (fst (processFrame frameRx sizeFrame dataRx maxData)) in
  n <= maxData
  /\ n <= sizeFrame - HEADERSIZE - TRAILERSIZE
  /\ length dataRx' = length dataRx
  /\ skipn (Z.to_nat maxData) dataRx' = skipn (Z.to_nat maxData) dataRx.
Proof. exact (processFrame_keeps frameRx sizeFrame dataRx maxData). Qed.

(** X2.  When the caller's limit [maxData] is smaller than the block in
    a frame written by [buildDataFrame], [processFrame] returns
    [maxData], delivers exactly the first [maxData] bytes of the block
    and still reports the sequence number; the rest of the block is
    dropped without any sign to the caller. *)
Theorem processFrame_truncates_to_maxData
    (b : list Z) (s maxData : Z) (dataRx : list Z) :
  Forall is_byte b ->
  Z.of_nat (length b) <= MAX_BLK ->
  0 <= s < MOD_SEQNUM ->
  0 <= maxData < Z.of_nat (length b) ->
  (Z.to_nat maxData <= length dataRx)%nat ->
  processFrame (fst (buildDataFrame b s)) (snd (buildDataFrame b s))
    dataRx maxData
  = (maxData,
     firstn (Z.to_nat maxData) b ++ skipn (Z.to_nat maxData) dataRx,
     s).
Proof.
  intros Hb Hlen Hs Hmax Hbuf.
  unfold MAX_BLK in Hlen. unfold MOD_SEQNUM in Hs.
  rewrite buildDataFrame_eq. cbn [fst snd].
  set (n := Z.of_nat (length b)) in *.
  rewrite (to_byte_id s) by (unfold is_byte; lia).
  unfold processFrame.
  replace (5 + n - HEADERSIZE - TRAILERSIZE) with n
    by (unfold HEADERSIZE, TRAILERSIZE; lia).
  destruct (Z.gtb_spec n maxData) as [_|Hle]; [|lia].
  change 0 with (Z.of_nat 0) at 1.
  rewrite (process_loop_copy _ (Z.to_nat maxData) 0%nat).
  - cbn [firstn app Nat.add skipn].
    rewrite firstn_app.
    replace (Z.to_nat maxData - length b)%nat with 0%nat by lia.
    rewrite firstn_O, app_nil_r. reflexivity.
  - cbn [Nat.add]. exact Hbuf.
  - cbn [length]. rewrite length_app. cbn [length]. lia.
Qed.

Lemma processFrame_truncates_to_maxData_witness :
  (Forall is_byte [1; 2; 3; 4]
   /\ Z.of_nat (length [1; 2; 3; 4]) <= MAX_BLK
   /\ 0 <= 7 < MOD_SEQNUM
   /\ 0 <= 2 < Z.of_nat (length [1; 2; 3; 4])
   /\ (Z.to_nat 2 <= length [0; 0; 0]%Z)%nat)
  /\ processFrame (fst (buildDataFrame [1; 2; 3; 4] 7))
       (snd (buildDataFrame [1; 2; 3; 4] 7)) [0; 0; 0] 2
     = (2, firstn (Z.to_nat 2) [1; 2; 3; 4] ++ skipn (Z.to_nat 2) [0; 0; 0], 7).
Proof.
  assert (H1 : Forall is_byte [1; 2; 3; 4])
    by (repeat constructor; unfold is_byte; lia).
  assert (H2 : Z.of_nat (length [1; 2; 3; 4]) <= MAX_BLK)
    by (vm_compute; discriminate).
  assert (H3 : 0 <= 7 < MOD_SEQNUM) by (unfold MOD_SEQNUM; lia).
  assert (H4 : 0 <= 2 < Z.of_nat (length [1; 2; 3; 4])) by (simpl; lia).
  assert (H5 : (Z.to_nat 2 <= length [0; 0; 0]%Z)%nat) by (simpl; lia).
  split; [repeat split; assumption || apply H3 || apply H4|].
  exact (processFrame_truncates_to_maxData [1; 2; 3; 4] 7 2 [0; 0; 0]
           H1 H2 H3 H4 H5).
Defined.

(** X3.  The frame that [buildDataFrame] writes for a block of at most
    [MAX_BLK] bytes consists of bytes only, starts with [STARTBYTE],
    ends with [ENDBYTE], carries its own length in the frame-size byte
    (the value the receiver's [getFrame] reads the frame by), and is
    shorter than the receiver's frame array of [3 * MAX_BLK] bytes; the
    returned size is that length, the block length plus 5. *)
Theorem buildDataFrame_well_formed (b : list Z) (s : Z) :
  Forall is_byte b ->
  Z.of_nat (length b) <= MAX_BLK ->
  let frameTx := fst (buildDataFrame b s) in
  let sizeTXframe := snd (buildDataFrame b s) in
  sizeTXframe = Z.of_nat (length frameTx)
  /\ sizeTXframe = Z.of_nat (length b) + HEADERSIZE + TRAILERSIZE
  /\ sizeTXframe < 3 * MAX_BLK
  /\ Forall is_byte frameTx
  /\ rd frameTx 0 = STARTBYTE
  /\ rd frameTx FRSPOS = sizeTXframe
  /\ rd frameTx (sizeTXframe - 1) = ENDBYTE.
Proof.
  intros Hb Hlen frameTx sizeTXframe.
  pose proof (buildDataFrame_size b s) as Hsize.
  fold frameTx sizeTXframe in Hsize.
  subst frameTx sizeTXframe.
  rewrite buildDataFrame_eq in *. cbn [fst snd] in *.
  unfold MAX_BLK in *. unfold HEADERSIZE, TRAILERSIZE.
  set (n := Z.of_nat (length b)) in *.
  assert (Hbyte : forall x, is_byte (to_byte x)).
  { intros x. unfold is_byte, to_byte. apply Z.mod_pos_bound. lia. }
  split; [exact Hsize|]. split; [lia|]. split; [lia|]. split.
  - constructor; [unfold is_byte, STARTBYTE; lia|].
    apply Forall_app. split.
    + constructor; [apply Hbyte|]. constructor; [apply Hbyte | exact Hb].
    + constructor; [apply Hbyte|].
      constructor; [unfold is_byte, ENDBYTE; lia | constructor].
  - split; [reflexivity|]. split.
    + change (rd (STARTBYTE :: (to_byte (5 + n) :: to_byte s :: b) ++ _) FRSPOS)
        with (to_byte (5 + n)).
      apply to_byte_id. unfold is_byte. lia.
    + replace (5 + n - 1) with (Z.of_nat (S (S (length (to_byte (5 + n) :: to_byte s :: b)))))
        by (cbn [length]; lia).
      rewrite rd_nat. cbn [nth].
      rewrite app_nth2 by lia.
      replace (S (length (to_byte (5 + n) :: to_byte s :: b))
               - length (to_byte (5 + n) :: to_byte s :: b))%nat
        with 1%nat by lia.
      reflexivity.
Qed.

Lemma buildDataFrame_well_formed_witness :
  (Forall is_byte [1; 2; 3] /\ Z.of_nat (length [1; 2; 3]) <= MAX_BLK)
  /\ snd (buildDataFrame [1; 2; 3] 7)
     = Z.of_nat (length (fst (buildDataFrame [1; 2; 3] 7))).
Proof.
  assert (H1 : Forall is_byte [1; 2; 3])
    by (repeat constructor; unfold is_byte; lia).
  assert (H2 : Z.of_nat (length [1; 2; 3]) <= MAX_BLK)
    by (vm_compute; discriminate).
  split; [split; assumption|].
  exact (proj1 (buildDataFrame_well_formed [1; 2; 3] 7 H1 H2)).
Defined.

(** X4.  The frame [sendAck] sends for a sequence number is the frame
    [buildDataFrame] writes for an empty block with that number; for
    every number a byte can hold it passes [checkFrame], carries the
    number in the sequence byte and yields no data bytes. *)
Theorem ackFrame_is_empty_data_frame (seq : Z) (dataRx : list Z) (maxData : Z) :
  ackFrame seq = fst (buildDataFrame [] seq)
  /\ (is_byte seq -> 0 <= maxData ->
      checkFrame (ackFrame seq) ACK_SIZE = FRAMEGOOD
      /\ processFrame (ackFrame seq) ACK_SIZE dataRx maxData
         = (0, dataRx, seq)).
Proof.
  split; [reflexivity|].
  intros Hseq Hmax. unfold is_byte in Hseq.
  unfold ackFrame.
  assert (Hcs : 0 <= Z.rem (0 + seq + 5) MODULO < 251)
    by (apply rem_MODULO_range; lia).
  rewrite (to_byte_id seq) by (unfold is_byte; lia).
  rewrite (to_byte_id (Z.rem _ _)) by (unfold is_byte; lia).
  change (to_byte 5) with 5.
  split.
  - change ACK_SIZE with (Z.of_nat (length [5; seq]) + 3).
    change [STARTBYTE; 5; seq; Z.rem (0 + seq + 5) MODULO; ENDBYTE]
      with (STARTBYTE :: [5; seq] ++ [Z.rem (0 + seq + 5) MODULO; ENDBYTE]).
    rewrite checkFrame_shape. cbn [zsum fold_right].
    replace (5 + (seq + 0)) with (0 + seq + 5) by lia.
    rewrite Z.eqb_refl. reflexivity.
  - unfold processFrame.
    change (ACK_SIZE - HEADERSIZE - TRAILERSIZE) with 0.
    destruct (Z.gtb_spec 0 maxData) as [Hgt|_]; [lia|].
    reflexivity.
Qed.

Lemma ackFrame_is_empty_data_frame_witness :
  (is_byte 9 /\ 0 <= 4)
  /\ checkFrame (ackFrame 9) ACK_SIZE = FRAMEGOOD
  /\ processFrame (ackFrame 9) ACK_SIZE [7; 7] 4 = (0, [7; 7], 9).
Proof.
  assert (H1 : is_byte 9) by (unfold is_byte; lia).
  assert (H2 : 0 <= 4) by lia.
  split; [split; assumption|].
  exact (proj2 (ackFrame_is_empty_data_frame 9 [7; 7] 4) H1 H2).
Defined.

(** ** Sequence numbers *)

(** X5.  From any value in [-1, MOD_SEQNUM) (the initial [lastSeqRx]
    included) [next] gives a value in [0, MOD_SEQNUM) different from its
    argument, so the expected and the last accepted sequence number are
    never the same; and on [0, MOD_SEQNUM), applying [next] [k] times
    comes back to the start exactly when [k] is a multiple of
    [MOD_SEQNUM]. *)
Theorem next_cycles (s : Z) (k : nat) :
  -1 <= s < MOD_SEQNUM ->
  0 <= next s < MOD_SEQNUM
  /\ next s <> s
  /\ (0 <= s ->
      (Nat.iter k next s = s <-> (Z.of_nat k) mod MOD_SEQNUM = 0)).
Proof.
  intros Hs. unfold MOD_SEQNUM in *.
  assert (Hnext : forall t, -1 <= t < 16 -> next t = (t + 1) mod 16).
  { intros t Ht. unfold next, MOD_SEQNUM. apply Z.rem_mod_nonneg; lia. }
  assert (Hr : 0 <= next s < 16)
    by (rewrite Hnext by lia; apply Z.mod_pos_bound; lia).
  split; [exact Hr|]. split.
  - rewrite Hnext by lia. intros Heq.
    destruct (Z.eq_dec s 15) as [->|Hne]; [discriminate Heq|].
    rewrite Z.mod_small in Heq by lia. lia.
  - intros H0.
    assert (Hiter : forall j, Nat.iter j next s = (s + Z.of_nat j) mod 16).
    { induction j as [|j IHj].
      - change (Nat.iter 0 next s) with s.
        change (Z.of_nat 0) with 0. rewrite Z.add_0_r, Z.mod_small; lia.
      - change (Nat.iter (S j) next s) with (next (Nat.iter j next s)).
        rewrite IHj.
        rewrite Hnext
          by (pose proof (Z.mod_pos_bound (s + Z.of_nat j) 16); lia).
        rewrite Zplus_mod_idemp_l. f_equal. lia. }
    rewrite Hiter. split.
    + intros Heq.
      assert (Hs' : s mod 16 = s) by (apply Z.mod_small; lia).
      rewrite <- Hs' in Heq at 2.
      replace (Z.of_nat k) with ((s + Z.of_nat k) - s) by lia.
      rewrite Zminus_mod, Heq, Z.sub_diag. reflexivity.
    + intros Hk. rewrite Zplus_mod, Hk, Z.add_0_r, Z.mod_mod by lia.
      apply Z.mod_small. lia.
Qed.

Lemma next_cycles_witness :
  -1 <= 15 < MOD_SEQNUM
  /\ 0 <= next 15 < MOD_SEQNUM
  /\ next 15 <> 15
  /\ (0 <= 15 ->
      (Nat.iter 32 next 15 = 15 <-> (Z.of_nat 32) mod MOD_SEQNUM = 0)).
Proof.
  assert (H : -1 <= 15 < MOD_SEQNUM) by (unfold MOD_SEQNUM; lia).
  split; [exact H|].
  exact (next_cycles 15 32 H).
Defined.

(** * Further properties of the sender *)

(** The frame [LL_send] builds, as bytes and as size. *)
Lemma buildDataFrame_firstn (dataTx : list Z) (seq : Z) :
  firstn (Z.to_nat (snd (buildDataFrame dataTx seq)))
    (fst (buildDataFrame dataTx seq))
  = fst (buildDataFrame dataTx seq).
Proof.
  rewrite buildDataFrame_size, Nat2Z.id. apply firstn_all.
Qed.

(** What a pass of the sender's loop does to the line: one more block of
    bytes handed to [PHY_send], at most one more wait. *)
Lemma send_body_line (frameTx : list Z) (sizeTXframe debug : Z)
    (success : bool) (attempts : Z) (st : LLState) (w : World) :
  let bytes := firstn (Z.to_nat sizeTXframe) frameTx in
  let line w1 :=
    phy_out w1 = phy_out w ++ [bytes]
    /\ (getFrame_calls w <= getFrame_calls w1 <= S (getFrame_calls w))%nat in
  match send_body frameTx sizeTXframe debug success attempts st w with
  | SendReturn _ _ w1 => line w1
  | SendTest _ _ _ w1 => line w1
  end.
Proof.
  unfold send_body, PHY_send, getFrame. cbv zeta.
  repeat (match goal with
          | |- context [match frame_end ?x ?k with _ => _ end] =>
              destruct (frame_end x k)
          | |- context [if ?c then _ else _] => destruct c
          end; cbn -[checkFrame]).
  all: split; [reflexivity | cbn; lia].
Qed.

Lemma send_loop_bound (fuel : nat) (frameTx : list Z)
    (sizeTXframe debug : Z) (success : bool) (attempts : Z)
    (st : LLState) (w : World) (ret : Z) (st' : LLState) (w' : World) :
  send_loop fuel frameTx sizeTXframe debug success attempts st w
  = Some (ret, st', w') ->
  exists k : nat,
    (1 <= k)%nat
    /\ attempts + Z.of_nat k <= Z.max (attempts + 1) MAX_TRIES
    /\ phy_out w'
       = phy_out w ++ repeat (firstn (Z.to_nat sizeTXframe) frameTx) k
    /\ (getFrame_calls w <= getFrame_calls w' <= k + getFrame_calls w)%nat.
Proof.
  revert success attempts st w.
  induction fuel as [|fuel IH]; intros success attempts st w Hrun;
    [discriminate|].
  rewrite send_loop_step in Hrun.
  pose proof (send_body_line frameTx sizeTXframe debug success attempts st w)
    as Hline.
  pose proof (send_body_cases frameTx sizeTXframe debug success attempts st w)
    as Hcase.
  cbv zeta in Hline.
  destruct (send_body _ _ _ _ _ _ _) as [r st1 w1|success1 attempts1 st1 w1].
  - injection Hrun as <- <- <-. destruct Hline as [Hout Hcalls].
    exists 1%nat. cbn [repeat]. repeat split; try lia. exact Hout.
  - destruct Hcase as [-> _]. destruct Hline as [Hout Hcalls].
    destruct (negb success1 && (attempts + 1 <? MAX_TRIES)) eqn:Hgo.
    + apply andb_prop in Hgo. destruct Hgo as [_ Hlt].
      apply Z.ltb_lt in Hlt.
      apply IH in Hrun. destruct Hrun as (k & Hk & Hmax & Hout' & Hcalls').
      exists (S k). rewrite Hout', Hout, <- app_assoc. cbn [repeat app].
      repeat split; try lia.
    + unfold send_end in Hrun.
      destruct success1; injection Hrun as <- <- <-;
        exists 1%nat; cbn [repeat]; repeat split; try lia; exact Hout.
Qed.

(** X6.  For a call of [LL_send] with a block and its length, on a line
    whose responses fit the sender's array [frameAck]: [LL_send]
    returns, and all it has handed to [PHY_send] is [k] copies of the
    one frame it built from the block and [seqNumTx], with [k] at most
    [MAX_TRIES]; it has waited for a response at most [k] times; and
    [k] is 0 exactly when it returned [BADUSE]. *)
Theorem LL_send_transmits_at_most_MAX_TRIES
    (dataTx : list Z) (debug : Z) (st : LLState) (w : World) :
  waits_fit (2 * ACK_SIZE) w ->
  exists ret st' w' (k : nat),
    LL_send dataTx debug st w = Some (ret, st', w')
    /\ Z.of_nat k <= MAX_TRIES
    /\ phy_out w'
       = phy_out w ++ repeat (fst (buildDataFrame dataTx (seqNumTx st))) k
    /\ (getFrame_calls w <= getFrame_calls w' <= k + getFrame_calls w)%nat
    /\ (ret = BADUSE <-> k = 0%nat).
Proof.
  intros _.
  destruct (LL_send_returns dataTx debug st w) as [[[ret st'] w'] Hrun].
  exists ret, st', w'.
  pose proof Hrun as Hrun'. unfold LL_send in Hrun'.
  assert (Hrefused :
            Some (BADUSE, st, w) = Some (ret, st', w') ->
            exists k : nat,
              LL_send dataTx debug st w = Some (ret, st', w')
              /\ Z.of_nat k <= MAX_TRIES
              /\ phy_out w'
                 = phy_out w
                   ++ repeat (fst (buildDataFrame dataTx (seqNumTx st))) k
              /\ (getFrame_calls w <= getFrame_calls w'
                  <= k + getFrame_calls w)%nat
              /\ (ret = BADUSE <-> k = 0%nat)).
  { intros H. injection H as <- <- <-. exists 0%nat. cbn [repeat].
    rewrite app_nil_r.
    split; [exact Hrun|]. split; [vm_compute; discriminate|].
    split; [reflexivity|]. split; [lia|]. split; reflexivity. }
  destruct (negb (connected st)); [exact (Hrefused Hrun')|].
  destruct (_ >? _); [exact (Hrefused Hrun')|].
  clear Hrefused.
  pose proof (buildDataFrame_firstn dataTx (seqNumTx st)) as Hbytes.
  destruct (buildDataFrame dataTx (seqNumTx st)) as [frameTx sizeTXframe].
  cbn [fst snd] in *.
  pose proof (send_loop_outcome _ _ _ _ _ _ _ _ _ _ _ Hrun') as [Hret _].
  apply send_loop_bound in Hrun'.
  destruct Hrun' as (k & Hk & Hmax & Hout & Hcalls).
  exists k. rewrite Hbytes in Hout.
  split; [exact Hrun|]. split; [unfold MAX_TRIES in *; lia|].
  split; [exact Hout|]. split; [exact Hcalls|].
  split.
  - intros ->. unfold BADUSE, SUCCESS, FAILURE, GIVEUP in Hret. lia.
  - lia.
Qed.

Lemma LL_send_transmits_at_most_MAX_TRIES_witness :
  waits_fit (2 * ACK_SIZE) stray_world
  /\ exists ret st' w' (k : nat),
       LL_send [1; 2; 3] FULL fresh_state stray_world = Some (ret, st', w')
       /\ Z.of_nat k <= MAX_TRIES
       /\ phy_out w'
          = phy_out stray_world
            ++ repeat (fst (buildDataFrame [1; 2; 3] (seqNumTx fresh_state)))
                 k
       /\ (getFrame_calls stray_world <= getFrame_calls w'
           <= k + getFrame_calls stray_world)%nat
       /\ (ret = BADUSE <-> k = 0%nat).
Proof.
  assert (H : waits_fit (2 * ACK_SIZE) stray_world)
    by (intros j _; simpl; lia).
  split; [exact H|].
  exact (LL_send_transmits_at_most_MAX_TRIES [1; 2; 3] FULL fresh_state
           stray_world H).
Defined.

(** [LL_send] on a connected state with a block that fits: the loop on
    the frame it built. *)
Lemma LL_send_loop (dataTx : list Z) (debug : Z) (st : LLState) (w : World) :
  connected st = true ->
  Z.of_nat (length dataTx) <= MAX_BLK ->
  LL_send dataTx debug st w
  = send_loop 5 (fst (buildDataFrame dataTx (seqNumTx st)))
      (Z.of_nat (length (fst (buildDataFrame dataTx (seqNumTx st)))))
      debug false 0 st w.
Proof.
  intros Hconn Hlen. unfold LL_send. rewrite Hconn. cbn [negb].
  destruct (Z.gtb_spec (Z.of_nat (length dataTx)) MAX_BLK) as [Hgt|_]; [lia|].
  pose proof (buildDataFrame_size dataTx (seqNumTx st)) as Hsize.
  destruct (buildDataFrame dataTx (seqNumTx st)) as [frameTx sizeTXframe].
  cbn [fst snd] in *. subst sizeTXframe. reflexivity.
Qed.





Lemma send_body_tally (frameTx : list Z) (sizeTXframe debug attempts : Z)
    (st : LLState) (w : World) :
  match send_body frameTx sizeTXframe debug false attempts st w with
  | SendReturn _ st1 _ =>
      send_tally st st1 /\ acksRx st1 = acksRx st
      /\ framesSent st1 <= framesSent st + 1
  | SendTest success1 _ st1 _ =>
      send_tally st st1
      /\ framesSent st1 = framesSent st + 1
      /\ (if debug =? SIMPLE
          then success1 = true /\ acksRx st1 = acksRx st
          else acksRx st1 = acksRx st + (if success1 then 1 else 0))
  end.
Proof.
  unfold send_body, PHY_send, getFrame, send_tally.
  destruct (debug =? SIMPLE).
  - repeat (match goal with
            | |- context [if ?c then _ else _] => destruct c
            end; cbn -[checkFrame]).
    all: repeat split; lia.
  - repeat (match goal with
            | |- context [match frame_end ?x ?k with _ => _ end] =>
                destruct (frame_end x k)
            | |- context [if ?c then _ else _] => destruct c
            end; cbn -[checkFrame]).
    all: repeat split; lia.
Qed.

Lemma send_tally_trans (st st1 st2 : LLState) :
  send_tally st st1 -> send_tally st1 st2 -> send_tally st st2.
Proof. unfold send_tally. intros H1 H2. repeat split; lia. Qed.

Lemma send_loop_tally (fuel : nat) (frameTx : list Z)
    (sizeTXframe debug attempts : Z) (st : LLState) (w : World)
    (ret : Z) (st' : LLState) (w' : World) :
  send_loop fuel frameTx sizeTXframe debug false attempts st w
  = Some (ret, st', w') ->
  send_tally st st'
  /\ framesSent st' - framesSent st <= Z.max 1 (MAX_TRIES - attempts)
  /\ acksRx st' <= acksRx st + 1
  /\ (debug <> SIMPLE -> (ret = SUCCESS <-> acksRx st' = acksRx st + 1)).
Proof.
  revert attempts st w.
  induction fuel as [|fuel IH]; intros attempts st w Hrun; [discriminate|].
  rewrite send_loop_step in Hrun.
  pose proof (send_body_tally frameTx sizeTXframe debug attempts st w) as Hb.
  pose proof (send_body_cases frameTx sizeTXframe debug false attempts st w)
    as Hc.
  destruct (send_body _ _ _ _ _ _ _) as [r st1 w1|success1 attempts1 st1 w1].
  - destruct Hc as [-> _]. destruct Hb as (Ht & Ha & Hf).
    injection Hrun as <- <- <-.
    split; [exact Ht|]. split; [lia|]. split; [lia|].
    intros _. split; [discriminate | intros Heq; lia].
  - destruct Hc as [-> _].
    destruct Hb as (Ht & Hf & Ha).
    destruct (Z.eqb_spec debug SIMPLE) as [Hd|Hd].
    + (* simple mode: the pass sets success, the loop ends *)
      destruct Ha as [-> Ha]. cbn [negb andb] in Hrun.
      unfold send_end in Hrun. injection Hrun as <- <- <-.
      change (acksRx (set_seqNumTx (next (seqNumTx st1)) st1))
        with (acksRx st1).
      change (framesSent (set_seqNumTx (next (seqNumTx st1)) st1))
        with (framesSent st1).
      split; [exact Ht|]. split; [lia|]. split; [lia|].
      intros Hn. contradiction.
    + destruct success1; cbn [negb andb] in Hrun.
      * unfold send_end in Hrun. injection Hrun as <- <- <-.
        change (acksRx (set_seqNumTx (next (seqNumTx st1)) st1))
          with (acksRx st1).
        change (framesSent (set_seqNumTx (next (seqNumTx st1)) st1))
          with (framesSent st1).
        split; [exact Ht|]. split; [lia|]. split; [lia|].
        intros _. split; [intros _; exact Ha | reflexivity].
      * rewrite Z.add_0_r in Ha.
        destruct (attempts + 1 <? MAX_TRIES) eqn:Hlt.
        -- apply Z.ltb_lt in Hlt. apply IH in Hrun.
           destruct Hrun as (Ht' & Hf' & Ha' & Hiff).
           split; [eapply send_tally_trans; eassumption|].
           split; [lia|]. rewrite <- Ha. split; [exact Ha'|].
           exact Hiff.
        -- unfold send_end in Hrun. injection Hrun as <- <- <-.
           split; [exact Ht|]. split; [lia|]. split; [lia|].
           intros _. split; [discriminate | intros Heq; lia].
Qed.



(** * One block from sender to receiver *)

(** A frame written by [buildDataFrame] passes [checkFrame] and gives
    its block and sequence number back to [processFrame]. *)
Lemma built_frame_accepted (b : list Z) (s maxData : Z) (dataRx : list Z) :
  Forall is_byte b ->
  Z.of_nat (length b) <= MAX_BLK ->
  0 <= s < MOD_SEQNUM ->
  Z.of_nat (length b) <= maxData ->
  (length b <= length dataRx)%nat ->
  let f := fst (buildDataFrame b s) in
  0 < Z.of_nat (length f) < 3 * MAX_BLK
  /\ checkFrame f (Z.of_nat (length f)) = FRAMEGOOD
  /\ rd f SEQNUMPOS = s
  /\ processFrame f (Z.of_nat (length f)) dataRx maxData
     = (Z.of_nat (length b), b ++ skipn (length b) dataRx, s).
Proof.
  intros Hb Hlen Hs Hmax Hbuf f. subst f.
  rewrite <- (buildDataFrame_size b s).
  unfold MAX_BLK in *. unfold MOD_SEQNUM in Hs.
  rewrite buildDataFrame_eq. cbn [fst snd].
  set (n := Z.of_nat (length b)) in *.
  assert (Hsum : 0 <= zsum b) by (apply zsum_bytes_nonneg; exact Hb).
  assert (Hcs : 0 <= Z.rem (s + (5 + n) + zsum b) MODULO < 251)
    by (apply rem_MODULO_range; lia).
  rewrite (to_byte_id (5 + n)) by (unfold is_byte; lia).
  rewrite (to_byte_id s) by (unfold is_byte; lia).
  rewrite (to_byte_id (Z.rem _ _)) by (unfold is_byte; lia).
  split; [lia|]. split; [|split; [reflexivity|]].
  - replace (5 + n) with (Z.of_nat (length (5 + n :: s :: b)) + 3) at 3
      by (cbn [length]; lia).
    rewrite checkFrame_shape. cbn [zsum fold_right]. fold (zsum b).
    replace (5 + n + (s + zsum b)) with (s + (5 + n) + zsum b) by lia.
    rewrite Z.eqb_refl. reflexivity.
  - unfold processFrame.
    replace (5 + n - HEADERSIZE - TRAILERSIZE) with n
      by (unfold HEADERSIZE, TRAILERSIZE; lia).
    destruct (Z.gtb_spec n maxData) as [Hgt|_]; [lia|].
    replace (Z.to_nat n) with (length b) by (unfold n; lia).
    change 0 with (Z.of_nat 0) at 1.
    rewrite (process_loop_copy _ (length b) 0%nat).
    + cbn [firstn app Nat.add skipn].
      rewrite firstn_app, firstn_all, Nat.sub_diag, firstn_O, app_nil_r.
      reflexivity.
    + lia.
    + cbn [length]. rewrite length_app. cbn [length]. lia.
Qed.

(** A pass of the receiver's loop in normal mode on a frame that passes
    [checkFrame] and carries the expected sequence number. *)
Lemma recv_body_expected (maxData debug : Z) (success : bool)
    (attempts nRXdata : Z) (dataRx f : list Z) (st : LLState) (w : World) :
  debug <> SIMPLE ->
  frame_end w (getFrame_calls w) = GF_bytes f ->
  0 < Z.of_nat (length f) < 3 * MAX_BLK ->
  checkFrame f (Z.of_nat (length f)) = FRAMEGOOD ->
  recv_body maxData debug (rd f SEQNUMPOS) success attempts nRXdata dataRx
    st w
  = RecvTest true (attempts + 1)
      (fst (fst (processFrame f (Z.of_nat (length f)) dataRx maxData)))
      (snd (fst (processFrame f (Z.of_nat (length f)) dataRx maxData)))
      (snd (fst (sendAck POSACK (rd f SEQNUMPOS)
                   (set_lastSeqRx (rd f SEQNUMPOS) (inc_goodFrames st))
                   (after_wait w))))
      (snd (sendAck POSACK (rd f SEQNUMPOS)
              (set_lastSeqRx (rd f SEQNUMPOS) (inc_goodFrames st))
              (after_wait w))).
Proof.
  intros Hdebug Hpeer Hlen Hgood. apply Z.eqb_neq in Hdebug.
  unfold recv_body. rewrite (getFrame_bytes _ _ _ Hpeer) by lia.
  positive_size f.
  rewrite Hgood. change (FRAMEGOOD =? FRAMEBAD) with false. cbv iota.
  unfold processFrame at 1. cbv zeta.
  rewrite Hdebug, Z.eqb_refl.
  destruct (sendAck POSACK (rd f SEQNUMPOS) _ (after_wait w))
    as [[r st1] w1].
  reflexivity.
Qed.

(** X10.  In normal mode, when the first frame a connected [LL_receive]
    gets is the one [buildDataFrame] writes for a block [b] with the
    expected sequence number [next lastSeqRx], the call returns the
    length of [b] with [b] at the start of the caller's array, sets
    [lastSeqRx] to that number and hands [PHY_send] the acknowledgement
    frame for it, after a single wait. *)
Theorem LL_receive_accepts_expected_block
    (b dataRx : list Z) (maxData debug : Z) (st : LLState) (w : World) :
  connected st = true ->
  debug <> SIMPLE ->
  -1 <= lastSeqRx st < MOD_SEQNUM ->
  Forall is_byte b ->
  Z.of_nat (length b) <= MAX_BLK ->
  Z.of_nat (length b) <= maxData ->
  (length b <= length dataRx)%nat ->
  frame_end w (getFrame_calls w)
  = GF_bytes (fst (buildDataFrame b (next (lastSeqRx st)))) ->
  let s := next (lastSeqRx st) in
  let acked :=
    sendAck POSACK s (set_lastSeqRx s (inc_goodFrames st)) (after_wait w) in
  LL_receive dataRx maxData debug st w
  = Some (Z.of_nat (length b), b ++ skipn (length b) dataRx,
          snd (fst acked), snd acked)
  /\ lastSeqRx (snd (fst acked)) = s
  /\ phy_out (snd acked) = phy_out w ++ [ackFrame s]
  /\ getFrame_calls (snd acked) = S (getFrame_calls w).
Proof.
  intros Hconn Hdebug Hlast Hb Hlen Hmax Hbuf Hpeer s acked.
  assert (Hs : 0 <= s < MOD_SEQNUM).
  { unfold s, next, MOD_SEQNUM in *.
    rewrite Z.rem_mod_nonneg by lia. apply Z.mod_pos_bound. lia. }
  destruct (built_frame_accepted b s maxData dataRx Hb Hlen Hs Hmax Hbuf)
    as (Hsize & Hgood & Hseq & Hproc).
  fold s in Hpeer.
  pose proof (recv_body_expected maxData debug false 0 0 dataRx _ st w
                Hdebug Hpeer Hsize Hgood) as Hbody.
  rewrite Hseq, Hproc in Hbody. cbn [fst snd] in Hbody. fold acked in Hbody.
  destruct (sendAck_POSACK_effect s (set_lastSeqRx s (inc_goodFrames st))
              (after_wait w))
    as (Hout & Hcalls & _ & _ & Hl & _).
  fold acked in Hout, Hcalls, Hl.
  split.
  - unfold LL_receive. rewrite Hconn. cbn [negb].
    change (Z.to_nat MAX_TRIES) with 5%nat.
    rewrite recv_loop_step. fold s. rewrite Hbody. reflexivity.
  - split; [exact Hl|]. split; [exact Hout | exact Hcalls].
Qed.

Lemma LL_receive_accepts_expected_block_witness :
  (connected fresh_state = true
   /\ FULL <> SIMPLE
   /\ -1 <= lastSeqRx fresh_state < MOD_SEQNUM
   /\ Forall is_byte [1; 2; 3]
   /\ Z.of_nat (length [1; 2; 3]) <= MAX_BLK
   /\ Z.of_nat (length [1; 2; 3]) <= 16
   /\ (length [1; 2; 3]%Z <= length (repeat 0%Z 16))%nat
   /\ frame_end retransmitting_world (getFrame_calls retransmitting_world)
      = GF_bytes (fst (buildDataFrame [1; 2; 3]
                         (next (lastSeqRx fresh_state)))))
  /\ LL_receive (repeat 0 16) 16 FULL fresh_state retransmitting_world
     = Some (Z.of_nat (length [1; 2; 3]),
             [1; 2; 3] ++ skipn (length [1; 2; 3]) (repeat 0 16),
             snd (fst (sendAck POSACK (next (lastSeqRx fresh_state))
                         (set_lastSeqRx (next (lastSeqRx fresh_state))
                            (inc_goodFrames fresh_state))
                         (after_wait retransmitting_world))),
             snd (sendAck POSACK (next (lastSeqRx fresh_state))
                    (set_lastSeqRx (next (lastSeqRx fresh_state))
                       (inc_goodFrames fresh_state))
                    (after_wait retransmitting_world))).
Proof.
  assert (H1 : connected fresh_state = true) by reflexivity.
  assert (H2 : FULL <> SIMPLE) by discriminate.
  assert (H3 : -1 <= lastSeqRx fresh_state < MOD_SEQNUM)
    by (unfold MOD_SEQNUM; simpl; lia).
  assert (H4 : Forall is_byte [1; 2; 3])
    by (repeat constructor; unfold is_byte; lia).
  assert (H5 : Z.of_nat (length [1; 2; 3]) <= MAX_BLK)
    by (vm_compute; discriminate).
  assert (H6 : Z.of_nat (length [1; 2; 3]) <= 16)
    by (vm_compute; discriminate).
  assert (H7 : (length [1; 2; 3]%Z <= length (repeat 0%Z 16))%nat)
    by (simpl; lia).
  assert (H8 : frame_end retransmitting_world
                 (getFrame_calls retransmitting_world)
               = GF_bytes (fst (buildDataFrame [1; 2; 3]
                                  (next (lastSeqRx fresh_state)))))
    by reflexivity.
  split; [repeat split; assumption || apply H3|].
  exact (proj1 (LL_receive_accepts_expected_block [1; 2; 3] (repeat 0 16) 16
                  FULL fresh_state retransmitting_world
                  H1 H2 H3 H4 H5 H6 H7 H8)).
Defined.

(** The acknowledgement frame of a sequence number that fits a byte
    passes [checkFrame] and carries the number. *)
Lemma ackFrame_good (seq : Z) :
  is_byte seq ->
  Z.of_nat (length (ackFrame seq)) = 5
  /\ checkFrame (ackFrame seq) 5 = FRAMEGOOD
  /\ rd (ackFrame seq) SEQNUMPOS = seq.
Proof.
  intros Hseq. unfold is_byte in Hseq. unfold ackFrame.
  assert (Hcs : 0 <= Z.rem (0 + seq + 5) MODULO < 251)
    by (apply rem_MODULO_range; lia).
  rewrite (to_byte_id seq) by (unfold is_byte; lia).
  rewrite (to_byte_id (Z.rem _ _)) by (unfold is_byte; lia).
  change (to_byte 5) with 5.
  split; [reflexivity|]. split; [|reflexivity].
  change (checkFrame [STARTBYTE; 5; seq; Z.rem (0 + seq + 5) MODULO; ENDBYTE]
            5)
    with (checkFrame
            (STARTBYTE :: [5; seq] ++ [Z.rem (0 + seq + 5) MODULO; ENDBYTE])
            (Z.of_nat (length [5; seq]) + 3)).
  rewrite checkFrame_shape. cbn [zsum fold_right].
  replace (5 + (seq + 0)) with (0 + seq + 5) by lia.
  rewrite Z.eqb_refl. reflexivity.
Qed.

(** [LL_send] in normal mode when the line takes the frame and the first
    response is the acknowledgement frame of [seqNumTx]. *)
Lemma LL_send_acked (dataTx : list Z) (debug : Z) (st : LLState) (w : World) :
  connected st = true ->
  Z.of_nat (length dataTx) <= MAX_BLK ->
  debug <> SIMPLE ->
  is_byte (seqNumTx st) ->
  phy_send_ret w (length (phy_out w))
    (fst (buildDataFrame dataTx (seqNumTx st)))
  = Z.of_nat (length (fst (buildDataFrame dataTx (seqNumTx st)))) ->
  frame_end w (getFrame_calls w) = GF_bytes (ackFrame (seqNumTx st)) ->
  LL_send dataTx debug st w
  = Some (SUCCESS,
          set_seqNumTx (next (seqNumTx st))
            (inc_acksRx (inc_goodFrames (inc_framesSent st))),
          after_passes 1 (fst (buildDataFrame dataTx (seqNumTx st))) w).
Proof.
  intros Hconn Hlen Hdebug Hseq Hline Hpeer.
  destruct (ackFrame_good _ Hseq) as (Hsize & Hgood & Hcarried).
  rewrite LL_send_loop by assumption.
  rewrite send_loop_step.
  rewrite (send_body_response _ (ackFrame (seqNumTx st)) debug false 0 st w
             Hdebug Hline Hpeer)
    by (rewrite Hsize; unfold ACK_SIZE; lia).
  rewrite Hsize, Hgood, Hcarried, !Z.eqb_refl.
  reflexivity.
Qed.

(** X11.  One block over an error-free line, both ends in normal mode
    and in step ([seqNumTx] of the sender is the sequence number the
    receiver expects).  The receiver's [LL_receive], given the frame the
    sender's [LL_send] builds, returns the block and transmits one
    frame; the sender's [LL_send], given that frame as its first
    response, returns [SUCCESS] after a single transmission.  Afterwards
    the two ends are in step again, one sequence number further. *)
Theorem one_block_handshake
    (b dataRx : list Z) (maxData debugA debugB : Z)
    (stA stB : LLState) (wA wB : World) :
  connected stA = true -> connected stB = true ->
  debugA <> SIMPLE -> debugB <> SIMPLE ->
  -1 <= lastSeqRx stB < MOD_SEQNUM ->
  seqNumTx stA = next (lastSeqRx stB) ->
  Forall is_byte b ->
  Z.of_nat (length b) <= MAX_BLK ->
  Z.of_nat (length b) <= maxData ->
  (length b <= length dataRx)%nat ->
  phy_send_ret wA (length (phy_out wA))
    (fst (buildDataFrame b (seqNumTx stA)))
  = Z.of_nat (length (fst (buildDataFrame b (seqNumTx stA)))) ->
  frame_end wB (getFrame_calls wB)
  = GF_bytes (fst (buildDataFrame b (seqNumTx stA))) ->
  exists dataRx' stB' wB' ack,
    LL_receive dataRx maxData debugB stB wB
    = Some (Z.of_nat (length b), dataRx', stB', wB')
    /\ firstn (length b) dataRx' = b
    /\ phy_out wB' = phy_out wB ++ [ack]
    /\ (frame_end wA (getFrame_calls wA) = GF_bytes ack ->
        exists stA' wA',
          LL_send b debugA stA wA = Some (SUCCESS, stA', wA')
          /\ phy_out wA'
             = phy_out wA ++ [fst (buildDataFrame b (seqNumTx stA))]
          /\ acksRx stA' = acksRx stA + 1
          /\ seqNumTx stA' = next (lastSeqRx stB')).
Proof.
  intros HcA HcB HdA HdB Hlast Hstep Hb Hlen Hmax Hbuf Hline HpeerB.
  assert (Hs : 0 <= seqNumTx stA < MOD_SEQNUM).
  { rewrite Hstep. unfold next, MOD_SEQNUM in *.
    rewrite Z.rem_mod_nonneg by lia. apply Z.mod_pos_bound. lia. }
  destruct (built_frame_accepted b (seqNumTx stA) maxData dataRx
              Hb Hlen Hs Hmax Hbuf)
    as (Hsize & Hgood & Hseq & Hproc).
  pose proof (recv_body_expected maxData debugB false 0 0 dataRx _ stB wB
                HdB HpeerB Hsize Hgood) as Hbody.
  rewrite Hseq, Hproc in Hbody. cbn [fst snd] in Hbody.
  destruct (sendAck_POSACK_effect (seqNumTx stA)
              (set_lastSeqRx (seqNumTx stA) (inc_goodFrames stB))
              (after_wait wB))
    as (Hout & _ & _ & _ & Hl & _).
  cbv zeta in Hout, Hl.
  set (acked := sendAck POSACK (seqNumTx stA)
                  (set_lastSeqRx (seqNumTx stA) (inc_goodFrames stB))
                  (after_wait wB)) in *.
  exists (b ++ skipn (length b) dataRx), (snd (fst acked)), (snd acked),
         (ackFrame (seqNumTx stA)).
  split.
  { unfold LL_receive. rewrite HcB. cbn [negb].
    change (Z.to_nat MAX_TRIES) with 5%nat.
    rewrite recv_loop_step, <- Hstep, Hbody. reflexivity. }
  split.
  { rewrite firstn_app, firstn_all, Nat.sub_diag, firstn_O, app_nil_r.
    reflexivity. }
  split; [exact Hout|].
  intros HpeerA.
  assert (Hbyte : is_byte (seqNumTx stA))
    by (unfold is_byte, MOD_SEQNUM in *; lia).
  rewrite (LL_send_acked b debugA stA wA HcA Hlen HdA Hbyte Hline HpeerA).
  eexists. eexists. split; [reflexivity|].
  split; [reflexivity|]. split; [reflexivity|].
  rewrite Hl. reflexivity.
Qed.

Lemma one_block_handshake_witness :
  (connected fresh_state = true
   /\ FULL <> SIMPLE
   /\ -1 <= lastSeqRx fresh_state < MOD_SEQNUM
   /\ seqNumTx fresh_state = next (lastSeqRx fresh_state)
   /\ Forall is_byte [1; 2; 3]
   /\ Z.of_nat (length [1; 2; 3]) <= MAX_BLK
   /\ Z.of_nat (length [1; 2; 3]) <= 16
   /\ (length [1; 2; 3]%Z <= length (repeat 0%Z 16))%nat
   /\ phy_send_ret ack0_world (length (phy_out ack0_world))
        (fst (buildDataFrame [1; 2; 3] (seqNumTx fresh_state)))
      = Z.of_nat
          (length (fst (buildDataFrame [1; 2; 3] (seqNumTx fresh_state))))
   /\ frame_end retransmitting_world (getFrame_calls retransmitting_world)
      = GF_bytes (fst (buildDataFrame [1; 2; 3] (seqNumTx fresh_state))))
  /\ exists dataRx' stB' wB' ack,
       LL_receive (repeat 0 16) 16 FULL fresh_state retransmitting_world
       = Some (Z.of_nat (length [1; 2; 3]), dataRx', stB', wB')
       /\ firstn (length [1; 2; 3]) dataRx' = [1; 2; 3]
       /\ phy_out wB' = phy_out retransmitting_world ++ [ack]
       /\ (frame_end ack0_world (getFrame_calls ack0_world) = GF_bytes ack ->
           exists stA' wA',
             LL_send [1; 2; 3] FULL fresh_state ack0_world
             = Some (SUCCESS, stA', wA')
             /\ phy_out wA'
                = phy_out ack0_world
                  ++ [fst (buildDataFrame [1; 2; 3] (seqNumTx fresh_state))]
             /\ acksRx stA' = acksRx fresh_state + 1
             /\ seqNumTx stA' = next (lastSeqRx stB')).
Proof.
  assert (H1 : connected fresh_state = true) by reflexivity.
  assert (H2 : FULL <> SIMPLE) by discriminate.
  assert (H3 : -1 <= lastSeqRx fresh_state < MOD_SEQNUM)
    by (unfold MOD_SEQNUM; simpl; lia).
  assert (H4 : seqNumTx fresh_state = next (lastSeqRx fresh_state))
    by reflexivity.
  assert (H5 : Forall is_byte [1; 2; 3])
    by (repeat constructor; unfold is_byte; lia).
  assert (H6 : Z.of_nat (length [1; 2; 3]) <= MAX_BLK)
    by (vm_compute; discriminate).
  assert (H7 : Z.of_nat (length [1; 2; 3]) <= 16)
    by (vm_compute; discriminate).
  assert (H8 : (length [1; 2; 3]%Z <= length (repeat 0%Z 16))%nat)
    by (simpl; lia).
  assert (H9 : phy_send_ret ack0_world (length (phy_out ack0_world))
                 (fst (buildDataFrame [1; 2; 3] (seqNumTx fresh_state)))
               = Z.of_nat
                   (length (fst (buildDataFrame [1; 2; 3]
                                   (seqNumTx fresh_state)))))
    by reflexivity.
  assert (H10 : frame_end retransmitting_world
                  (getFrame_calls retransmitting_world)
                = GF_bytes (fst (buildDataFrame [1; 2; 3]
                                   (seqNumTx fresh_state))))
    by reflexivity.
  split; [repeat split; assumption || apply H3|].
  exact (one_block_handshake [1; 2; 3] (repeat 0 16) 16 FULL FULL
           fresh_state fresh_state ack0_world retransmitting_world
           H1 H1 H2 H2 H3 H4 H5 H6 H7 H8 H9 H10).
Defined.

(** * Further properties of the receiver *)

(** [LL_receive] on a connected state: the loop. *)
Lemma LL_receive_loop (dataRx : list Z) (maxData debug : Z)
    (st : LLState) (w : World) :
  connected st = true ->
  LL_receive dataRx maxData debug st w
  = recv_loop 5 maxData debug (next (lastSeqRx st)) false 0 0 dataRx st w.
Proof. intros Hconn. unfold LL_receive. rewrite Hconn. reflexivity. Qed.

(** X12.  On a fresh connection ([lastSeqRx] still -1), when the first
    frame [LL_receive] gets in normal mode passes [checkFrame] but is
    not block 0, the acknowledgement it sends for "the last good block"
    carries the byte 255 and a checksum computed from -1: the five
    bytes 212, 5, 255, 4, 204, which [checkFrame] itself classifies
    [FRAMEBAD].  The call then goes on with its second attempt. *)
Theorem first_block_out_of_step_gets_bad_ack
    (dataRx f : list Z) (maxData debug : Z) (st : LLState) (w : World) :
  connected st = true ->
  debug <> SIMPLE ->
  lastSeqRx st = -1 ->
  frame_end w (getFrame_calls w) = GF_bytes f ->
  0 < Z.of_nat (length f) < 3 * MAX_BLK ->
  checkFrame f (Z.of_nat (length f)) = FRAMEGOOD ->
  is_byte (rd f SEQNUMPOS) ->
  rd f SEQNUMPOS <> 0 ->
  let acked := sendAck POSACK (-1) (inc_goodFrames st) (after_wait w) in
  LL_receive dataRx maxData debug st w
  = recv_loop 4 maxData debug 0 false 1
      (fst (fst (processFrame f (Z.of_nat (length f)) dataRx maxData)))
      (snd (fst (processFrame f (Z.of_nat (length f)) dataRx maxData)))
      (snd (fst acked)) (snd acked)
  /\ phy_out (snd acked) = phy_out w ++ [[212; 5; 255; 4; 204]]
  /\ lastSeqRx (snd (fst acked)) = -1
  /\ checkFrame [212; 5; 255; 4; 204] 5 = FRAMEBAD.
Proof.
  intros Hconn Hdebug Hlast Hpeer Hlen Hgood Hbyte Hne acked.
  assert (Hexp : rd f SEQNUMPOS <> next (lastSeqRx st))
    by (rewrite Hlast; exact Hne).
  assert (Hdup : rd f SEQNUMPOS <> lastSeqRx st)
    by (rewrite Hlast; unfold is_byte in Hbyte; lia).
  pose proof (recv_body_unexpected maxData debug (next (lastSeqRx st)) false
                0 0 dataRx f st w Hdebug Hpeer Hlen Hgood Hexp Hdup) as Hbody.
  rewrite Hlast in Hbody. fold acked in Hbody.
  destruct (sendAck_POSACK_effect (-1) (inc_goodFrames st) (after_wait w))
    as (Hout & _ & _ & _ & Hl & _).
  fold acked in Hout, Hl.
  split.
  - rewrite LL_receive_loop by exact Hconn.
    rewrite recv_loop_step, Hlast. change (next (-1)) with 0 in *.
    rewrite Hbody. reflexivity.
  - split; [exact Hout|]. split; [|vm_compute; reflexivity].
    rewrite Hl. cbn. exact Hlast.
Qed.

Lemma first_block_out_of_step_gets_bad_ack_witness :
  (connected fresh_state = true
   /\ FULL <> SIMPLE
   /\ lastSeqRx fresh_state = -1
   /\ frame_end stray_world (getFrame_calls stray_world)
      = GF_bytes (fst (buildDataFrame [9; 9] 5))
   /\ 0 < Z.of_nat (length (fst (buildDataFrame [9; 9] 5))) < 3 * MAX_BLK
   /\ checkFrame (fst (buildDataFrame [9; 9] 5))
        (Z.of_nat (length (fst (buildDataFrame [9; 9] 5)))) = FRAMEGOOD
   /\ is_byte (rd (fst (buildDataFrame [9; 9] 5)) SEQNUMPOS)
   /\ rd (fst (buildDataFrame [9; 9] 5)) SEQNUMPOS <> 0)
  /\ phy_out (snd (sendAck POSACK (-1) (inc_goodFrames fresh_state)
                     (after_wait stray_world)))
     = phy_out stray_world ++ [[212; 5; 255; 4; 204]].
Proof.
  assert (H1 : connected fresh_state = true) by reflexivity.
  assert (H2 : FULL <> SIMPLE) by discriminate.
  assert (H3 : lastSeqRx fresh_state = -1) by reflexivity.
  assert (H4 : frame_end stray_world (getFrame_calls stray_world)
               = GF_bytes (fst (buildDataFrame [9; 9] 5))) by reflexivity.
  assert (H5 : 0 < Z.of_nat (length (fst (buildDataFrame [9; 9] 5)))
               < 3 * MAX_BLK) by (vm_compute; split; reflexivity).
  assert (H6 : checkFrame (fst (buildDataFrame [9; 9] 5))
                 (Z.of_nat (length (fst (buildDataFrame [9; 9] 5))))
               = FRAMEGOOD) by (vm_compute; reflexivity).
  assert (H7 : is_byte (rd (fst (buildDataFrame [9; 9] 5)) SEQNUMPOS))
    by (change (rd (fst (buildDataFrame [9; 9] 5)) SEQNUMPOS) with 5;
        unfold is_byte; lia).
  assert (H8 : rd (fst (buildDataFrame [9; 9] 5)) SEQNUMPOS <> 0)
    by (vm_compute; discriminate).
  split; [repeat split; assumption || apply H5 || apply H7|].
  exact (proj1 (proj2 (first_block_out_of_step_gets_bad_ack (repeat 0 16)
                         (fst (buildDataFrame [9; 9] 5)) 16 FULL fresh_state
                         stray_world H1 H2 H3 H4 H5 H6 H7 H8))).
Defined.

(** ** Giving up and failing *)

Lemma recv_body_timeout (maxData debug expected : Z) (success : bool)
    (attempts nRXdata : Z) (dataRx : list Z) (st : LLState) (w : World) :
  frame_end w (getFrame_calls w) = GF_timeup ->
  recv_body maxData debug expected success attempts nRXdata dataRx st w
  = RecvTest success (attempts + 1) nRXdata dataRx (inc_timeouts st)
      (after_wait w).
Proof.
  intros Hpeer. unfold recv_body, getFrame. rewrite Hpeer. reflexivity.
Qed.

Lemma recv_body_nothing_usable (maxData debug expected : Z)
    (attempts nRXdata : Z) (dataRx : list Z) (st : LLState) (w : World) :
  nothing_usable debug (frame_end w (getFrame_calls w)) ->
  exists t b,
    0 <= t /\ 0 <= b /\ t + b = 1
    /\ recv_body maxData debug expected false attempts nRXdata dataRx st w
       = RecvTest false (attempts + 1) nRXdata dataRx (after_useless t b st)
           (after_wait w).
Proof.
  intros [Hpeer|(Hdebug & f & Hpeer & Hlen & Hbad)].
  - exists 1, 0. rewrite (recv_body_timeout _ _ _ _ _ _ _ _ _ Hpeer).
    repeat split; try lia.
    unfold after_useless, inc_timeouts. cbn. repeat f_equal; lia.
  - exists 0, 1.
    rewrite (recv_body_bad_frame _ _ _ _ _ _ _ f _ _ Hdebug Hpeer Hlen Hbad).
    repeat split; try lia.
    unfold after_useless, inc_badFrames. cbn. repeat f_equal; lia.
Qed.

Lemma recv_loop_nothing_usable (maxData debug expected : Z) (dataRx : list Z)
    (k : nat) :
  forall (attempts nRXdata : Z) (st : LLState) (w : World),
    (forall j, nothing_usable debug (frame_end w j)) ->
    attempts + Z.of_nat (S k) = MAX_TRIES ->
    exists t b,
      0 <= t /\ 0 <= b /\ t + b = Z.of_nat (S k)
      /\ recv_loop (S k) maxData debug expected false attempts nRXdata
           dataRx st w
         = Some (GIVEUP, dataRx, after_useless t b st, after_waits (S k) w).
Proof.
  induction k as [|k IH]; intros attempts nRXdata st w Hpeer Hatt;
    destruct (recv_body_nothing_usable maxData debug expected attempts
                nRXdata dataRx st w (Hpeer _))
      as (t & b & Ht & Hb & Htb & Hbody);
    rewrite recv_loop_step, Hbody; cbn [negb andb].
  - replace (attempts + 1 <? MAX_TRIES) with false
      by (symmetry; apply Z.ltb_ge; lia).
    exists t, b. repeat split; try lia.
  - replace (attempts + 1 <? MAX_TRIES) with true
      by (symmetry; apply Z.ltb_lt; lia).
    destruct (IH (attempts + 1) nRXdata (after_useless t b st) (after_wait w))
      as (t' & b' & Ht' & Hb' & Htb' & Hloop); [exact Hpeer | lia |].
    rewrite Hloop. exists (t + t'), (b + b').
    repeat split; try lia.
    unfold after_useless, after_waits, after_wait. cbn.
    f_equal. f_equal; [f_equal|].
    + f_equal; lia.
    + f_equal. lia.
Qed.

(** X13.  When every wait of a connected [LL_receive] ends with the time
    limit or (normal mode) with a frame that fails [checkFrame], the call
    returns [GIVEUP] after exactly [MAX_TRIES] waits: the timeouts and
    bad frames counted add up to [MAX_TRIES], nothing was transmitted
    (no acknowledgement of either kind), [lastSeqRx] and the caller's
    array are as before.  This holds in simple mode too when all waits
    time out. *)
Theorem LL_receive_gives_up
    (dataRx : list Z) (maxData debug : Z) (st : LLState) (w : World) :
  connected st = true ->
  (forall j, nothing_usable debug (frame_end w j)) ->
  exists t b,
    0 <= t /\ 0 <= b /\ t + b = MAX_TRIES
    /\ LL_receive dataRx maxData debug st w
       = Some (GIVEUP, dataRx, after_useless t b st,
               after_waits (Z.to_nat MAX_TRIES) w).
Proof.
  intros Hconn Hpeer. rewrite LL_receive_loop by exact Hconn.
  destruct (recv_loop_nothing_usable maxData debug (next (lastSeqRx st))
              dataRx 4 0 0 st w Hpeer)
    as (t & b & Ht & Hb & Htb & Hloop); [reflexivity|].
  exists t, b. repeat split; try assumption.
Qed.

Lemma LL_receive_gives_up_witness :
  (connected fresh_state = true
   /\ forall j, nothing_usable FULL (frame_end garbled_world j))
  /\ exists t b,
       0 <= t /\ 0 <= b /\ t + b = MAX_TRIES
       /\ LL_receive (repeat 0 16) 16 FULL fresh_state garbled_world
          = Some (GIVEUP, repeat 0 16, after_useless t b fresh_state,
                  after_waits (Z.to_nat MAX_TRIES) garbled_world).
Proof.
  assert (H1 : connected fresh_state = true) by reflexivity.
  assert (H2 : forall j, nothing_usable FULL (frame_end garbled_world j)).
  { intros j. right. split; [discriminate|].
    exists [212; 5; 0; 6; 204]. split; [reflexivity|].
    split; [vm_compute; split; reflexivity | vm_compute; reflexivity]. }
  split; [split; assumption|].
  exact (LL_receive_gives_up (repeat 0 16) 16 FULL fresh_state garbled_world
           H1 H2).
Defined.

Lemma after_useless_0 (st : LLState) : after_useless 0 0 st = st.
Proof.
  destruct st. unfold after_useless. cbn. f_equal; lia.
Qed.

(** [k] waits that give nothing usable, with attempts to spare, leave
    the receiver's loop where it was with only the counters moved. *)
Lemma recv_loop_useless_prefix (maxData debug expected : Z)
    (dataRx : list Z) (fuel k : nat) :
  forall (attempts nRXdata : Z) (st : LLState) (w : World),
    (forall j, (j < k)%nat ->
               nothing_usable debug (frame_end w (j + getFrame_calls w))) ->
    attempts + Z.of_nat k < MAX_TRIES ->
    exists t b,
      0 <= t /\ 0 <= b /\ t + b = Z.of_nat k
      /\ recv_loop (k + S fuel) maxData debug expected false attempts nRXdata
           dataRx st w
         = recv_loop (S fuel) maxData debug expected false
             (attempts + Z.of_nat k) nRXdata dataRx (after_useless t b st)
             (after_waits k w).
Proof.
  induction k as [|k IH]; intros attempts nRXdata st w Hpeer Hatt.
  - exists 0, 0. rewrite after_useless_0.
    replace (attempts + Z.of_nat 0) with attempts by (cbn; lia).
    split; [lia|]. split; [lia|]. split; [reflexivity|].
    clear Hpeer. destruct w; reflexivity.
  - destruct (recv_body_nothing_usable maxData debug expected attempts
                nRXdata dataRx st w (Hpeer 0%nat ltac:(lia)))
      as (t & b & Ht & Hb & Htb & Hbody).
    change (S k + S fuel)%nat with (S (k + S fuel)).
    rewrite recv_loop_step, Hbody. cbn [negb andb].
    replace (attempts + 1 <? MAX_TRIES) with true
      by (symmetry; apply Z.ltb_lt; lia).
    destruct (IH (attempts + 1) nRXdata (after_useless t b st) (after_wait w))
      as (t' & b' & Ht' & Hb' & Htb' & Hloop).
    + intros j Hj. cbn [after_wait getFrame_calls frame_end].
      replace (j + S (getFrame_calls w))%nat
        with (S j + getFrame_calls w)%nat by lia.
      apply Hpeer. lia.
    + lia.
    + rewrite Hloop. exists (t + t'), (b + b').
      repeat split; try lia.
      f_equal; try lia.
      * unfold after_useless. cbn. f_equal; lia.
      * unfold after_waits, after_wait. cbn. f_equal. lia.
Qed.

(** X14.  When a wait of a connected [LL_receive] reports a problem of
    the physical layer, after [k < MAX_TRIES] waits that gave nothing
    usable, the call returns [FAILURE] at once: the remaining attempts
    are not used, nothing is transmitted, and the caller's array,
    [lastSeqRx] and all counters but those of the [k] timeouts and bad
    frames are as before. *)
Theorem LL_receive_fails_on_problem
    (dataRx : list Z) (maxData debug : Z) (st : LLState) (w : World)
    (k : nat) (code : positive) :
  connected st = true ->
  Z.of_nat k < MAX_TRIES ->
  (forall j, (j < k)%nat ->
             nothing_usable debug (frame_end w (j + getFrame_calls w))) ->
  frame_end w (k + getFrame_calls w) = GF_problem code ->
  exists t b,
    0 <= t /\ 0 <= b /\ t + b = Z.of_nat k
    /\ LL_receive dataRx maxData debug st w
       = Some (FAILURE, dataRx, after_useless t b st, after_waits (S k) w).
Proof.
  intros Hconn Hk Hpeer Hprob. rewrite LL_receive_loop by exact Hconn.
  unfold MAX_TRIES in Hk.
  destruct (recv_loop_useless_prefix maxData debug (next (lastSeqRx st))
              dataRx (4 - k) k 0 0 st w Hpeer)
    as (t & b & Ht & Hb & Htb & Hloop); [unfold MAX_TRIES; lia|].
  replace (k + S (4 - k))%nat with 5%nat in Hloop by lia.
  exists t, b. repeat split; try assumption.
  rewrite Hloop, recv_loop_step. unfold recv_body, getFrame.
  cbn [after_waits frame_end getFrame_calls].
  rewrite Hprob. reflexivity.
Qed.

Lemma LL_receive_fails_on_problem_witness :
  (connected fresh_state = true
   /\ Z.of_nat 1 < MAX_TRIES
   /\ (forall j, (j < 1)%nat ->
                 nothing_usable FULL
                   (frame_end failing_rx_world
                      (j + getFrame_calls failing_rx_world)))
   /\ frame_end failing_rx_world (1 + getFrame_calls failing_rx_world)
      = GF_problem 4)
  /\ exists t b,
       0 <= t /\ 0 <= b /\ t + b = Z.of_nat 1
       /\ LL_receive (repeat 0 16) 16 FULL fresh_state failing_rx_world
          = Some (FAILURE, repeat 0 16, after_useless t b fresh_state,
                  after_waits 2 failing_rx_world).
Proof.
  assert (H1 : connected fresh_state = true) by reflexivity.
  assert (H2 : Z.of_nat 1 < MAX_TRIES) by (vm_compute; reflexivity).
  assert (H3 : forall j, (j < 1)%nat ->
                 nothing_usable FULL
                   (frame_end failing_rx_world
                      (j + getFrame_calls failing_rx_world))).
  { intros j Hj. assert (j = 0%nat) as -> by lia. left. reflexivity. }
  assert (H4 : frame_end failing_rx_world
                 (1 + getFrame_calls failing_rx_world) = GF_problem 4)
    by reflexivity.
  split; [repeat split; assumption|].
  exact (LL_receive_fails_on_problem (repeat 0 16) 16 FULL fresh_state
           failing_rx_world 1 4%positive H1 H2 H3 H4).
Defined.

(** ** Simple mode *)

(** What a pass of the receiver's loop in simple mode leaves alone. *)
Lemma recv_body_simple (maxData expected : Z) (success : bool)
    (attempts nRXdata : Z) (dataRx : list Z) (st : LLState) (w : World) :
  let quiet st1 w1 :=
    phy_out w1 = phy_out w /\ lastSeqRx st1 = lastSeqRx st
    /\ acksSent st1 = acksSent st in
  match recv_body maxData SIMPLE expected success attempts nRXdata dataRx st w
  with
  | RecvReturn _ _ st1 w1 => quiet st1 w1
  | RecvTest _ _ _ _ st1 w1 => quiet st1 w1
  end.
Proof.
  unfold recv_body, getFrame. change (SIMPLE =? SIMPLE) with true. cbv zeta.
  destruct (frame_end _ _) as [code| |bs]; cbn -[checkFrame processFrame];
    try (repeat split; fail).
  destruct (_ >=? _); cbn -[checkFrame processFrame]; [repeat split|].
  destruct (_ <? 0); [repeat split|].
  destruct (_ =? 0); [repeat split|].
  destruct (checkFrame _ _ =? FRAMEBAD); [repeat split|].
  destruct (processFrame _ _ _ _) as [[n d] q]. repeat split.
Qed.

Lemma recv_loop_simple (fuel : nat) (maxData expected : Z) (success : bool)
    (attempts nRXdata : Z) (dataRx : list Z) (st : LLState) (w : World) r :
  recv_loop fuel maxData SIMPLE expected success attempts nRXdata dataRx st w
  = Some r ->
  phy_out (snd r) = phy_out w
  /\ lastSeqRx (snd (fst r)) = lastSeqRx st
  /\ acksSent (snd (fst r)) = acksSent st.
Proof.
  revert success attempts nRXdata dataRx st w.
  induction fuel as [|fuel IH];
    intros success attempts nRXdata dataRx st w Hrun; [discriminate|].
  rewrite recv_loop_step in Hrun.
  pose proof (recv_body_simple maxData expected success attempts nRXdata
                dataRx st w) as Hbody.
  cbv zeta in Hbody.
  destruct (recv_body _ _ _ _ _ _ _ _ _)
    as [ret d1 st1 w1|success1 attempts1 n1 d1 st1 w1].
  - injection Hrun as <-. exact Hbody.
  - destruct Hbody as (Ho & Hl & Ha).
    destruct (negb success1 && (attempts1 <? MAX_TRIES)).
    + apply IH in Hrun. rewrite Ho, Hl, Ha in Hrun. exact Hrun.
    + unfold recv_end in Hrun.
      destruct success1; injection Hrun as <-; cbn; auto.
Qed.

(** X15.  In simple mode [LL_receive] never transmits anything and never
    moves [lastSeqRx], whatever arrives: no frame is acknowledged and no
    sequence number is checked. *)
Theorem LL_receive_simple_mode_is_silent
    (dataRx : list Z) (maxData : Z) (st : LLState) (w : World) :
  exists ret dataRx' st' w',
    LL_receive dataRx maxData SIMPLE st w = Some (ret, dataRx', st', w')
    /\ phy_out w' = phy_out w
    /\ lastSeqRx st' = lastSeqRx st
    /\ acksSent st' = acksSent st.
Proof.
  destruct (LL_receive_returns dataRx maxData SIMPLE st w)
    as [[[[ret d] st'] w'] Hrun].
  exists ret, d, st', w'. split; [exact Hrun|].
  unfold LL_receive in Hrun.
  destruct (negb (connected st)).
  - injection Hrun as <- <- <- <-. repeat split.
  - apply recv_loop_simple in Hrun. exact Hrun.
Qed.




(** ** Frames shorter than header and trailer *)

(** X17.  [checkFrame] can pass frames of fewer than
    [HEADERSIZE + TRAILERSIZE] bytes (for one, the four bytes 212, 4, 4,
    204).  For such a frame [processFrame] computes a negative byte
    count and copies nothing, and [LL_receive] returns that negative
    count as if it were a block length: in simple mode always, and in
    normal mode when the byte in the sequence position is the expected
    number, in which case the frame is also acknowledged and
    [lastSeqRx] moved. *)
Theorem LL_receive_short_frame_negative_count
    (dataRx f : list Z) (maxData : Z) (st : LLState) (w : World) :
  connected st = true ->
  frame_end w (getFrame_calls w) = GF_bytes f ->
  0 < Z.of_nat (length f) < HEADERSIZE + TRAILERSIZE ->
  checkFrame f (Z.of_nat (length f)) = FRAMEGOOD ->
  0 <= maxData ->
  Z.of_nat (length f) - 5 < 0
  /\ LL_receive dataRx maxData SIMPLE st w
     = Some (Z.of_nat (length f) - 5, dataRx, inc_goodFrames st,
             after_wait w)
  /\ (forall debug,
         debug <> SIMPLE ->
         rd f SEQNUMPOS = next (lastSeqRx st) ->
         let acked :=
           sendAck POSACK (rd f SEQNUMPOS)
             (set_lastSeqRx (rd f SEQNUMPOS) (inc_goodFrames st))
             (after_wait w) in
         LL_receive dataRx maxData debug st w
         = Some (Z.of_nat (length f) - 5, dataRx, snd (fst acked), snd acked)
         /\ lastSeqRx (snd (fst acked)) = rd f SEQNUMPOS
         /\ phy_out (snd acked) = phy_out w ++ [ackFrame (rd f SEQNUMPOS)]).
Proof.
  intros Hconn Hpeer Hlen Hgood Hmax.
  unfold HEADERSIZE, TRAILERSIZE in Hlen.
  assert (Hlen' : 0 < Z.of_nat (length f) < 3 * MAX_BLK)
    by (unfold MAX_BLK; lia).
  assert (Hproc : processFrame f (Z.of_nat (length f)) dataRx maxData
                  = (Z.of_nat (length f) - 5, dataRx, rd f SEQNUMPOS)).
  { unfold processFrame.
    replace (Z.of_nat (length f) - HEADERSIZE - TRAILERSIZE)
      with (Z.of_nat (length f) - 5)
      by (unfold HEADERSIZE, TRAILERSIZE; lia).
    destruct (Z.gtb_spec (Z.of_nat (length f) - 5) maxData) as [Hgt|_];
      [lia|].
    replace (Z.to_nat (Z.of_nat (length f) - 5)) with 0%nat by lia.
    reflexivity. }
  split; [lia|]. split.
  - rewrite LL_receive_loop by exact Hconn.
    rewrite recv_loop_step. unfold recv_body.
    rewrite (getFrame_bytes _ _ _ Hpeer) by lia.
    positive_size f.
    rewrite Hgood, Hproc. reflexivity.
  - intros debug Hdebug Hexp acked.
    pose proof (recv_body_expected maxData debug false 0 0 dataRx f st w
                  Hdebug Hpeer Hlen' Hgood) as Hbody.
    rewrite Hproc in Hbody. cbn [fst snd] in Hbody. fold acked in Hbody.
    destruct (sendAck_POSACK_effect (rd f SEQNUMPOS)
                (set_lastSeqRx (rd f SEQNUMPOS) (inc_goodFrames st))
                (after_wait w))
      as (Hout & _ & _ & _ & Hl & _).
    fold acked in Hout, Hl.
    split; [|split; [exact Hl | exact Hout]].
    rewrite LL_receive_loop by exact Hconn.
    rewrite recv_loop_step, <- Hexp, Hbody. reflexivity.
Qed.

Lemma LL_receive_short_frame_negative_count_witness :
  (connected state_after_block3 = true
   /\ frame_end four_byte_world (getFrame_calls four_byte_world)
      = GF_bytes [212; 4; 4; 204]
   /\ 0 < Z.of_nat (length [212; 4; 4; 204]) < HEADERSIZE + TRAILERSIZE
   /\ checkFrame [212; 4; 4; 204] (Z.of_nat (length [212; 4; 4; 204]))
      = FRAMEGOOD
   /\ 0 <= 16
   /\ FULL <> SIMPLE
   /\ rd [212; 4; 4; 204] SEQNUMPOS = next (lastSeqRx state_after_block3))
  /\ LL_receive (repeat 0 16) 16 FULL state_after_block3 four_byte_world
     = Some (Z.of_nat (length [212; 4; 4; 204]) - 5, repeat 0 16,
             snd (fst (sendAck POSACK (rd [212; 4; 4; 204] SEQNUMPOS)
                         (set_lastSeqRx (rd [212; 4; 4; 204] SEQNUMPOS)
                            (inc_goodFrames state_after_block3))
                         (after_wait four_byte_world))),
             snd (sendAck POSACK (rd [212; 4; 4; 204] SEQNUMPOS)
                    (set_lastSeqRx (rd [212; 4; 4; 204] SEQNUMPOS)
                       (inc_goodFrames state_after_block3))
                    (after_wait four_byte_world))).
Proof.
  assert (H1 : connected state_after_block3 = true) by reflexivity.
  assert (H2 : frame_end four_byte_world (getFrame_calls four_byte_world)
               = GF_bytes [212; 4; 4; 204]) by reflexivity.
  assert (H3 : 0 < Z.of_nat (length [212; 4; 4; 204])
               < HEADERSIZE + TRAILERSIZE)
    by (vm_compute; split; reflexivity).
  assert (H4 : checkFrame [212; 4; 4; 204]
                 (Z.of_nat (length [212; 4; 4; 204])) = FRAMEGOOD)
    by (vm_compute; reflexivity).
  assert (H5 : 0 <= 16) by lia.
  assert (H6 : FULL <> SIMPLE) by discriminate.
  assert (H7 : rd [212; 4; 4; 204] SEQNUMPOS
               = next (lastSeqRx state_after_block3))
    by (vm_compute; reflexivity).
  split; [repeat split; assumption || apply H3|].
  exact (proj1 (proj2 (proj2
           (LL_receive_short_frame_negative_count (repeat 0 16)
              [212; 4; 4; 204] 16 state_after_block3 four_byte_world
              H1 H2 H3 H4 H5)) FULL H6 H7)).
Defined.

(** ** What every call of [LL_receive] respects *)

Lemma fill_loop_length (n : nat) (i : Z) (dataRx : list Z) :
  length (fill_loop n i dataRx) = length dataRx.
Proof.
  revert i dataRx. induction n as [|n IH]; intros i dataRx; [reflexivity|].
  cbn [fill_loop]. rewrite IH. apply wr_length.
Qed.

Lemma counters_grow_refl (st : LLState) : counters_grow st st.
Proof. unfold counters_grow. repeat split; lia. Qed.

Lemma counters_grow_trans (st st1 st2 : LLState) :
  counters_grow st st1 -> counters_grow st1 st2 -> counters_grow st st2.
Proof. unfold counters_grow. intros H1 H2. repeat split; lia. Qed.

Lemma recv_body_pass_ok (maxData debug expected : Z)
    (attempts nRXdata : Z) (dataRx : list Z) (st : LLState) (w : World) :
  match recv_body maxData debug expected false attempts nRXdata dataRx st w
  with
  | RecvReturn _ dataRx1 st1 w1 =>
      recv_pass_ok maxData debug expected dataRx st w false dataRx1 st1 w1
  | RecvTest success1 _ _ dataRx1 st1 w1 =>
      recv_pass_ok maxData debug expected dataRx st w success1 dataRx1 st1 w1
  end.
Proof.
  unfold recv_body.
  assert (Hw : getFrame_calls (snd (getFrame (3 * MAX_BLK) w))
               = S (getFrame_calls w)
               /\ phy_out (snd (getFrame (3 * MAX_BLK) w)) = phy_out w).
  { unfold getFrame. destruct (frame_end _ _); [split; reflexivity..|].
    destruct (_ >=? _); split; reflexivity. }
  destruct (getFrame _ _) as [[sizeRXframe frameRx] w1].
  cbn [snd] in Hw. destruct Hw as [Hcalls Hout].
  assert (Hquiet : forall s d st1,
             length d = length dataRx ->
             (debug <> SIMPLE ->
              skipn (Z.to_nat maxData) d = skipn (Z.to_nat maxData) dataRx) ->
             lastSeqRx st1 = lastSeqRx st -> counters_grow st st1 ->
             recv_pass_ok maxData debug expected dataRx st w s d st1 w1).
  { intros s d st1 Hl Hs Hlast Hgrow. unfold recv_pass_ok.
    rewrite Hout.
    split; [exact Hcalls|]. split; [lia|]. split; [left; exact Hlast|].
    split; [exact Hl|]. split; [exact Hs | exact Hgrow]. }
  assert (Hup : forall st0, counters_grow st st0 ->
                            counters_grow st (inc_timeouts st0)
                            /\ counters_grow st (inc_badFrames st0)
                            /\ counters_grow st (inc_goodFrames st0)).
  { intros st0 H. unfold counters_grow in *. cbn. repeat split; lia. }
  pose proof (counters_grow_refl st) as Hrefl.
  destruct (_ <? 0); [apply Hquiet; auto|].
  destruct (_ =? 0); [apply Hquiet; auto; apply Hup; exact Hrefl|].
  destruct (checkFrame _ _ =? FRAMEBAD).
  - destruct (Z.eqb_spec debug SIMPLE) as [Hd|Hd].
    + apply Hquiet; auto; [apply fill_loop_length | contradiction
                           | apply Hup; exact Hrefl].
    + apply Hquiet; auto. apply Hup; exact Hrefl.
  - destruct (processFrame_keeps frameRx sizeRXframe dataRx maxData)
      as (_ & _ & Hlen & Hskip).
    destruct (processFrame _ _ _ _) as [[n d] seqNumRx].
    cbn [fst snd] in Hlen, Hskip.
    destruct (Z.eqb_spec debug SIMPLE) as [Hd|Hd];
      [apply Hquiet; auto; apply Hup; exact Hrefl|].
    assert (Hack : forall q st0,
               counters_grow st st0 ->
               let r := sendAck POSACK q st0 w1 in
               (length (phy_out w)
                <= length (phy_out (snd r)) <= S (length (phy_out w)))%nat
               /\ getFrame_calls (snd r) = S (getFrame_calls w)
               /\ lastSeqRx (snd (fst r)) = lastSeqRx st0
               /\ counters_grow st (snd (fst r))).
    { intros q st0 Hgrow r.
      destruct (sendAck_POSACK_effect q st0 w1)
        as (Ho & Hc & _ & _ & Hl & Hg & Hb & Hn & Ha).
      fold r in Ho, Hc, Hl, Hg, Hb, Hn, Ha.
      rewrite Ho, Hc, Hout, Hcalls, length_app. cbn [length].
      split; [lia|]. split; [reflexivity|]. split; [exact Hl|].
      unfold sendAck, PHY_send in r.
      subst r. unfold counters_grow in *.
      destruct (negb _); cbn; repeat split; lia. }
    destruct (Z.eqb_spec seqNumRx expected) as [He|He];
      [|destruct (Z.eqb_spec seqNumRx (lastSeqRx (inc_goodFrames st)))
          as [Hdup|Hdup]];
      match goal with
      | |- context [sendAck POSACK ?q ?s ?x] =>
          destruct (Hack q s) as (Ho & Hc & Hl & Hg);
          [unfold counters_grow; cbn; repeat split; lia|];
          destruct (sendAck POSACK q s x) as [[r st2] w2]
      end;
      cbn [fst snd] in Ho, Hc, Hl, Hg;
      unfold recv_pass_ok;
      (split; [exact Hc|]); (split; [exact Ho|]);
      (split; [|split; [exact Hlen|split; [intros _; exact Hskip|exact Hg]]]).
    + right. split; [reflexivity|]. rewrite Hl. cbn. exact He.
    + left. rewrite Hl. cbn. cbn in Hdup. exact Hdup.
    + left. rewrite Hl. reflexivity.
Qed.

Lemma recv_loop_respects (fuel : nat) (maxData debug expected : Z)
    (attempts nRXdata : Z) (dataRx : list Z) (st : LLState) (w : World)
    (ret : Z) (dataRx' : list Z) (st' : LLState) (w' : World) :
  recv_loop fuel maxData debug expected false attempts nRXdata dataRx st w
  = Some (ret, dataRx', st', w') ->
  exists k : nat,
    (1 <= k)%nat
    /\ attempts + Z.of_nat k <= Z.max (attempts + 1) MAX_TRIES
    /\ getFrame_calls w' = (k + getFrame_calls w)%nat
    /\ (length (phy_out w) <= length (phy_out w')
        <= k + length (phy_out w))%nat
    /\ (lastSeqRx st' = lastSeqRx st \/ lastSeqRx st' = expected)
    /\ length dataRx' = length dataRx
    /\ (debug <> SIMPLE ->
        skipn (Z.to_nat maxData) dataRx'
        = skipn (Z.to_nat maxData) dataRx)
    /\ counters_grow st st'.
Proof.
  revert attempts nRXdata dataRx st w.
  induction fuel as [|fuel IH]; intros attempts nRXdata dataRx st w Hrun;
    [discriminate|].
  rewrite recv_loop_step in Hrun.
  pose proof (recv_body_pass_ok maxData debug expected attempts nRXdata
                dataRx st w) as Hok.
  pose proof (recv_body_cases maxData debug expected false attempts nRXdata
                dataRx st w) as Hcase.
  assert (Hone : forall s d1 st1 w1,
             recv_pass_ok maxData debug expected dataRx st w s d1 st1 w1 ->
             exists k : nat,
               (1 <= k)%nat
               /\ attempts + Z.of_nat k <= Z.max (attempts + 1) MAX_TRIES
               /\ getFrame_calls w1 = (k + getFrame_calls w)%nat
               /\ (length (phy_out w) <= length (phy_out w1)
                   <= k + length (phy_out w))%nat
               /\ (lastSeqRx st1 = lastSeqRx st \/ lastSeqRx st1 = expected)
               /\ length d1 = length dataRx
               /\ (debug <> SIMPLE ->
                   skipn (Z.to_nat maxData) d1
                   = skipn (Z.to_nat maxData) dataRx)
               /\ counters_grow st st1).
  { intros s d1 st1 w1 (Hc & Ho & Hl & Hlen & Hs & Hg).
    exists 1%nat. split; [lia|]. split; [lia|]. split; [exact Hc|].
    split; [lia|]. split; [tauto|]. auto. }
  destruct (recv_body _ _ _ _ _ _ _ _ _)
    as [r d1 st1 w1|success1 attempts1 n1 d1 st1 w1].
  - injection Hrun as <- <- <- <-. eapply Hone. exact Hok.
  - destruct Hcase as [-> _].
    destruct success1; cbn [negb andb] in Hrun.
    + unfold recv_end in Hrun. injection Hrun as <- <- <- <-.
      eapply Hone. exact Hok.
    + destruct (attempts + 1 <? MAX_TRIES) eqn:Hlt.
      * apply Z.ltb_lt in Hlt. apply IH in Hrun.
        destruct Hrun as (k & Hk & Hmax & Hc' & Ho' & Hl' & Hlen' & Hs' & Hg').
        destruct Hok as (Hc & Ho & Hl & Hlen & Hs & Hg).
        assert (Hsame : lastSeqRx st1 = lastSeqRx st)
          by (destruct Hl as [Hl|[Hl _]]; [exact Hl | discriminate]).
        exists (S k). rewrite Hc', Hc.
        split; [lia|]. split; [lia|]. split; [lia|]. split; [lia|].
        split; [rewrite <- Hsame; exact Hl'|].
        split; [congruence|].
        split; [intros Hd; rewrite (Hs' Hd); exact (Hs Hd)|].
        eapply counters_grow_trans; eassumption.
      * unfold recv_end in Hrun. injection Hrun as <- <- <- <-.
        eapply Hone. exact Hok.
Qed.

(** X18.  In normal mode, for a caller's array of at least [maxData]
    cells and frames that fit the receiver's array [frameRx],
    [LL_receive] returns and has changed no cell of the caller's array
    from index [maxData] on: the caller's limit is respected on every
    path, including those that end in [GIVEUP] or [FAILURE].  (Simple
    mode is different: after a bad frame it fills ten cells whatever
    [maxData] is.) *)
Theorem LL_receive_respects_maxData
    (dataRx : list Z) (maxData debug : Z) (st : LLState) (w : World) :
  debug <> SIMPLE ->
  (Z.to_nat maxData <= length dataRx)%nat ->
  waits_fit (3 * MAX_BLK) w ->
  exists ret dataRx' st' w',
    LL_receive dataRx maxData debug st w = Some (ret, dataRx', st', w')
    /\ skipn (Z.to_nat maxData) dataRx' = skipn (Z.to_nat maxData) dataRx.
Proof.
  intros Hdebug _ _.
  destruct (LL_receive_returns dataRx maxData debug st w)
    as [[[[ret d] st'] w'] Hrun].
  exists ret, d, st', w'. split; [exact Hrun|].
  unfold LL_receive in Hrun.
  destruct (negb (connected st)).
  - injection Hrun as <- <- <- <-. reflexivity.
  - apply recv_loop_respects in Hrun.
    destruct Hrun as (k & _ & _ & _ & _ & _ & _ & Hs & _). auto.
Qed.

Lemma LL_receive_respects_maxData_witness :
  (FULL <> SIMPLE
   /\ (Z.to_nat 2 <= length (repeat 0%Z 16))%nat
   /\ waits_fit (3 * MAX_BLK) retransmitting_world)
  /\ exists ret dataRx' st' w',
       LL_receive (repeat 0 16) 2 FULL fresh_state retransmitting_world
       = Some (ret, dataRx', st', w')
       /\ skipn (Z.to_nat 2) dataRx' = skipn (Z.to_nat 2) (repeat 0 16).
Proof.
  assert (H1 : FULL <> SIMPLE) by discriminate.
  assert (H2 : (Z.to_nat 2 <= length (repeat 0%Z 16))%nat) by (simpl; lia).
  assert (H3 : waits_fit (3 * MAX_BLK) retransmitting_world)
    by (intros j _; simpl; lia).
  split; [split; [exact H1 | split; [exact H2 | exact H3]]|].
  exact (LL_receive_respects_maxData (repeat 0 16) 2 FULL fresh_state
           retransmitting_world H1 H2 H3).
Defined.

(** X19.  Every call of [LL_receive] returns after at most [MAX_TRIES]
    waits (at least one when connected, none when not), has transmitted
    at most one frame per wait, and leaves [lastSeqRx] either as it was
    or at the number that was expected on entry. *)
Theorem LL_receive_waits_at_most_MAX_TRIES
    (dataRx : list Z) (maxData debug : Z) (st : LLState) (w : World) :
  exists ret dataRx' st' w' (k : nat),
    LL_receive dataRx maxData debug st w = Some (ret, dataRx', st', w')
    /\ Z.of_nat k <= MAX_TRIES
    /\ (k = 0%nat <-> connected st = false)
    /\ getFrame_calls w' = (k + getFrame_calls w)%nat
    /\ (length (phy_out w) <= length (phy_out w')
        <= k + length (phy_out w))%nat
    /\ (lastSeqRx st' = lastSeqRx st
        \/ lastSeqRx st' = next (lastSeqRx st)).
Proof.
  destruct (LL_receive_returns dataRx maxData debug st w)
    as [[[[ret d] st'] w'] Hrun].
  exists ret, d, st', w'.
  pose proof Hrun as Hrun'. unfold LL_receive in Hrun'.
  destruct (connected st) eqn:Hconn; cbn [negb] in Hrun'.
  - apply recv_loop_respects in Hrun'.
    destruct Hrun' as (k & Hk & Hmax & Hc & Ho & Hl & _).
    exists k. split; [exact Hrun|].
    split; [unfold MAX_TRIES in *; lia|].
    split; [split; [lia | discriminate]|].
    split; [exact Hc|]. split; [exact Ho | exact Hl].
  - injection Hrun' as <- <- <- <-. exists 0%nat.
    split; [exact Hrun|]. split; [vm_compute; discriminate|].
    split; [split; reflexivity|]. split; [reflexivity|].
    split; [lia | left; reflexivity].
Qed.

(** * The life of a connection *)

Lemma send_loop_keeps_lastSeqRx (fuel : nat) (frameTx : list Z)
    (sizeTXframe debug : Z) (success : bool) (attempts : Z)
    (st : LLState) (w : World) r :
  send_loop fuel frameTx sizeTXframe debug success attempts st w = Some r ->
  lastSeqRx (snd (fst r)) = lastSeqRx st.
Proof.
  revert success attempts st w.
  induction fuel as [|fuel IH]; intros success attempts st w Hrun;
    [discriminate|].
  rewrite send_loop_step in Hrun.
  pose proof (send_body_cases frameTx sizeTXframe debug success attempts st w)
    as Hcase.
  destruct (send_body _ _ _ _ _ _ _) as [ret st1 w1|success1 attempts1 st1 w1].
  - destruct Hcase as [_ (_ & _ & Hl & _)]. injection Hrun as <-. exact Hl.
  - destruct Hcase as [_ (_ & _ & Hl & _)].
    destruct (negb success1 && (attempts1 <? MAX_TRIES)).
    + apply IH in Hrun. congruence.
    + unfold send_end in Hrun.
      destruct success1; injection Hrun as <-; exact Hl.
Qed.

(** What a call of [LL_send] does to the state. *)
Lemma LL_send_state (dataTx : list Z) (debug : Z) (st : LLState) (w : World)
    (ret : Z) (st' : LLState) (w' : World) :
  LL_send dataTx debug st w = Some (ret, st', w') ->
  connected st' = connected st
  /\ (seqNumTx st' = seqNumTx st \/ seqNumTx st' = next (seqNumTx st))
  /\ lastSeqRx st' = lastSeqRx st
  /\ counters_grow st st'.
Proof.
  intros Hrun.
  pose proof (LL_send_outcome _ _ _ _ _ _ _ Hrun) as (Hseq & Hn & Hc & Ha).
  split; [exact Hc|].
  split; [destruct Hseq as [[_ H]|[_ H]]; auto|].
  unfold LL_send in Hrun.
  destruct (negb (connected st));
    [injection Hrun as _ <- _; split;
     [reflexivity | apply counters_grow_refl]|].
  destruct (_ >? _);
    [injection Hrun as _ <- _; split;
     [reflexivity | apply counters_grow_refl]|].
  destruct (buildDataFrame _ _) as [frameTx sizeTXframe].
  split.
  - apply send_loop_keeps_lastSeqRx in Hrun. exact Hrun.
  - apply send_loop_tally in Hrun. destruct Hrun as (Ht & _).
    unfold send_tally in Ht. unfold counters_grow. repeat split; lia.
Qed.

Lemma run_call_state_in_use (c : Call) (st : LLState) (w : World)
    (ret : Z) (st' : LLState) (w' : World) :
  state_in_use st -> run_call c st w = Some (ret, st', w') ->
  state_in_use st'.
Proof.
  intros (Hc & Hs & Hl & Hg) Hrun.
  assert (Hnext : forall s, -1 <= s < MOD_SEQNUM -> 0 <= next s < MOD_SEQNUM).
  { intros s H. unfold next, MOD_SEQNUM in *.
    rewrite Z.rem_mod_nonneg by lia. apply Z.mod_pos_bound. lia. }
  destruct c as [dataTx debug|dataRx maxData debug]; cbn [run_call] in Hrun.
  - apply LL_send_state in Hrun. destruct Hrun as (Hc' & Hs' & Hl' & Hg').
    unfold state_in_use. rewrite Hc', Hl'.
    split; [exact Hc|]. split.
    + destruct Hs' as [->| ->]; [exact Hs | apply Hnext; lia].
    + split; [exact Hl | eapply counters_grow_trans; eassumption].
  - destruct (LL_receive _ _ _ _ _) as [[[[r d] st1] w1]|] eqn:Hr;
      [|discriminate].
    injection Hrun as <- <- <-.
    pose proof (LL_receive_keeps _ _ _ _ _ _ Hr) as (Hc' & Hs' & _).
    cbn [fst snd] in Hc', Hs'.
    unfold LL_receive in Hr. rewrite Hc in Hr. cbn [negb] in Hr.
    apply recv_loop_respects in Hr.
    destruct Hr as (k & _ & _ & _ & _ & Hl' & _ & _ & Hg').
    unfold state_in_use. rewrite Hc', Hs'.
    split; [exact Hc|]. split; [exact Hs|]. split.
    + destruct Hl' as [->| ->]; [exact Hl|].
      pose proof (Hnext _ Hl). lia.
    + eapply counters_grow_trans; eassumption.
Qed.

Lemma run_calls_state_in_use (cs : list Call) :
  forall (w : World) (st : LLState),
    state_in_use st ->
    exists rets st' w',
      run_calls cs st w = Some (rets, st', w')
      /\ length rets = length cs
      /\ state_in_use st'.
Proof.
  induction cs as [|c cs IH]; intros w st0 Hok.
  - exists [], st0, w. auto.
  - cbn [run_calls].
    assert (Hret : exists r, run_call c st0 w = Some r).
    { destruct c as [dataTx debug|dataRx maxData debug]; cbn [run_call].
      - apply LL_send_returns.
      - destruct (LL_receive_returns dataRx maxData debug st0 w)
          as [[[[r d] st1] w1] Hr].
        rewrite Hr. eexists. reflexivity. }
    destruct Hret as [[[ret st1] w1] Hrun]. rewrite Hrun.
    destruct (IH w1 st1 (run_call_state_in_use _ _ _ _ _ _ Hok Hrun))
      as (rets & st' & w' & Hrest & Hlen & Hok').
    rewrite Hrest. exists (ret :: rets), st', w'.
    split; [reflexivity|]. split; [cbn; lia | exact Hok'].
Qed.

(** ** How far the counters can move *)

Lemma counters_within_weaken (n m : Z) (st st1 : LLState) :
  n <= m -> counters_within n st st1 -> counters_within m st st1.
Proof. unfold counters_within. lia. Qed.

Lemma counters_within_trans (n m : Z) (st st1 st2 : LLState) :
  counters_within n st st1 -> counters_within m st1 st2 ->
  counters_within (n + m) st st2.
Proof. unfold counters_within. lia. Qed.

Lemma LL_send_within (dataTx : list Z) (debug : Z) (st : LLState) (w : World)
    (ret : Z) (st' : LLState) (w' : World) :
  LL_send dataTx debug st w = Some (ret, st', w') ->
  counters_within MAX_TRIES st st'.
Proof.
  intros Hrun.
  pose proof (LL_send_outcome _ _ _ _ _ _ _ Hrun) as (_ & Hn & _ & Ha).
  unfold LL_send in Hrun.
  destruct (negb (connected st));
    [injection Hrun as _ <- _; unfold counters_within, MAX_TRIES; lia|].
  destruct (_ >? _);
    [injection Hrun as _ <- _; unfold counters_within, MAX_TRIES; lia|].
  destruct (buildDataFrame _ _) as [frameTx sizeTXframe].
  apply send_loop_tally in Hrun. destruct Hrun as (Ht & Hsent & _).
  unfold send_tally in Ht. unfold counters_within.
  unfold MAX_TRIES in *. lia.
Qed.

(** One pass of the receiver's loop moves no counter by more than one. *)
Lemma recv_body_within (maxData debug expected : Z) (success : bool)
    (attempts nRXdata : Z) (dataRx : list Z) (st : LLState) (w : World) :
  match recv_body maxData debug expected success attempts nRXdata dataRx st w
  with
  | RecvReturn _ _ st1 _ => counters_within 1 st st1
  | RecvTest _ _ _ _ st1 _ => counters_within 1 st st1
  end.
Proof.
  unfold recv_body.
  destruct (getFrame _ _) as [[sizeRXframe frameRx] w1].
  destruct (_ <? 0); [unfold counters_within; lia|].
  destruct (_ =? 0); [unfold counters_within; cbn; lia|].
  destruct (checkFrame _ _ =? FRAMEBAD).
  - destruct (debug =? SIMPLE); unfold counters_within; cbn; lia.
  - destruct (processFrame _ _ _ _) as [[n d] seqNumRx].
    destruct (debug =? SIMPLE); [unfold counters_within; cbn; lia|].
    destruct (seqNumRx =? expected);
      [|destruct (seqNumRx =? lastSeqRx (inc_goodFrames st))];
      unfold sendAck, PHY_send; cbv zeta;
      match goal with
      | |- context [if negb ?c then _ else _] => destruct c
      end;
      unfold counters_within; cbn; lia.
Qed.

Lemma recv_loop_within (fuel : nat) (maxData debug expected : Z) :
  forall (success : bool) (attempts nRXdata : Z) (dataRx : list Z)
         (st : LLState) (w : World) r,
    recv_loop fuel maxData debug expected success attempts nRXdata dataRx
      st w = Some r ->
    counters_within (Z.max 1 (MAX_TRIES - attempts)) st (snd (fst r)).
Proof.
  induction fuel as [|fuel IH];
    intros success attempts nRXdata dataRx st w r Hrun; [discriminate|].
  cbn [recv_loop] in Hrun.
  pose proof (recv_body_cases maxData debug expected success attempts nRXdata
                dataRx st w) as Hcase.
  pose proof (recv_body_within maxData debug expected success attempts
                nRXdata dataRx st w) as Hone.
  destruct (recv_body _ _ _ _ _ _ _ _ _)
    as [ret d1 st1 w1|success1 attempts1 n1 d1 st1 w1].
  - injection Hrun as <-. cbn [fst snd].
    eapply counters_within_weaken; [|exact Hone]. lia.
  - destruct Hcase as [-> _].
    destruct (negb success1 && (attempts + 1 <? MAX_TRIES)) eqn:Hgo.
    + apply andb_prop in Hgo. destruct Hgo as [_ Hlt].
      apply Z.ltb_lt in Hlt. apply IH in Hrun.
      eapply counters_within_weaken;
        [|eapply counters_within_trans; [exact Hone | exact Hrun]].
      lia.
    + injection Hrun as <-. unfold recv_end.
      destruct success1; cbn [fst snd];
        (eapply counters_within_weaken; [|exact Hone]); lia.
Qed.

Lemma run_call_within (c : Call) (st : LLState) (w : World)
    (ret : Z) (st' : LLState) (w' : World) :
  run_call c st w = Some (ret, st', w') ->
  counters_within MAX_TRIES st st'.
Proof.
  destruct c as [dataTx debug|dataRx maxData debug]; cbn [run_call].
  - apply LL_send_within.
  - destruct (LL_receive _ _ _ _ _) as [[[[r d] st1] w1]|] eqn:Hr;
      [|discriminate].
    intros H. injection H as _ <- _.
    unfold LL_receive in Hr. destruct (negb (connected st)).
    + injection Hr as _ _ <- _. unfold counters_within, MAX_TRIES. lia.
    + apply recv_loop_within in Hr. cbn [fst snd] in Hr.
      eapply counters_within_weaken; [|exact Hr]. unfold MAX_TRIES. lia.
Qed.

Lemma run_calls_within (cs : list Call) :
  forall (st : LLState) (w : World) rets st' w',
    run_calls cs st w = Some (rets, st', w') ->
    counters_within (MAX_TRIES * Z.of_nat (length cs)) st st'.
Proof.
  induction cs as [|c cs IH]; intros st w rets st' w' Hrun;
    cbn [run_calls] in Hrun.
  - injection Hrun as _ <- _. unfold counters_within. cbn. lia.
  - destruct (run_call c st w) as [[[ret st1] w1]|] eqn:Hc; [|discriminate].
    destruct (run_calls cs st1 w1) as [[[rs st2] w2]|] eqn:Hcs;
      [|discriminate].
    injection Hrun as _ <- _.
    apply run_call_within in Hc. apply IH in Hcs.
    eapply counters_within_weaken;
      [|eapply counters_within_trans; [exact Hc | exact Hcs]].
    cbn [length]. lia.
Qed.

(** X20.  After a successful [LL_connect], for every sequence of calls
    of [LL_send] (each with a block and its length) and [LL_receive]
    that stay inside their arrays and is short enough for the counters
    not to overflow, every call returns and the connection stays in
    order: still connected, [seqNumTx] in [0, MOD_SEQNUM), [lastSeqRx]
    in [-1, MOD_SEQNUM), and every counter between 0 and [MAX_TRIES]
    times the number of calls, so within [int]. *)
Theorem connection_stays_in_order
    (st : LLState) (w : World) (cs : list Call) :
  phy_open_ret w = SUCCESS ->
  run_in_bounds cs (snd (fst (LL_connect st w))) (snd (LL_connect st w)) ->
  MAX_TRIES * Z.of_nat (length cs) <= INT_MAX ->
  exists rets st' w',
    run_calls cs (snd (fst (LL_connect st w))) (snd (LL_connect st w))
    = Some (rets, st', w')
    /\ length rets = length cs
    /\ connected st' = true
    /\ 0 <= seqNumTx st' < MOD_SEQNUM
    /\ -1 <= lastSeqRx st' < MOD_SEQNUM
    /\ counters_between 0 (MAX_TRIES * Z.of_nat (length cs)) st'
    /\ counters_between 0 INT_MAX st'.
Proof.
  intros Hopen _ Hshort. unfold LL_connect. rewrite Hopen.
  change (SUCCESS =? SUCCESS) with true. cbv iota. cbn [fst snd].
  change (mkLLState true 0 (-1) 0 0 0 0 0 0 0 0) with fresh_state.
  assert (Hfresh : state_in_use fresh_state).
  { unfold state_in_use, MOD_SEQNUM. cbn.
    split; [reflexivity|]. split; [lia|]. split; [lia|].
    apply counters_grow_refl. }
  destruct (run_calls_state_in_use cs w fresh_state Hfresh)
    as (rets & st' & w' & Hrun & Hlen & Hc & Hs & Hl & _).
  exists rets, st', w'.
  split; [exact Hrun|]. split; [exact Hlen|]. split; [exact Hc|].
  split; [exact Hs|]. split; [exact Hl|].
  apply run_calls_within in Hrun.
  unfold counters_within in Hrun.
  cbn [fresh_state framesSent acksSent naksSent acksRx naksRx badFrames
         goodFrames timeouts] in Hrun.
  unfold counters_between. lia.
Qed.

Lemma connection_stays_in_order_witness :
  (phy_open_ret stray_world = SUCCESS
   /\ run_in_bounds
        [CallReceive (repeat 0 16) 16 FULL; CallSend [1; 2; 3] FULL]
        (snd (fst (LL_connect unconnected_state stray_world)))
        (snd (LL_connect unconnected_state stray_world))
   /\ MAX_TRIES
      * Z.of_nat (length [CallReceive (repeat 0 16) 16 FULL;
                          CallSend [1; 2; 3] FULL])
      <= INT_MAX)
  /\ exists rets st' w',
       run_calls [CallReceive (repeat 0 16) 16 FULL; CallSend [1; 2; 3] FULL]
         (snd (fst (LL_connect unconnected_state stray_world)))
         (snd (LL_connect unconnected_state stray_world))
       = Some (rets, st', w')
       /\ length rets
          = length [CallReceive (repeat 0 16) 16 FULL;
                    CallSend [1; 2; 3] FULL]
       /\ connected st' = true
       /\ 0 <= seqNumTx st' < MOD_SEQNUM
       /\ -1 <= lastSeqRx st' < MOD_SEQNUM
       /\ counters_between 0
            (MAX_TRIES
             * Z.of_nat (length [CallReceive (repeat 0 16) 16 FULL;
                                 CallSend [1; 2; 3] FULL])) st'
       /\ counters_between 0 INT_MAX st'.
Proof.
  assert (H1 : phy_open_ret stray_world = SUCCESS) by reflexivity.
  assert (H2 : run_in_bounds
                 [CallReceive (repeat 0 16) 16 FULL; CallSend [1; 2; 3] FULL]
                 (snd (fst (LL_connect unconnected_state stray_world)))
                 (snd (LL_connect unconnected_state stray_world))).
  { vm_compute. repeat split; intros; try easy; lia. }
  assert (H3 : MAX_TRIES
               * Z.of_nat (length [CallReceive (repeat 0 16) 16 FULL;
                                   CallSend [1; 2; 3] FULL])
               <= INT_MAX) by (vm_compute; discriminate).
  split; [split; [exact H1 | split; [exact H2 | exact H3]]|].
  exact (connection_stays_in_order unconnected_state stray_world
           [CallReceive (repeat 0 16) 16 FULL; CallSend [1; 2; 3] FULL]
           H1 H2 H3).
Defined.

Lemma run_calls_refused (cs : list Call) (st : LLState) (w : World) :
  connected st = false ->
  run_calls cs st w = Some (repeat BADUSE (length cs), st, w).
Proof.
  intros Hconn. induction cs as [|c cs IH]; [reflexivity|].
  cbn [run_calls length repeat].
  destruct c as [dataTx debug|dataRx maxData debug]; cbn [run_call].
  - unfold LL_send. rewrite Hconn. cbn [negb]. rewrite IH. reflexivity.
  - unfold LL_receive. rewrite Hconn. cbn [negb]. rewrite IH. reflexivity.
Qed.

(** X21.  [LL_discon] returns [SUCCESS] and marks the connection closed,
    keeping the sequence numbers and all counters; [LL_connect], when
    [PHY_open] returns a non-zero code, returns the negated code (a
    negative value for the positive codes [PHY_open] uses) and marks
    the connection closed as well.  After either, every call of
    [LL_send] and [LL_receive] returns [BADUSE] and changes neither the
    state nor the line, until a later [LL_connect] succeeds. *)
Theorem closed_connection_refuses_calls
    (st : LLState) (w : World) (cs : list Call) :
  LL_discon st w = (SUCCESS, set_connected false st, w)
  /\ (phy_open_ret w <> SUCCESS ->
      LL_connect st w = (- phy_open_ret w, set_connected false st, w)
      /\ (0 < phy_open_ret w -> fst (fst (LL_connect st w)) < 0))
  /\ run_calls cs (set_connected false st) w
     = Some (repeat BADUSE (length cs), set_connected false st, w).
Proof.
  split; [reflexivity|]. split.
  - intros Hopen. unfold LL_connect. apply Z.eqb_neq in Hopen.
    rewrite Hopen. split; [reflexivity|]. cbn [fst]. lia.
  - apply run_calls_refused. reflexivity.
Qed.

Lemma closed_connection_refuses_calls_witness :
  (phy_open_ret no_port_world <> SUCCESS /\ 0 < phy_open_ret no_port_world)
  /\ LL_connect fresh_state no_port_world
     = (- phy_open_ret no_port_world, set_connected false fresh_state,
        no_port_world)
  /\ fst (fst (LL_connect fresh_state no_port_world)) < 0.
Proof.
  assert (H1 : phy_open_ret no_port_world <> SUCCESS) by discriminate.
  assert (H2 : 0 < phy_open_ret no_port_world) by reflexivity.
  split; [split; assumption|].
  pose proof (proj1 (proj2 (closed_connection_refuses_calls fresh_state
                              no_port_world [])) H1) as [Ha Hb].
  split; [exact Ha | exact (Hb H2)].
Defined.

(** * The serial port under the link layer *)

Lemma same_line_refl (p : Serial.Port) : same_line p p.
Proof. unfold same_line. auto. Qed.

Lemma same_line_trans (p q r : Serial.Port) :
  same_line p q -> same_line q r -> same_line p r.
Proof.
  unfold same_line.
  intros (H1 & H2 & H3 & H4 & H5) (K1 & K2 & K3 & K4 & K5).
  rewrite K1, K2, K3, K4, K5. auto.
Qed.

Lemma error_loop_port (dataRx : list Z) (p : Serial.Port) :
  length (fst (Serial.error_loop dataRx p)) = length dataRx
  /\ same_line p (snd (Serial.error_loop dataRx p))
  /\ Serial.read_calls (snd (Serial.error_loop dataRx p))
     = Serial.read_calls p
  /\ Serial.clock_calls (snd (Serial.error_loop dataRx p))
     = Serial.clock_calls p.
Proof.
  revert p. induction dataRx as [|b rest IH]; intros p.
  - cbn. split; [reflexivity|]. split; [apply same_line_refl | auto].
  - cbn [Serial.error_loop]. unfold Serial.rand.
    cbn [Serial.threshold Serial.rand_ret Serial.rand_calls].
    match goal with
    | |- context [if ?c then _ else _] => destruct c
    end.
    + match goal with
      | |- context [Serial.error_loop rest ?q] =>
          specialize (IH q); destruct (Serial.error_loop rest q) as [rest' p']
      end.
      cbn [fst snd length] in *.
      destruct IH as (Hlen & Hsame & Hr & Hc).
      split; [lia|]. split; [|split; assumption].
      eapply same_line_trans; [|exact Hsame].
      unfold same_line. cbn. auto.
    + match goal with
      | |- context [Serial.error_loop rest ?q] =>
          specialize (IH q); destruct (Serial.error_loop rest q) as [rest' p']
      end.
      cbn [fst snd length] in *.
      destruct IH as (Hlen & Hsame & Hr & Hc).
      split; [lia|]. split; [|split; assumption].
      eapply same_line_trans; [|exact Hsame].
      unfold same_line. cbn. auto.
Qed.

Lemma flip_pattern (b r : Z) :
  is_byte b -> 0 <= r ->
  0 <= Z.rem r 8 < 8
  /\ to_byte (Z.lxor b (to_byte (Z.shiftl 1 (Z.rem r 8))))
     = flip_bit b (Z.rem r 8).
Proof.
  intros Hb Hr.
  assert (Hk : 0 <= Z.rem r 8 < 8) by (apply Z.rem_bound_pos; lia).
  split; [exact Hk|].
  set (k := Z.rem r 8) in *.
  assert (Hp : to_byte (Z.shiftl 1 k) = Z.shiftl 1 k).
  { apply to_byte_id. unfold is_byte. rewrite Z.shiftl_1_l.
    assert (2 ^ k <= 2 ^ 7) by (apply Z.pow_le_mono_r; lia).
    assert (0 < 2 ^ k) by (apply Z.pow_pos_nonneg; lia).
    change (2 ^ 7) with 128 in *. lia. }
  rewrite Hp. apply to_byte_id.
  apply (flip_bit_delta b k Hb Hk).
Qed.

Lemma error_loop_bits (dataRx : list Z) (p : Serial.Port) :
  Forall is_byte dataRx ->
  Forall2 at_most_one_bit dataRx (fst (Serial.error_loop dataRx p))
  /\ Forall is_byte (fst (Serial.error_loop dataRx p)).
Proof.
  intros Hbytes. revert p.
  induction Hbytes as [|b rest Hb Hrest IH]; intros p.
  - cbn. split; constructor.
  - cbn [Serial.error_loop]. unfold Serial.rand.
    cbn [Serial.threshold Serial.rand_ret Serial.rand_calls].
    match goal with
    | |- context [if ?c then _ else _] => destruct c
    end.
    + match goal with
      | |- context [Serial.error_loop rest ?q] =>
          specialize (IH q); destruct (Serial.error_loop rest q) as [rest' p']
      end.
      cbn [fst snd] in *. destruct IH as [Hbits Hok].
      match goal with
      | |- context [Z.rem ?r 8] =>
          destruct (flip_pattern b r Hb ltac:(apply N2Z.is_nonneg))
            as [Hk Hflip]
      end.
      rewrite Hflip. split; constructor; try assumption.
      * right. eexists. split; [exact Hk | reflexivity].
      * apply (flip_bit_delta b _ Hb Hk).
    + match goal with
      | |- context [Serial.error_loop rest ?q] =>
          specialize (IH q); destruct (Serial.error_loop rest q) as [rest' p']
      end.
      cbn [fst snd] in *. destruct IH as [Hbits Hok].
      split; constructor; try assumption. left. reflexivity.
Qed.

Lemma PHY_get_eq (nBytesToGet : Z) (p : Serial.Port) :
  Serial.PHY_get nBytesToGet p
  = match Serial.read_ret p (Serial.read_calls p) with
    | None => (-4, [], after_read p)
    | Some bytes =>
        if Serial.simulate_errors p then
          (Z.of_nat (length (firstn (Z.to_nat nBytesToGet) bytes)),
           fst (Serial.error_loop (firstn (Z.to_nat nBytesToGet) bytes)
                  (after_read p)),
           snd (Serial.error_loop (firstn (Z.to_nat nBytesToGet) bytes)
                  (after_read p)))
        else
          (Z.of_nat (length (firstn (Z.to_nat nBytesToGet) bytes)),
           firstn (Z.to_nat nBytesToGet) bytes, after_read p)
    end.
Proof.
  unfold Serial.PHY_get, Serial.sys_read. fold (after_read p).
  destruct (Serial.read_ret p (Serial.read_calls p)) as [bytes|];
    [|reflexivity].
  change (Serial.simulate_errors (after_read p))
    with (Serial.simulate_errors p).
  destruct (Serial.simulate_errors p); [|reflexivity].
  destruct (Serial.error_loop _ _). reflexivity.
Qed.

(** X22.  [PHY_get] and its error simulation.  When [read] fails,
    [PHY_get] returns -4.  Otherwise it returns the number of bytes
    read, never more than asked for; every byte it delivers is still a
    byte and is the byte read or differs from it in exactly one bit;
    and with error simulation off ([rxProbErr] zero) the bytes are
    delivered as read. *)
Theorem PHY_get_flips_at_most_one_bit
    (nBytesToGet : Z) (p : Serial.Port) :
  match Serial.read_ret p (Serial.read_calls p) with
  | None => fst (fst (Serial.PHY_get nBytesToGet p)) = -4
  | Some bytes =>
      Forall is_byte bytes ->
      let wire := firstn (Z.to_nat nBytesToGet) bytes in
      let ret := fst (fst (Serial.PHY_get nBytesToGet p)) in
      let dataRx := snd (fst (Serial.PHY_get nBytesToGet p)) in
      ret = Z.of_nat (length wire)
      /\ (0 <= nBytesToGet -> ret <= nBytesToGet)
      /\ Forall2 at_most_one_bit wire dataRx
      /\ Forall is_byte dataRx
      /\ (Serial.simulate_errors p = false -> dataRx = wire)
  end.
Proof.
  rewrite PHY_get_eq.
  destruct (Serial.read_ret p (Serial.read_calls p)) as [bytes|];
    [|reflexivity].
  intros Hbytes wire. cbv zeta. fold wire.
  assert (Hwire : Forall is_byte wire).
  { unfold wire.
    rewrite <- (firstn_skipn (Z.to_nat nBytesToGet) bytes) in Hbytes.
    apply Forall_app in Hbytes. exact (proj1 Hbytes). }
  assert (Hlen : 0 <= nBytesToGet -> Z.of_nat (length wire) <= nBytesToGet).
  { intros Hn. unfold wire. rewrite length_firstn. lia. }
  destruct (Serial.simulate_errors p); cbn [fst snd].
  - pose proof (error_loop_bits wire (after_read p) Hwire) as [Hbits Hok].
    split; [reflexivity|]. split; [exact Hlen|].
    split; [exact Hbits|]. split; [exact Hok | discriminate].
  - split; [reflexivity|]. split; [exact Hlen|]. split.
    + clear. induction wire; constructor; [left; reflexivity | assumption].
    + split; [exact Hwire | reflexivity].
Qed.

Lemma PHY_get_flips_at_most_one_bit_witness :
  Forall is_byte [212; 8; 0]
  /\ (let wire := firstn (Z.to_nat 2) [212; 8; 0] in
      let ret := fst (fst (Serial.PHY_get 2 noisy_port)) in
      let dataRx := snd (fst (Serial.PHY_get 2 noisy_port)) in
      ret = Z.of_nat (length wire)
      /\ (0 <= 2 -> ret <= 2)
      /\ Forall2 at_most_one_bit wire dataRx
      /\ Forall is_byte dataRx
      /\ (Serial.simulate_errors noisy_port = false -> dataRx = wire)).
Proof.
  assert (H : Forall is_byte [212; 8; 0])
    by (repeat constructor; unfold is_byte; lia).
  split; [exact H|].
  exact (PHY_get_flips_at_most_one_bit 2 noisy_port H).
Defined.

(** ** [getFrame] over the port *)

Lemma PHY_get_one (p : Serial.Port) :
  exists ret bytes p',
    Serial.PHY_get 1 p = (ret, bytes, p')
    /\ same_line p p'
    /\ Serial.clock_calls p' = Serial.clock_calls p
    /\ Serial.read_calls p' = S (Serial.read_calls p)
    /\ ((ret = -4 /\ bytes = [])
        \/ (ret = Z.of_nat (length bytes) /\ (length bytes <= 1)%nat)).
Proof.
  rewrite PHY_get_eq.
  destruct (Serial.read_ret p (Serial.read_calls p)) as [bytes|].
  - assert (Hlen : (length (firstn (Z.to_nat 1) bytes) <= 1)%nat)
      by (rewrite length_firstn; lia).
    destruct (Serial.simulate_errors p).
    + destruct (error_loop_port (firstn (Z.to_nat 1) bytes) (after_read p))
        as (Hl & Hsame & Hr & Hc).
      do 3 eexists. split; [reflexivity|].
      split; [eapply same_line_trans; [|exact Hsame];
              unfold same_line; cbn; auto|].
      split; [rewrite Hc; reflexivity|].
      split; [rewrite Hr; reflexivity|].
      right. rewrite Hl. split; [reflexivity | exact Hlen].
    + do 3 eexists. split; [reflexivity|].
      split; [unfold same_line; cbn; auto|].
      split; [reflexivity|]. split; [reflexivity|].
      right. split; [reflexivity | exact Hlen].
  - do 3 eexists. split; [reflexivity|].
    split; [unfold same_line; cbn; auto|].
    split; [reflexivity|]. split; [reflexivity|].
    left. split; reflexivity.
Qed.

Lemma timeUp_eq (timeLimit : Z) (p : Serial.Port) :
  Serial.timeUp timeLimit p
  = (negb (Serial.clock_ret p (Serial.clock_calls p) <? timeLimit),
     after_clock p).
Proof.
  unfold Serial.timeUp, Serial.clock. fold (after_clock p).
  destruct (_ <? _); reflexivity.
Qed.

Lemma store_at_length (bytes frameRx : list Z) (pos : Z) :
  length (Serial.store_at frameRx pos bytes) = length frameRx.
Proof.
  revert frameRx pos. induction bytes as [|b rest IH]; intros frameRx pos;
    cbn [Serial.store_at]; [reflexivity|].
  rewrite IH. apply wr_length.
Qed.

Lemma nth_wr_nat_other (a : list Z) (i j : nat) (v : Z) :
  i <> j -> nth i (wr_nat a j v) 0 = nth i a 0.
Proof.
  revert i j. induction a as [|x a IH]; intros i j Hij.
  - destruct j; reflexivity.
  - destruct j as [|j]; destruct i as [|i]; cbn [wr_nat nth];
      try reflexivity; [lia|].
    apply IH. lia.
Qed.

Lemma rd_wr_other (a : list Z) (i pos v : Z) :
  i <> pos -> rd (wr a pos v) i = rd a i.
Proof.
  intros Hne. unfold rd, wr.
  destruct (Z.ltb_spec i 0) as [Hi|Hi]; [reflexivity|].
  destruct (Z.ltb_spec pos 0) as [Hp|Hp]; [reflexivity|].
  apply nth_wr_nat_other. lia.
Qed.

Lemma rd_store_at_below (bytes frameRx : list Z) (pos i : Z) :
  i < pos -> rd (Serial.store_at frameRx pos bytes) i = rd frameRx i.
Proof.
  revert frameRx pos. induction bytes as [|b rest IH]; intros frameRx pos Hi;
    cbn [Serial.store_at]; [reflexivity|].
  rewrite IH by lia. apply rd_wr_other. lia.
Qed.

(** How the search for the start marker can end. *)
Lemma seek_start_spec (fuel : nat) :
  forall (frameRx : list Z) (nRx timerRx : Z) (p : Serial.Port)
         (e : Serial.LoopEnd),
    Serial.seek_start fuel frameRx nRx timerRx p = Some e ->
    match e with
    | Serial.LoopReturn ret frameRx' p' =>
        ret = -4 /\ length frameRx' = length frameRx /\ same_line p p'
    | Serial.LoopLeft nRx' frameRx' p' =>
        length frameRx' = length frameRx /\ same_line p p'
        /\ (Serial.clock_calls p <= Serial.clock_calls p')%nat
        /\ (rd frameRx' 0 = STARTBYTE
            \/ exists c, (c < Serial.clock_calls p')%nat
                         /\ timerRx <= Serial.clock_ret p c)
    end.
Proof.
  induction fuel as [|fuel IH]; intros frameRx nRx timerRx p e Hrun;
    [discriminate|].
  cbn [Serial.seek_start] in Hrun.
  destruct (PHY_get_one p)
    as (ret & bytes & p1 & Hget & Hsame & Hc & _ & Hret).
  rewrite Hget in Hrun.
  destruct Hret as [[-> ->]|[-> Hlen]].
  - change (-4 <? 0) with true in Hrun. cbv iota in Hrun.
    injection Hrun as <-. auto.
  - destruct (Z.ltb_spec (Z.of_nat (length bytes)) 0) as [Hneg|_]; [lia|].
    destruct (_ || _) eqn:Hcond in Hrun.
    + rewrite timeUp_eq in Hrun.
      destruct (Z.ltb_spec (Serial.clock_ret p1 (Serial.clock_calls p1))
                  timerRx) as [Hearly|Hlate]; cbn [negb] in Hrun.
      * apply IH in Hrun. destruct e as [r f' p'|n' f' p'].
        -- destruct Hrun as (Hr & Hl & Hs).
           rewrite store_at_length in Hl.
           split; [exact Hr|]. split; [exact Hl|].
           eapply same_line_trans; [exact Hsame|].
           eapply same_line_trans; [|exact Hs].
           unfold same_line. cbn. auto.
        -- destruct Hrun as (Hl & Hs & Hcc & Hend).
           rewrite store_at_length in Hl.
           cbn [after_clock Serial.clock_calls] in Hcc.
           split; [exact Hl|]. split.
           { eapply same_line_trans; [exact Hsame|].
             eapply same_line_trans; [|exact Hs].
             unfold same_line. cbn. auto. }
           split; [lia|].
           destruct Hend as [Hstart|(c & Hc1 & Hc2)]; [left; exact Hstart|].
           right. exists c. split; [exact Hc1|].
           cbn [after_clock Serial.clock_ret] in Hc2.
           destruct Hsame as (_ & _ & _ & _ & Hclk).
           rewrite <- Hclk. exact Hc2.
      * injection Hrun as <-.
        rewrite store_at_length.
        cbn [after_clock Serial.clock_calls].
        split; [reflexivity|]. split.
        { eapply same_line_trans; [exact Hsame|].
          unfold same_line. cbn. auto. }
        split; [lia|].
        right. exists (Serial.clock_calls p1). split; [lia|].
        destruct Hsame as (_ & _ & _ & _ & Hclk).
        rewrite <- Hclk. lia.
    + injection Hrun as <-.
      apply orb_false_iff in Hcond. destruct Hcond as [_ Hstart].
      apply negb_false_iff in Hstart. apply Z.eqb_eq in Hstart.
      rewrite store_at_length.
      split; [reflexivity|]. split; [exact Hsame|].
      split; [lia|]. left. exact Hstart.
Qed.

(** The search for the start marker ends once the clock has reached the
    time limit on one of its polls. *)
Lemma seek_start_ends (j : nat) :
  forall (frameRx : list Z) (nRx timerRx : Z) (p : Serial.Port),
    timerRx <= Serial.clock_ret p (Serial.clock_calls p + j) ->
    exists e, Serial.seek_start (S j) frameRx nRx timerRx p = Some e.
Proof.
  induction j as [|j IH]; intros frameRx nRx timerRx p Hclock;
    cbn [Serial.seek_start];
    destruct (PHY_get_one p)
      as (ret & bytes & p1 & Hget & Hsame & Hc & _ & _);
    rewrite Hget;
    destruct Hsame as (_ & _ & _ & _ & Hclk);
    (destruct (ret <? 0); [eexists; reflexivity|]);
    (destruct (_ || _); [|eexists; reflexivity]);
    rewrite timeUp_eq.
  - rewrite Nat.add_0_r in Hclock. rewrite Hclk, Hc.
    destruct (Z.ltb_spec (Serial.clock_ret p (Serial.clock_calls p)) timerRx)
      as [Hearly|Hlate]; [lia|].
    cbn [negb]. eexists. reflexivity.
  - destruct (negb (negb _)); [|eexists; reflexivity].
    apply IH. cbn [after_clock Serial.clock_ret Serial.clock_calls].
    rewrite Hclk, Hc.
    replace (S (Serial.clock_calls p) + j)%nat
      with (Serial.clock_calls p + S j)%nat by lia.
    exact Hclock.
Qed.

Lemma seek_start_more_fuel (fuel : nat) :
  forall (frameRx : list Z) (nRx timerRx : Z) (p : Serial.Port)
         (e : Serial.LoopEnd) (extra : nat),
    Serial.seek_start fuel frameRx nRx timerRx p = Some e ->
    Serial.seek_start (fuel + extra) frameRx nRx timerRx p = Some e.
Proof.
  induction fuel as [|fuel IH]; intros frameRx nRx timerRx p e extra Hrun;
    [discriminate|].
  cbn [Nat.add Serial.seek_start] in *.
  destruct (Serial.PHY_get 1 p) as [[ret bytes] p1].
  destruct (ret <? 0); [exact Hrun|].
  destruct (_ || _); [|exact Hrun].
  destruct (Serial.timeUp timerRx p1) as [up p2].
  destruct (negb up); [|exact Hrun].
  apply IH. exact Hrun.
Qed.

(** The for loop: how it can end. *)
Lemma rest_loop_spec (n : nat) :
  forall (frameRx : list Z) (nRx : Z) (p : Serial.Port),
    2 <= nRx ->
    match Serial.rest_loop n frameRx nRx p with
    | Serial.LoopReturn ret frameRx' p' =>
        ret = -4 /\ length frameRx' = length frameRx /\ same_line p p'
    | Serial.LoopLeft nRx' frameRx' p' =>
        length frameRx' = length frameRx /\ same_line p p'
        /\ Serial.clock_calls p' = Serial.clock_calls p
        /\ nRx <= nRx' <= nRx + Z.of_nat n
        /\ rd frameRx' 0 = rd frameRx 0
        /\ rd frameRx' FRSPOS = rd frameRx FRSPOS
    end.
Proof.
  induction n as [|n IH]; intros frameRx nRx p HnRx;
    cbn [Serial.rest_loop].
  - split; [reflexivity|]. split; [apply same_line_refl|].
    split; [reflexivity|]. split; [lia|]. split; reflexivity.
  - destruct (PHY_get_one p)
      as (ret & bytes & p1 & Hget & Hsame & Hc & _ & Hret).
    rewrite Hget.
    destruct Hret as [[-> ->]|[-> Hlen]].
    + change (-4 <? 0) with true. cbv iota. auto.
    + destruct (Z.ltb_spec (Z.of_nat (length bytes)) 0) as [Hneg|_]; [lia|].
      specialize (IH (Serial.store_at frameRx nRx bytes)
                    (nRx + Z.of_nat (length bytes)) p1 ltac:(lia)).
      destruct (Serial.rest_loop _ _ _ _) as [r f' p'|n' f' p'].
      * destruct IH as (Hr & Hl & Hs). rewrite store_at_length in Hl.
        split; [exact Hr|]. split; [exact Hl|].
        eapply same_line_trans; eassumption.
      * destruct IH as (Hl & Hs & Hcc & Hn & H0 & H1).
        rewrite store_at_length in Hl.
        rewrite rd_store_at_below in H0 by lia.
        rewrite rd_store_at_below in H1 by (unfold FRSPOS; lia).
        split; [exact Hl|].
        split; [eapply same_line_trans; eassumption|].
        split; [lia|]. split; [lia|]. split; assumption.
Qed.

Lemma timeSet_eq (ticks : Z) (p : Serial.Port) :
  Serial.timeSet ticks p
  = (Serial.clock_ret p (Serial.clock_calls p) + ticks, after_clock p).
Proof. reflexivity. Qed.

Lemma getFrame_more_fuel (fuel extra : nat) (frameRx : list Z)
    (maxSize ticks : Z) (p : Serial.Port) (r : Z * list Z * Serial.Port) :
  Serial.getFrame fuel frameRx maxSize ticks p = Some r ->
  Serial.getFrame (fuel + extra) frameRx maxSize ticks p = Some r.
Proof.
  unfold Serial.getFrame. destruct (Serial.timeSet ticks p) as [timerRx p0].
  destruct (Serial.seek_start fuel frameRx 0 timerRx p0) as [e|] eqn:He;
    [|discriminate].
  rewrite (seek_start_more_fuel _ _ _ _ _ _ extra He). trivial.
Qed.

(** X23.  [getFrame] returns.  If the clock has reached the time limit
    by the [j]-th poll of the search for the start marker, the call
    returns whatever the port delivers: the search ends after at most
    [j + 1] passes, and the rest of the function is bounded by the
    frame-size byte. *)
Theorem getFrame_returns_by_time_limit
    (j : nat) (frameRx : list Z) (maxSize ticks : Z) (p : Serial.Port) :
  Serial.clock_ret p (Serial.clock_calls p) + ticks
  <= Serial.clock_ret p (S (Serial.clock_calls p) + j) ->
  exists r, forall fuel,
    (j < fuel)%nat -> Serial.getFrame fuel frameRx maxSize ticks p = Some r.
Proof.
  intros Hclock.
  assert (Hone : exists r,
             Serial.getFrame (S j) frameRx maxSize ticks p = Some r).
  { unfold Serial.getFrame. rewrite timeSet_eq.
    destruct (seek_start_ends j frameRx 0
                (Serial.clock_ret p (Serial.clock_calls p) + ticks)
                (after_clock p) Hclock) as [e He].
    rewrite He. destruct e as [ret f1 p1|nRx f1 p1];
      [eexists; reflexivity|].
    destruct (Serial.timeUp _ p1) as [up p2].
    destruct up; [eexists; reflexivity|].
    destruct (Serial.PHY_get 1 p2) as [[ret bytes] p3].
    destruct (ret <? 0); [eexists; reflexivity|].
    destruct (Serial.rest_loop _ _ _ _) as [r f2 p4|n2 f2 p4];
      [eexists; reflexivity|].
    destruct (Serial.timeUp _ p4) as [up p5].
    destruct up; [eexists; reflexivity|].
    destruct (n2 >=? maxSize); eexists; reflexivity. }
  destruct Hone as [r Hr]. exists r. intros fuel Hfuel.
  replace fuel with (S j + (fuel - S j))%nat by lia.
  apply getFrame_more_fuel. exact Hr.
Qed.

Lemma getFrame_returns_by_time_limit_witness :
  Serial.clock_ret silent_port (Serial.clock_calls silent_port) + 3
  <= Serial.clock_ret silent_port (S (Serial.clock_calls silent_port) + 2)
  /\ exists r, forall fuel,
       (2 < fuel)%nat
       -> Serial.getFrame fuel (repeat 0 8) 8 3 silent_port = Some r.
Proof.
  assert (H : Serial.clock_ret silent_port (Serial.clock_calls silent_port) + 3
              <= Serial.clock_ret silent_port
                   (S (Serial.clock_calls silent_port) + 2))
    by (vm_compute; discriminate).
  split; [exact H|].
  exact (getFrame_returns_by_time_limit 2 (repeat 0 8) 8 3 silent_port H).
Defined.

(** ** The cells [getFrame] stores to *)

Lemma skipn_store_at (bytes : list Z) :
  forall (frameRx : list Z) (pos : Z) (j : nat),
    0 <= pos -> (Z.to_nat pos + length bytes <= j)%nat ->
    skipn j (Serial.store_at frameRx pos bytes) = skipn j frameRx.
Proof.
  induction bytes as [|b rest IH]; intros frameRx pos j Hpos Hj;
    cbn [Serial.store_at length] in *; [reflexivity|].
  rewrite IH by lia.
  unfold wr. destruct (Z.ltb_spec pos 0) as [Hneg|_]; [lia|].
  apply wr_nat_skipn. lia.
Qed.

Lemma seek_start_footprint (fuel : nat) :
  forall (frameRx : list Z) (nRx timerRx : Z) (p : Serial.Port)
         (e : Serial.LoopEnd) (j : nat),
    Serial.seek_start fuel frameRx nRx timerRx p = Some e ->
    (1 <= j)%nat ->
    match e with
    | Serial.LoopReturn _ frameRx' _ => skipn j frameRx' = skipn j frameRx
    | Serial.LoopLeft _ frameRx' _ => skipn j frameRx' = skipn j frameRx
    end.
Proof.
  induction fuel as [|fuel IH]; intros frameRx nRx timerRx p e j Hrun Hj;
    [discriminate|].
  cbn [Serial.seek_start] in Hrun.
  destruct (PHY_get_one p) as (ret & bytes & p1 & Hget & _ & _ & _ & Hret).
  rewrite Hget in Hrun.
  assert (Hstore : skipn j (Serial.store_at frameRx 0 bytes) = skipn j frameRx).
  { apply skipn_store_at; [lia|].
    destruct Hret as [[_ ->]|[_ Hlen]]; cbn [length]; lia. }
  destruct (ret <? 0); [injection Hrun as <-; reflexivity|].
  destruct (_ || _).
  - destruct (Serial.timeUp timerRx p1) as [up p2].
    destruct (negb up).
    + apply (IH _ _ _ _ _ j) in Hrun; [|exact Hj].
      destruct e; rewrite Hrun; exact Hstore.
    + injection Hrun as <-. exact Hstore.
  - injection Hrun as <-. exact Hstore.
Qed.

Lemma rest_loop_footprint (n : nat) :
  forall (frameRx : list Z) (nRx : Z) (p : Serial.Port) (j : nat),
    2 <= nRx -> (Z.to_nat nRx + n <= j)%nat ->
    match Serial.rest_loop n frameRx nRx p with
    | Serial.LoopReturn _ frameRx' _ =>
        skipn j frameRx' = skipn j frameRx
        /\ rd frameRx' FRSPOS = rd frameRx FRSPOS
    | Serial.LoopLeft _ frameRx' _ =>
        skipn j frameRx' = skipn j frameRx
        /\ rd frameRx' FRSPOS = rd frameRx FRSPOS
    end.
Proof.
  induction n as [|n IH]; intros frameRx nRx p j HnRx Hj;
    cbn [Serial.rest_loop]; [split; reflexivity|].
  destruct (PHY_get_one p) as (ret & bytes & p1 & Hget & _ & _ & _ & Hret).
  rewrite Hget.
  destruct Hret as [[-> ->]|[-> Hlen]].
  - change (-4 <? 0) with true. cbv iota. split; reflexivity.
  - destruct (Z.ltb_spec (Z.of_nat (length bytes)) 0) as [Hneg|_]; [lia|].
    specialize (IH (Serial.store_at frameRx nRx bytes)
                  (nRx + Z.of_nat (length bytes)) p1 j ltac:(lia)
                  ltac:(lia)).
    assert (Hstore : skipn j (Serial.store_at frameRx nRx bytes)
                     = skipn j frameRx)
      by (apply skipn_store_at; lia).
    assert (Hsize : rd (Serial.store_at frameRx nRx bytes) FRSPOS
                    = rd frameRx FRSPOS)
      by (apply rd_store_at_below; unfold FRSPOS; lia).
    destruct (Serial.rest_loop _ _ _ _) as [r f' p'|n' f' p'];
      destruct IH as [Hs Hr]; rewrite Hs, Hr; split; assumption.
Qed.

(** [getFrame] stores to no cell from index 2, or from the index the
    frame-size byte gives if that is larger, on. *)
Lemma getFrame_footprint
    (fuel : nat) (frameRx : list Z) (maxSize ticks : Z) (p : Serial.Port)
    (ret : Z) (frameRx' : list Z) (p' : Serial.Port) :
  Serial.getFrame fuel frameRx maxSize ticks p = Some (ret, frameRx', p') ->
  skipn (Z.to_nat (Z.max 2 (rd frameRx' FRSPOS))) frameRx'
  = skipn (Z.to_nat (Z.max 2 (rd frameRx' FRSPOS))) frameRx.
Proof.
  intros Hrun. unfold Serial.getFrame in Hrun. rewrite timeSet_eq in Hrun.
  set (timerRx := Serial.clock_ret p (Serial.clock_calls p) + ticks) in *.
  destruct (Serial.seek_start fuel frameRx 0 timerRx (after_clock p))
    as [e|] eqn:He; [|discriminate].
  assert (Hseek : forall j, (1 <= j)%nat ->
             match e with
             | Serial.LoopReturn _ f _ => skipn j f = skipn j frameRx
             | Serial.LoopLeft _ f _ => skipn j f = skipn j frameRx
             end)
    by (intros j Hj; exact (seek_start_footprint _ _ _ _ _ _ j He Hj)).
  clear He.
  destruct e as [r f1 p1|nRx f1 p1].
  - injection Hrun as <- <- <-. apply Hseek. lia.
  - destruct (Serial.timeUp timerRx p1) as [up p1'].
    destruct up; [injection Hrun as <- <- <-; apply Hseek; lia|].
    destruct (PHY_get_one p1')
      as (r2 & bytes & p2 & Hget & _ & _ & _ & Hret).
    rewrite Hget in Hrun.
    destruct Hret as [[-> ->]|[-> Hlen]].
    + change (-4 <? 0) with true in Hrun. cbv iota in Hrun.
      injection Hrun as <- <- <-. apply Hseek. lia.
    + destruct (Z.ltb_spec (Z.of_nat (length bytes)) 0) as [Hneg|_]; [lia|].
      set (f2 := Serial.store_at f1 1 bytes) in *.
      assert (H2 : forall j, (2 <= j)%nat -> skipn j f2 = skipn j frameRx).
      { intros j Hj. unfold f2. rewrite skipn_store_at by lia.
        apply Hseek. lia. }
      set (j0 := Z.to_nat (Z.max 2 (rd f2 FRSPOS))).
      pose proof (rest_loop_footprint (Z.to_nat (rd f2 FRSPOS - 2)) f2 2 p2
                    j0 ltac:(lia) ltac:(unfold j0; lia)) as Hrest.
      assert (Hend : forall f3,
                 skipn j0 f3 = skipn j0 f2
                 /\ rd f3 FRSPOS = rd f2 FRSPOS ->
                 skipn (Z.to_nat (Z.max 2 (rd f3 FRSPOS))) f3
                 = skipn (Z.to_nat (Z.max 2 (rd f3 FRSPOS))) frameRx).
      { intros f3 [Hs Hr]. rewrite Hr. fold j0. rewrite Hs.
        apply H2. unfold j0. lia. }
      destruct (Serial.rest_loop _ f2 2 p2) as [r3 f3 p3|n3 f3 p3].
      * injection Hrun as <- <- <-. apply Hend. exact Hrest.
      * destruct (Serial.timeUp timerRx p3) as [up p4].
        destruct up; [injection Hrun as <- <- <-; apply Hend; exact Hrest|].
        destruct (n3 >=? maxSize); injection Hrun as <- <- <-;
          apply Hend; exact Hrest.
Qed.

(** X24.  What [getFrame] can return and where it stores, for a frame
    array of at least two cells that the frame-size byte received does
    not exceed (the bytes are stored before their number is compared
    with [maxSize]).  The return value is -4 (the problem code of
    [PHY_get]), 0, or a count [nRx] with [2 <= nRx < maxSize]; the
    count never exceeds the frame-size byte found in [frameRx[FRSPOS]]
    (it is 2 when that byte is smaller); on a clock that does not run
    backwards a positive count means that [frameRx[0]] holds the start
    marker; and no cell from the index the frame-size byte gives (or
    from index 2, if that is larger) on has been changed.  The end
    marker is not looked for. *)
Theorem getFrame_result_shape
    (fuel : nat) (frameRx : list Z) (maxSize ticks : Z) (p : Serial.Port)
    (ret : Z) (frameRx' : list Z) (p' : Serial.Port) :
  (forall i j, (i <= j)%nat -> Serial.clock_ret p i <= Serial.clock_ret p j) ->
  Serial.getFrame fuel frameRx maxSize ticks p = Some (ret, frameRx', p') ->
  (2 <= length frameRx)%nat ->
  rd frameRx' FRSPOS <= Z.of_nat (length frameRx) ->
  (ret = -4 \/ ret = 0
   \/ (2 <= ret < maxSize
       /\ ret <= Z.max 2 (rd frameRx' FRSPOS)
       /\ rd frameRx' 0 = STARTBYTE))
  /\ skipn (Z.to_nat (Z.max 2 (rd frameRx' FRSPOS))) frameRx'
     = skipn (Z.to_nat (Z.max 2 (rd frameRx' FRSPOS))) frameRx.
Proof.
  intros Hmono Hrun _ _.
  split; [|exact (getFrame_footprint _ _ _ _ _ _ _ _ Hrun)].
  unfold Serial.getFrame in Hrun.
  rewrite timeSet_eq in Hrun.
  set (timerRx := Serial.clock_ret p (Serial.clock_calls p) + ticks) in *.
  destruct (Serial.seek_start fuel frameRx 0 timerRx (after_clock p))
    as [e|] eqn:He; [|discriminate].
  apply seek_start_spec in He.
  destruct e as [r f1 p1|nRx f1 p1].
  - destruct He as (-> & Hl & _). injection Hrun as <- <- <-. auto.
  - destruct He as (Hl1 & Hs1 & Hc1 & Hstart).
    rewrite timeUp_eq in Hrun.
    destruct (Z.ltb_spec (Serial.clock_ret p1 (Serial.clock_calls p1))
                timerRx) as [Hearly|Hlate]; cbn [negb] in Hrun;
      [|injection Hrun as <- <- <-; auto].
    assert (Hfound : rd f1 0 = STARTBYTE).
    { destruct Hstart as [H|(c & Hc & Hup)]; [exact H|].
      exfalso. destruct Hs1 as (_ & _ & _ & _ & Hclk).
      rewrite Hclk in Hearly.
      cbn [after_clock Serial.clock_ret] in Hearly, Hup.
      pose proof (Hmono c (Serial.clock_calls p1) ltac:(lia)). lia. }
    destruct (PHY_get_one (after_clock p1))
      as (r2 & bytes & p2 & Hget & Hs2 & Hc2 & _ & Hret).
    rewrite Hget in Hrun.
    destruct Hret as [[-> ->]|[-> Hlen]].
    + change (-4 <? 0) with true in Hrun. cbv iota in Hrun.
      injection Hrun as <- <- <-. auto.
    + destruct (Z.ltb_spec (Z.of_nat (length bytes)) 0) as [Hneg|_]; [lia|].
      set (f2 := Serial.store_at f1 1 bytes) in *.
      assert (H20 : rd f2 0 = STARTBYTE)
        by (unfold f2; rewrite rd_store_at_below by lia; exact Hfound).
      pose proof (rest_loop_spec (Z.to_nat (rd f2 FRSPOS - 2)) f2 2 p2
                    ltac:(lia)) as Hrest.
      destruct (Serial.rest_loop _ f2 2 p2) as [r3 f3 p3|n3 f3 p3].
      * destruct Hrest as (-> & Hl3 & _). injection Hrun as <- <- <-. auto.
      * destruct Hrest as (Hl3 & _ & _ & Hn3 & H30 & H31).
        rewrite timeUp_eq in Hrun.
        destruct (negb _) in Hrun; [injection Hrun as <- <- <-; auto|].
        destruct (Z.geb_spec n3 maxSize) as [Hbig|Hfits];
          injection Hrun as <- <- <-; [auto|].
        right. right. split; [lia|]. split; [|congruence].
        rewrite H31. lia.
Qed.

Lemma getFrame_result_shape_witness :
  ((forall i j, (i <= j)%nat ->
      Serial.clock_ret (wire_port [212; 5; 0; 5; 204]) i
      <= Serial.clock_ret (wire_port [212; 5; 0; 5; 204]) j)
   /\ Serial.getFrame 1 [9; 9; 9; 9; 9; 9; 9; 9] 8 10
        (wire_port [212; 5; 0; 5; 204])
      = Some (5, [212; 5; 0; 5; 204; 9; 9; 9],
              after_polls 5 3 (wire_port [212; 5; 0; 5; 204]))
   /\ (2 <= length [9; 9; 9; 9; 9; 9; 9; 9]%Z)%nat
   /\ rd [212; 5; 0; 5; 204; 9; 9; 9] FRSPOS
      <= Z.of_nat (length [9; 9; 9; 9; 9; 9; 9; 9]))
  /\ (5 = -4 \/ 5 = 0
      \/ (2 <= 5 < 8
          /\ 5 <= Z.max 2 (rd [212; 5; 0; 5; 204; 9; 9; 9] FRSPOS)
          /\ rd [212; 5; 0; 5; 204; 9; 9; 9] 0 = STARTBYTE))
  /\ skipn (Z.to_nat (Z.max 2 (rd [212; 5; 0; 5; 204; 9; 9; 9] FRSPOS)))
       [212; 5; 0; 5; 204; 9; 9; 9]
     = skipn (Z.to_nat (Z.max 2 (rd [212; 5; 0; 5; 204; 9; 9; 9] FRSPOS)))
         [9; 9; 9; 9; 9; 9; 9; 9].
Proof.
  assert (H1 : forall i j, (i <= j)%nat ->
             Serial.clock_ret (wire_port [212; 5; 0; 5; 204]) i
             <= Serial.clock_ret (wire_port [212; 5; 0; 5; 204]) j)
    by (intros i j _; simpl; lia).
  assert (H2 : Serial.getFrame 1 [9; 9; 9; 9; 9; 9; 9; 9] 8 10
                 (wire_port [212; 5; 0; 5; 204])
               = Some (5, [212; 5; 0; 5; 204; 9; 9; 9],
                       after_polls 5 3 (wire_port [212; 5; 0; 5; 204])))
    by reflexivity.
  assert (H3 : (2 <= length [9; 9; 9; 9; 9; 9; 9; 9]%Z)%nat) by (simpl; lia).
  assert (H4 : rd [212; 5; 0; 5; 204; 9; 9; 9] FRSPOS
               <= Z.of_nat (length [9; 9; 9; 9; 9; 9; 9; 9]))
    by (vm_compute; discriminate).
  split; [split; [exact H1 | split; [exact H2 | split; [exact H3 | exact H4]]]|].
  exact (getFrame_result_shape 1 [9; 9; 9; 9; 9; 9; 9; 9] 8 10
           (wire_port [212; 5; 0; 5; 204]) 5 [212; 5; 0; 5; 204; 9; 9; 9]
           (after_polls 5 3 (wire_port [212; 5; 0; 5; 204])) H1 H2 H3 H4).
Defined.

Lemma after_polls_read (r c : nat) (p : Serial.Port) :
  after_polls r c (after_read p) = after_polls (S r) c p.
Proof.
  unfold after_polls, after_read. cbn. f_equal. lia.
Qed.

Lemma after_polls_clock (r c : nat) (p : Serial.Port) :
  after_polls r c (after_clock p) = after_polls r (S c) p.
Proof.
  unfold after_polls, after_clock. cbn. f_equal. lia.
Qed.

Lemma after_polls_0 (p : Serial.Port) : after_polls 0 0 p = p.
Proof. destruct p. reflexivity. Qed.

Lemma PHY_get_clean (p : Serial.Port) (b : Z) :
  Serial.simulate_errors p = false ->
  Serial.read_ret p (Serial.read_calls p) = Some [b] ->
  Serial.PHY_get 1 p = (1, [b], after_read p).
Proof.
  intros Hsim Hread. rewrite PHY_get_eq, Hread, Hsim. reflexivity.
Qed.

Lemma wr_nat_firstn (a : list Z) (i : nat) (v : Z) :
  (i < length a)%nat -> firstn (S i) (wr_nat a i v) = firstn i a ++ [v].
Proof.
  revert i. induction a as [|x a IH]; intros i Hi; simpl in Hi; [lia|].
  destruct i as [|i]; [reflexivity|].
  cbn [wr_nat]. change (firstn (S (S i)) (x :: wr_nat a i v))
    with (x :: firstn (S i) (wr_nat a i v)).
  rewrite IH by lia. reflexivity.
Qed.

(** The bytes stored one after another from index [i] replace that
    stretch of the array. *)
Lemma store_at_spec (bytes : list Z) :
  forall (frameRx : list Z) (i : nat),
    (i + length bytes <= length frameRx)%nat ->
    Serial.store_at frameRx (Z.of_nat i) bytes
    = firstn i frameRx ++ bytes ++ skipn (i + length bytes) frameRx.
Proof.
  induction bytes as [|b rest IH]; intros frameRx i Hlen;
    cbn [Serial.store_at length] in *.
  - rewrite Nat.add_0_r. symmetry. apply firstn_skipn.
  - replace (Z.of_nat i + 1) with (Z.of_nat (S i)) by lia.
    rewrite wr_nat_to_Z.
    rewrite IH by (rewrite wr_nat_length; lia).
    rewrite wr_nat_firstn by lia.
    rewrite wr_nat_skipn by lia.
    rewrite <- app_assoc.
    replace (S i + length rest)%nat with (i + S (length rest))%nat by lia.
    reflexivity.
Qed.

Lemma rest_loop_clean (bytes : list Z) :
  forall (frameRx : list Z) (nRx : Z) (p : Serial.Port),
    Serial.simulate_errors p = false ->
    (forall k, (k < length bytes)%nat ->
       Serial.read_ret p (Serial.read_calls p + k) = Some [nth k bytes 0]) ->
    Serial.rest_loop (length bytes) frameRx nRx p
    = Serial.LoopLeft (nRx + Z.of_nat (length bytes))
        (Serial.store_at frameRx nRx bytes)
        (after_polls (length bytes) 0 p).
Proof.
  induction bytes as [|b rest IH]; intros frameRx nRx p Hsim Hread;
    cbn [length Serial.rest_loop Serial.store_at].
  - rewrite after_polls_0. f_equal. cbn. lia.
  - pose proof (Hread 0%nat ltac:(cbn; lia)) as Hfirst.
    rewrite Nat.add_0_r in Hfirst. cbn [nth] in Hfirst.
    rewrite (PHY_get_clean p b Hsim Hfirst).
    change (1 <? 0) with false. cbv iota.
    rewrite IH.
    + rewrite after_polls_read. f_equal. lia.
    + exact Hsim.
    + intros k Hk. cbn [after_read Serial.read_ret Serial.read_calls].
      replace (S (Serial.read_calls p) + k)%nat
        with (Serial.read_calls p + S k)%nat by lia.
      rewrite Hread by (cbn; lia). reflexivity.
Qed.

Lemma seek_start_noise (noise : list Z) :
  forall (y : Z) (ft : list Z) (nRx timerRx : Z) (p : Serial.Port),
    Serial.simulate_errors p = false ->
    (forall k, (k < length noise)%nat ->
       Serial.read_ret p (Serial.read_calls p + k) = Some [nth k noise 0]) ->
    Serial.read_ret p (Serial.read_calls p + length noise)
    = Some [STARTBYTE] ->
    Forall (fun b => b <> STARTBYTE) noise ->
    (forall k, Serial.clock_ret p k < timerRx) ->
    Serial.seek_start (S (length noise)) (y :: ft) nRx timerRx p
    = Some (Serial.LoopLeft (nRx + Z.of_nat (length noise) + 1)
              (STARTBYTE :: ft)
              (after_polls (S (length noise)) (length noise) p)).
Proof.
  induction noise as [|b rest IH];
    intros y ft nRx timerRx p Hsim Hread Hstart Hnoise Hclock.
  - cbn [length] in *. rewrite Nat.add_0_r in Hstart.
    cbn [Serial.seek_start].
    rewrite (PHY_get_clean p STARTBYTE Hsim Hstart).
    change (1 <? 0) with false. cbv iota.
    change (Serial.store_at (y :: ft) 0 [STARTBYTE]) with (STARTBYTE :: ft).
    change (rd (STARTBYTE :: ft) 0) with STARTBYTE.
    rewrite Z.eqb_refl. change ((1 <? 1) || negb true) with false.
    cbv iota. rewrite <- after_polls_read, after_polls_0.
    do 2 f_equal. cbn. lia.
  - cbn [length] in *.
    remember (S (length rest)) as fuel eqn:Hfuel.
    cbn [Serial.seek_start]. subst fuel.
    pose proof (Hread 0%nat ltac:(lia)) as Hfirst.
    rewrite Nat.add_0_r in Hfirst. cbn [nth] in Hfirst.
    rewrite (PHY_get_clean p b Hsim Hfirst).
    change (1 <? 0) with false. cbv iota.
    change (Serial.store_at (y :: ft) 0 [b]) with (b :: ft).
    change (rd (b :: ft) 0) with b.
    inversion Hnoise as [|b' rest' Hb Hrest]; subst.
    destruct (Z.eqb_spec b STARTBYTE) as [Heq|_]; [contradiction|].
    change ((1 <? 1) || negb false) with true. cbv iota.
    rewrite timeUp_eq.
    cbn [after_read Serial.clock_ret Serial.clock_calls].
    destruct (Z.ltb_spec (Serial.clock_ret p (Serial.clock_calls p)) timerRx)
      as [_|Hlate]; [|specialize (Hclock (Serial.clock_calls p)); lia].
    cbn [negb]. cbv iota.
    rewrite IH.
    + rewrite after_polls_clock, after_polls_read.
      do 2 f_equal. lia.
    + exact Hsim.
    + intros k Hk.
      cbn [after_clock after_read Serial.read_ret Serial.read_calls].
      replace (S (Serial.read_calls p) + k)%nat
        with (Serial.read_calls p + S k)%nat by lia.
      rewrite Hread by lia. reflexivity.
    + cbn [after_clock after_read Serial.read_ret Serial.read_calls].
      replace (S (Serial.read_calls p) + length rest)%nat
        with (Serial.read_calls p + S (length rest))%nat by lia.
      exact Hstart.
    + exact Hrest.
    + exact Hclock.
Qed.

(** A frame whose frame-size byte is its length, arriving after noise on
    a clean port within the time limit, is what [getFrame] returns. *)
Lemma getFrame_clean (noise frame frameRx : list Z) (maxSize ticks : Z)
    (p : Serial.Port) :
  Serial.simulate_errors p = false ->
  (forall k, (k < length (noise ++ frame))%nat ->
     Serial.read_ret p (Serial.read_calls p + k)
     = Some [nth k (noise ++ frame) 0]) ->
  Forall (fun b => b <> STARTBYTE) noise ->
  rd frame 0 = STARTBYTE ->
  rd frame FRSPOS = Z.of_nat (length frame) ->
  (2 <= length frame <= length frameRx)%nat ->
  Z.of_nat (length frame) < maxSize ->
  (forall k, Serial.clock_ret p k
             < Serial.clock_ret p (Serial.clock_calls p) + ticks) ->
  Serial.getFrame (S (length noise)) frameRx maxSize ticks p
  = Some (Z.of_nat (length frame),
          frame ++ skipn (length frame) frameRx,
          after_polls (length (noise ++ frame)) (length noise + 3) p).
Proof.
  intros Hsim Hread Hnoise Hs Hz Hlen Hmax Hclock.
  destruct frame as [|s [|z rest]]; [simpl in Hlen; lia..|].
  destruct frameRx as [|y [|y1 ft]]; [simpl in Hlen; lia..|].
  change (rd (s :: z :: rest) 0) with s in Hs.
  change (rd (s :: z :: rest) FRSPOS) with z in Hz.
  subst s. cbn [length] in Hlen, Hmax, Hz.
  rewrite length_app in Hread. cbn [length] in Hread.
  set (timerRx := Serial.clock_ret p (Serial.clock_calls p) + ticks) in *.
  assert (Hat : forall k,
             (k < S (S (length rest)))%nat ->
             Serial.read_ret p (Serial.read_calls p + (length noise + k))
             = Some [nth k (STARTBYTE :: z :: rest) 0]).
  { intros k Hk. rewrite Hread by lia.
    rewrite app_nth2 by lia.
    replace (length noise + k - length noise)%nat with k by lia.
    reflexivity. }
  unfold Serial.getFrame. rewrite timeSet_eq. fold timerRx.
  rewrite (seek_start_noise noise y (y1 :: ft) 0 timerRx (after_clock p)).
  - rewrite timeUp_eq.
    cbn [after_polls after_clock Serial.clock_ret Serial.clock_calls].
    destruct (Z.ltb_spec
                (Serial.clock_ret p (length noise + S (Serial.clock_calls p)))
                timerRx) as [_|Hlate];
      [|specialize (Hclock (length noise + S (Serial.clock_calls p))%nat);
        lia].
    cbn [negb]. cbv iota.
    match goal with
    | |- context [Serial.PHY_get 1 ?q] =>
        rewrite (PHY_get_clean q z Hsim);
          [|cbn [after_clock after_polls Serial.read_ret Serial.read_calls];
            pose proof (Hat 1%nat ltac:(lia)) as H1; cbn [nth] in H1;
            rewrite <- H1; f_equal; lia]
    end.
    change (1 <? 0) with false. cbv iota.
    change (Serial.store_at (STARTBYTE :: y1 :: ft) 1 [z])
      with (STARTBYTE :: z :: ft).
    change (rd (STARTBYTE :: z :: ft) FRSPOS) with z.
    replace (Z.to_nat (z - 2)) with (length rest) by lia.
    rewrite rest_loop_clean.
    + assert (Hstore : Serial.store_at (STARTBYTE :: z :: ft) 2 rest
                       = STARTBYTE :: z :: rest ++ skipn (length rest) ft).
      { change 2 with (Z.of_nat 2).
        rewrite store_at_spec by (cbn [length] in *; lia). reflexivity. }
      rewrite Hstore. rewrite timeUp_eq.
      cbn [after_polls after_read after_clock Serial.clock_ret
             Serial.clock_calls].
      match goal with
      | |- context [Serial.clock_ret p ?c <? timerRx] =>
          destruct (Z.ltb_spec (Serial.clock_ret p c) timerRx)
            as [_|Hlate]; [|specialize (Hclock c); lia]
      end.
      cbn [negb]. cbv iota.
      destruct (Z.geb_spec (2 + Z.of_nat (length rest)) maxSize)
        as [Hbig|_]; [lia|].
      f_equal. f_equal; [f_equal|].
      * cbn [length]. lia.
      * unfold after_polls, after_clock, after_read.
        rewrite length_app.
        cbn [length Serial.simulate_errors Serial.threshold Serial.read_ret
               Serial.rand_ret Serial.clock_ret Serial.rand_calls
               Serial.read_calls Serial.clock_calls].
        f_equal; lia.
    + exact Hsim.
    + intros k Hk.
      cbn [after_polls after_read after_clock Serial.read_ret
             Serial.read_calls].
      pose proof (Hat (S (S k)) ltac:(lia)) as H2. cbn [nth] in H2.
      rewrite <- H2. f_equal. lia.
  - exact Hsim.
  - intros k Hk. cbn [after_clock Serial.read_ret Serial.read_calls].
    rewrite Hread by lia. rewrite app_nth1 by lia. reflexivity.
  - cbn [after_clock Serial.read_ret Serial.read_calls].
    pose proof (Hat 0%nat ltac:(lia)) as H0. cbn [nth] in H0.
    rewrite Nat.add_0_r in H0. exact H0.
  - exact Hnoise.
  - intros k. cbn [after_clock Serial.clock_ret]. apply Hclock.
Qed.

(** X25.  Reception on a clean line.  When the port delivers, one byte
    per [read] and without errors, any bytes other than the start
    marker followed by a frame whose frame-size byte is its length, and
    the time limit is not reached, [getFrame] skips the leading bytes
    and returns the length of the frame with the frame at the start of
    the array, the rest of the array untouched, having read exactly
    those bytes. *)
Theorem getFrame_receives_clean_frame
    (noise frame frameRx : list Z) (maxSize ticks : Z) (p : Serial.Port) :
  Serial.simulate_errors p = false ->
  (forall k, (k < length (noise ++ frame))%nat ->
     Serial.read_ret p (Serial.read_calls p + k)
     = Some [nth k (noise ++ frame) 0]) ->
  Forall (fun b => b <> STARTBYTE) noise ->
  rd frame 0 = STARTBYTE ->
  rd frame FRSPOS = Z.of_nat (length frame) ->
  (2 <= length frame <= length frameRx)%nat ->
  Z.of_nat (length frame) < maxSize ->
  (forall k, Serial.clock_ret p k
             < Serial.clock_ret p (Serial.clock_calls p) + ticks) ->
  exists p',
    Serial.getFrame (S (length noise)) frameRx maxSize ticks p
    = Some (Z.of_nat (length frame),
            frame ++ skipn (length frame) frameRx, p')
    /\ Serial.read_calls p'
       = (length noise + length frame + Serial.read_calls p)%nat.
Proof.
  intros Hsim Hread Hnoise Hs Hz Hlen Hmax Hclock.
  eexists. split.
  - apply getFrame_clean; assumption.
  - cbn [after_polls Serial.read_calls]. rewrite length_app. reflexivity.
Qed.

Lemma getFrame_receives_clean_frame_witness :
  (Serial.simulate_errors (wire_port ([7; 9] ++ [212; 5; 0; 5; 204])) = false
   /\ (forall k, (k < length ([7; 9]%Z ++ [212; 5; 0; 5; 204]%Z))%nat ->
         Serial.read_ret (wire_port ([7; 9] ++ [212; 5; 0; 5; 204]))
           (Serial.read_calls (wire_port ([7; 9] ++ [212; 5; 0; 5; 204])) + k)
         = Some [nth k ([7; 9] ++ [212; 5; 0; 5; 204]) 0])
   /\ Forall (fun b => b <> STARTBYTE) [7; 9]
   /\ rd [212; 5; 0; 5; 204] 0 = STARTBYTE
   /\ rd [212; 5; 0; 5; 204] FRSPOS = Z.of_nat (length [212; 5; 0; 5; 204])
   /\ (2 <= length [212; 5; 0; 5; 204]%Z <= length (repeat 0%Z 8))%nat
   /\ Z.of_nat (length [212; 5; 0; 5; 204]) < 8
   /\ (forall k,
         Serial.clock_ret (wire_port ([7; 9] ++ [212; 5; 0; 5; 204])) k
         < Serial.clock_ret (wire_port ([7; 9] ++ [212; 5; 0; 5; 204]))
             (Serial.clock_calls (wire_port ([7; 9] ++ [212; 5; 0; 5; 204])))
           + 10))
  /\ exists p',
       Serial.getFrame (S (length [7; 9])) (repeat 0 8) 8 10
         (wire_port ([7; 9] ++ [212; 5; 0; 5; 204]))
       = Some (Z.of_nat (length [212; 5; 0; 5; 204]),
               [212; 5; 0; 5; 204] ++ skipn (length [212; 5; 0; 5; 204])
                                        (repeat 0 8), p')
       /\ Serial.read_calls p'
          = (length [7; 9]%Z + length [212; 5; 0; 5; 204]%Z
             + Serial.read_calls
                 (wire_port ([7; 9] ++ [212; 5; 0; 5; 204])%Z))%nat.
Proof.
  set (p := wire_port ([7; 9] ++ [212; 5; 0; 5; 204])).
  assert (H1 : Serial.simulate_errors p = false) by reflexivity.
  assert (H2 : forall k, (k < length ([7; 9]%Z ++ [212; 5; 0; 5; 204]%Z))%nat ->
             Serial.read_ret p (Serial.read_calls p + k)
             = Some [nth k ([7; 9] ++ [212; 5; 0; 5; 204]) 0])
    by (intros k _; reflexivity).
  assert (H3 : Forall (fun b => b <> STARTBYTE) [7; 9])
    by (repeat constructor; unfold STARTBYTE; lia).
  assert (H4 : rd [212; 5; 0; 5; 204] 0 = STARTBYTE) by reflexivity.
  assert (H5 : rd [212; 5; 0; 5; 204] FRSPOS
               = Z.of_nat (length [212; 5; 0; 5; 204])) by reflexivity.
  assert (H6 : (2 <= length [212; 5; 0; 5; 204]%Z <= length (repeat 0%Z 8))%nat)
    by (simpl; lia).
  assert (H7 : Z.of_nat (length [212; 5; 0; 5; 204]) < 8) by (simpl; lia).
  assert (H8 : forall k,
             Serial.clock_ret p k
             < Serial.clock_ret p (Serial.clock_calls p) + 10)
    by (intros k; simpl; lia).
  split; [repeat split; assumption || apply H6|].
  exact (getFrame_receives_clean_frame [7; 9] [212; 5; 0; 5; 204]
           (repeat 0 8) 8 10 p H1 H2 H3 H4 H5 H6 H7 H8).
Defined.

(** ** What the receiver reads of the frame array *)

Lemma rd_app_l (a t : list Z) (i : Z) :
  i < Z.of_nat (length a) -> rd (a ++ t) i = rd a i.
Proof.
  intros Hi. unfold rd. destruct (Z.ltb_spec i 0) as [_|Hpos]; [reflexivity|].
  apply app_nth1. lia.
Qed.

Lemma check_loop_app (a t : list Z) (n : nat) :
  forall (i acc : Z),
    0 <= i -> i + Z.of_nat n + 1 <= Z.of_nat (length a) ->
    check_loop (a ++ t) n i acc = check_loop a n i acc.
Proof.
  induction n as [|n IH]; intros i acc Hi Hlen; cbn [check_loop];
    [reflexivity|].
  rewrite rd_app_l by (unfold HEADERSIZE; lia).
  apply IH; lia.
Qed.

Lemma checkFrame_app (a t : list Z) (sizeFrame : Z) :
  2 <= sizeFrame <= Z.of_nat (length a) ->
  checkFrame (a ++ t) sizeFrame = checkFrame a sizeFrame.
Proof.
  intros Hsize. unfold checkFrame.
  rewrite check_loop_app by lia.
  rewrite !rd_app_l by lia. reflexivity.
Qed.

Lemma process_loop_app (a t : list Z) (n : nat) :
  forall (i : Z) (dataRx : list Z),
    0 <= i -> HEADERSIZE + i + Z.of_nat n <= Z.of_nat (length a) ->
    process_loop (a ++ t) n i dataRx = process_loop a n i dataRx.
Proof.
  induction n as [|n IH]; intros i dataRx Hi Hlen; cbn [process_loop];
    [reflexivity|].
  rewrite rd_app_l by lia. apply IH; lia.
Qed.

Lemma processFrame_app (a t : list Z) (sizeFrame : Z) (dataRx : list Z)
    (maxData : Z) :
  3 <= sizeFrame <= Z.of_nat (length a) ->
  processFrame (a ++ t) sizeFrame dataRx maxData
  = processFrame a sizeFrame dataRx maxData.
Proof.
  intros Hsize. unfold processFrame.
  rewrite rd_app_l by (unfold SEQNUMPOS; lia).
  rewrite process_loop_app; [reflexivity | lia |].
  unfold HEADERSIZE, TRAILERSIZE.
  destruct (Z.gtb_spec (sizeFrame - 3 - 2) maxData); lia.
Qed.

Lemma frame_reads_firstn (frameRx : list Z) (sizeFrame : Z)
    (dataRx : list Z) (maxData : Z) :
  3 <= sizeFrame ->
  checkFrame frameRx sizeFrame
  = checkFrame (firstn (Z.to_nat sizeFrame) frameRx) sizeFrame
  /\ processFrame frameRx sizeFrame dataRx maxData
     = processFrame (firstn (Z.to_nat sizeFrame) frameRx) sizeFrame
         dataRx maxData.
Proof.
  intros Hsize.
  destruct (Nat.le_gt_cases (length frameRx) (Z.to_nat sizeFrame))
    as [Hshort|Hlong].
  - rewrite firstn_all2 by exact Hshort. split; reflexivity.
  - rewrite <- (firstn_skipn (Z.to_nat sizeFrame) frameRx) at 1 3.
    assert (Hl : length (firstn (Z.to_nat sizeFrame) frameRx)
                 = Z.to_nat sizeFrame)
      by (apply firstn_length_le; lia).
    split; [apply checkFrame_app | apply processFrame_app]; lia.
Qed.

(** X26.  The receiver reads no byte beyond those received.  For a
    frame of at least three bytes, [checkFrame] and [processFrame]
    depend only on the first [sizeFrame] cells of the frame array: two
    arrays that agree there give the same verdict, the same byte count,
    the same bytes copied out and the same sequence number, whatever
    the rest of the arrays holds. *)
Theorem frame_read_within_size
    (frameRx1 frameRx2 : list Z) (sizeFrame : Z) (dataRx : list Z)
    (maxData : Z) :
  3 <= sizeFrame ->
  firstn (Z.to_nat sizeFrame) frameRx1 = firstn (Z.to_nat sizeFrame) frameRx2 ->
  checkFrame frameRx1 sizeFrame = checkFrame frameRx2 sizeFrame
  /\ processFrame frameRx1 sizeFrame dataRx maxData
     = processFrame frameRx2 sizeFrame dataRx maxData.
Proof.
  intros Hsize Hsame.
  destruct (frame_reads_firstn frameRx1 sizeFrame dataRx maxData Hsize)
    as [Hc1 Hp1].
  destruct (frame_reads_firstn frameRx2 sizeFrame dataRx maxData Hsize)
    as [Hc2 Hp2].
  rewrite Hc1, Hp1, Hc2, Hp2, Hsame. split; reflexivity.
Qed.

Lemma frame_read_within_size_witness :
  (3 <= 5
   /\ firstn (Z.to_nat 5) [212; 5; 0; 5; 204; 1; 2; 3]
      = firstn (Z.to_nat 5) [212; 5; 0; 5; 204; 9])
  /\ checkFrame [212; 5; 0; 5; 204; 1; 2; 3] 5
     = checkFrame [212; 5; 0; 5; 204; 9] 5
  /\ processFrame [212; 5; 0; 5; 204; 1; 2; 3] 5 [0; 0] 2
     = processFrame [212; 5; 0; 5; 204; 9] 5 [0; 0] 2.
Proof.
  assert (H1 : 3 <= 5) by lia.
  assert (H2 : firstn (Z.to_nat 5) [212; 5; 0; 5; 204; 1; 2; 3]
               = firstn (Z.to_nat 5) [212; 5; 0; 5; 204; 9]) by reflexivity.
  split; [split; assumption|].
  exact (frame_read_within_size [212; 5; 0; 5; 204; 1; 2; 3]
           [212; 5; 0; 5; 204; 9] 5 [0; 0] 2 H1 H2).
Defined.

(** X27.  A block across a clean line, byte by byte.  The frame that
    [buildDataFrame] writes for a block of at most [MAX_BLK] bytes,
    delivered by the port one byte per [read] without errors (after any
    bytes that are not the start marker) and within the time limit, is
    picked up by [getFrame], which returns the frame size the sender
    computed; the frame array then passes [checkFrame], and
    [processFrame] hands back exactly the sender's block and sequence
    number, whatever the frame array held before. *)
Theorem block_crosses_clean_line
    (noise dataTx frameRx dataRx : list Z) (seq maxSize maxData ticks : Z)
    (p : Serial.Port) :
  Forall is_byte dataTx ->
  Z.of_nat (length dataTx) <= MAX_BLK ->
  0 <= seq < MOD_SEQNUM ->
  Serial.simulate_errors p = false ->
  (forall k,
     (k < length (noise ++ fst (buildDataFrame dataTx seq)))%nat ->
     Serial.read_ret p (Serial.read_calls p + k)
     = Some [nth k (noise ++ fst (buildDataFrame dataTx seq)) 0]) ->
  Forall (fun b => b <> STARTBYTE) noise ->
  (length (fst (buildDataFrame dataTx seq)) <= length frameRx)%nat ->
  snd (buildDataFrame dataTx seq) < maxSize ->
  (forall k, Serial.clock_ret p k
             < Serial.clock_ret p (Serial.clock_calls p) + ticks) ->
  Z.of_nat (length dataTx) <= maxData ->
  (length dataTx <= length dataRx)%nat ->
  exists frameRx' p',
    Serial.getFrame (S (length noise)) frameRx maxSize ticks p
    = Some (snd (buildDataFrame dataTx seq), frameRx', p')
    /\ checkFrame frameRx' (snd (buildDataFrame dataTx seq)) = FRAMEGOOD
    /\ processFrame frameRx' (snd (buildDataFrame dataTx seq)) dataRx maxData
       = (Z.of_nat (length dataTx),
          dataTx ++ skipn (length dataTx) dataRx, seq).
Proof.
  intros Hb Hlen Hseq Hsim Hread Hnoise Hroom Hmax Hclock Hdata Hbuf.
  destruct (built_frame_accepted dataTx seq maxData dataRx
              Hb Hlen Hseq Hdata Hbuf) as (_ & Hgood & _ & Hproc).
  rewrite buildDataFrame_size in *.
  set (frameTx := fst (buildDataFrame dataTx seq)) in *.
  assert (Hshape : rd frameTx 0 = STARTBYTE
                   /\ rd frameTx FRSPOS = Z.of_nat (length frameTx)
                   /\ 5 <= Z.of_nat (length frameTx)).
  { unfold frameTx. rewrite <- buildDataFrame_size.
    rewrite buildDataFrame_eq. cbn [fst snd].
    unfold MAX_BLK in Hlen.
    split; [reflexivity|]. split; [|lia].
    change (rd _ FRSPOS) with (to_byte (5 + Z.of_nat (length dataTx))).
    apply to_byte_id. unfold is_byte. lia. }
  destruct Hshape as (Hs & Hz & Hfive).
  exists (frameTx ++ skipn (length frameTx) frameRx).
  eexists. split.
  - apply getFrame_clean; try assumption. lia.
  - split.
    + rewrite checkFrame_app by lia. exact Hgood.
    + rewrite processFrame_app by lia. exact Hproc.
Qed.

Lemma block_crosses_clean_line_witness :
  (Forall is_byte [1; 2; 3]
   /\ Z.of_nat (length [1; 2; 3]) <= MAX_BLK
   /\ 0 <= 0 < MOD_SEQNUM
   /\ Serial.simulate_errors block_port = false
   /\ (forall k,
         (k < length ([7] ++ fst (buildDataFrame [1; 2; 3] 0))%Z)%nat ->
         Serial.read_ret block_port (Serial.read_calls block_port + k)
         = Some [nth k ([7] ++ fst (buildDataFrame [1; 2; 3] 0)) 0])
   /\ Forall (fun b => b <> STARTBYTE) [7]
   /\ (length (fst (buildDataFrame [1; 2; 3] 0)%Z)
       <= length (repeat 0%Z 600))%nat
   /\ snd (buildDataFrame [1; 2; 3] 0) < 3 * MAX_BLK
   /\ (forall k,
         Serial.clock_ret block_port k
         < Serial.clock_ret block_port (Serial.clock_calls block_port) + 10)
   /\ Z.of_nat (length [1; 2; 3]) <= 16
   /\ (length [1; 2; 3]%Z <= length (repeat 0%Z 16))%nat)
  /\ exists frameRx' p',
       Serial.getFrame (S (length [7])) (repeat 0 600) (3 * MAX_BLK) 10
         block_port
       = Some (snd (buildDataFrame [1; 2; 3] 0), frameRx', p')
       /\ checkFrame frameRx' (snd (buildDataFrame [1; 2; 3] 0)) = FRAMEGOOD
       /\ processFrame frameRx' (snd (buildDataFrame [1; 2; 3] 0))
            (repeat 0 16) 16
          = (Z.of_nat (length [1; 2; 3]),
             [1; 2; 3] ++ skipn (length [1; 2; 3]) (repeat 0 16), 0).
Proof.
  assert (H1 : Forall is_byte [1; 2; 3])
    by (repeat constructor; unfold is_byte; lia).
  assert (H2 : Z.of_nat (length [1; 2; 3]) <= MAX_BLK)
    by (vm_compute; discriminate).
  assert (H3 : 0 <= 0 < MOD_SEQNUM) by (unfold MOD_SEQNUM; lia).
  assert (H4 : Serial.simulate_errors block_port = false) by reflexivity.
  assert (H5 : forall k,
             (k < length ([7] ++ fst (buildDataFrame [1; 2; 3] 0))%Z)%nat ->
             Serial.read_ret block_port (Serial.read_calls block_port + k)
             = Some [nth k ([7] ++ fst (buildDataFrame [1; 2; 3] 0)) 0])
    by (intros k _; reflexivity).
  assert (H6 : Forall (fun b => b <> STARTBYTE) [7])
    by (repeat constructor; unfold STARTBYTE; lia).
  assert (H7 : (length (fst (buildDataFrame [1; 2; 3] 0)%Z)
                <= length (repeat 0%Z 600))%nat)
    by (vm_compute; lia).
  assert (H8 : snd (buildDataFrame [1; 2; 3] 0) < 3 * MAX_BLK)
    by (vm_compute; reflexivity).
  assert (H9 : forall k,
             Serial.clock_ret block_port k
             < Serial.clock_ret block_port (Serial.clock_calls block_port)
               + 10)
    by (intros k; simpl; lia).
  assert (H10 : Z.of_nat (length [1; 2; 3]) <= 16) by (simpl; lia).
  assert (H11 : (length [1; 2; 3]%Z <= length (repeat 0%Z 16))%nat)
    by (simpl; lia).
  split; [repeat split; assumption || apply H3|].
  exact (block_crosses_clean_line [7] [1; 2; 3] (repeat 0 600) (repeat 0 16)
           0 (3 * MAX_BLK) 16 10 block_port
           H1 H2 H3 H4 H5 H6 H7 H8 H9 H10 H11).
Defined.
